(** * PyHa: chunking, IoU matching and aggregation of annotation tables

    A shallow embedding of [PyHa/annotation_post_processing.py] and
    [PyHa/statistics.py], followed by the properties their specification
    states about them.

    Conventions of the embedding.
    - A pandas DataFrame of annotations is the list of its rows, in row
      order, each row carrying the eight columns of the Kaleidoscope format
      without missing values; its row labels are distinct.  A boolean-mask
      selection is [filter]; [unique] keeps first occurrences in order, as
      pandas does.
    - The float columns (seconds) and every float computed from them are
      exact rationals ([Q]): rounding error of binary64 arithmetic is not
      modelled.  A statement that reads a sample index, an array length or
      an instant off the inputs therefore asks for inputs on which
      binary64 arithmetic is exact ([is_binary64]), and a statement on a
      ratio reported to four or six digits bounds its distance to the exact
      ratio.  Where numpy produces [nan] or [inf] instead of raising, the
      value is a [float64] with those two specials.
    - numpy arrays holding only the values 0.0 and 1.0, and the counts summed
      from them, are lists of integers.
    - A Python exception is a [Raise] result; a [for] loop that updates local
      variables is [for_each] over the list it iterates, threading them.
    - Printing is not modelled, except where building the printed text can
      raise.

    The definitions come first: Python and numpy primitives, the two source
    files, then the notions the statements use.  The properties follow,
    those of the specification marked with their number (C1 to C10). *)

From Stdlib Require Import ZArith QArith Qround Qminmax Qreduction.
From Stdlib Require Import List String Ascii Bool Lia Lqa DecimalString.
Import ListNotations.

Local Open Scope Z_scope.

(** ** Exceptions and loops *)

Inductive exn : Set :=
| AssertionError | IndexError | KeyError | OverflowError
| TypeError | UnboundLocalError | ValueError | ZeroDivisionError.

Inductive result (A : Type) : Type :=
| Ok (a : A)
| Raise (e : exn).

Arguments Ok {A} a.
Arguments Raise {A} e.

Definition bind {A B} (m : result A) (k : A -> result B) : result B :=
  match m with
  | Ok a => k a
  | Raise e => Raise e
  end.

Definition assert (b : bool) : result unit :=
  if b then Ok tt else Raise AssertionError.

Notation "x <- m ;; k" := (bind m (fun x => k))
  (at level 61, m at next level, right associativity).

(** [for x in xs: body], the loop's variables being the state [s]. *)
Fixpoint for_each {X S} (xs : list X) (body : X -> S -> result S) (s : S)
  : result S :=
  match xs with
  | [] => Ok s
  | x :: rest => bind (body x s) (for_each rest body)
  end.

(** A loop that may [break]: the body says whether to go on. *)
Inductive flow (S : Type) : Type :=
| Continue (s : S)
| Break (s : S).

Arguments Continue {S} s.
Arguments Break {S} s.

Fixpoint for_each_break {X S} (xs : list X) (body : X -> S -> result (flow S))
    (s : S) : result (flow S) :=
  match xs with
  | [] => Ok (Continue s)
  | x :: rest =>
      f <- body x s ;;
      match f with
      | Continue s' => for_each_break rest body s'
      | Break s' => Ok (Break s')
      end
  end.

(** ** Python: numbers, sequences, strings *)

Module Py.

(** [int(round(x, 0))]: to the nearest integer, a tie going to the even
    neighbour. *)
Definition int_round (x : Q) : Z :=
  let f := Qfloor x in
  match (x - inject_Z f ?= 1 # 2)%Q with
  | Lt => f
  | Gt => f + 1
  | Eq => if Z.even f then f else f + 1
  end.

(** [round(x, ndigits)] for a positive number of digits. *)
Definition round (x : Q) (ndigits : nat) : Q :=
  let p := inject_Z (10 ^ Z.of_nat ndigits) in
  Qred (inject_Z (int_round (x * p)) / p).

(** [int(x)] on a float: truncation towards zero. *)
Definition int (x : Q) : Z := Z.quot (Qnum x) (Zpos (Qden x)).

(** [a // b] on integers. *)
Definition floordiv (a b : Z) : result Z :=
  if b =? 0 then Raise ZeroDivisionError else Ok (a / b).

(** [a / b] on Python floats and ints. *)
Definition truediv (a b : Q) : result Q :=
  if Qeq_bool b 0 then Raise ZeroDivisionError else Ok (a / b)%Q.

(** [range(n)] and [range(0, stop, step)]. *)
Definition range (n : Z) : list Z := map Z.of_nat (seq 0 (Z.to_nat n)).

Definition range_step (stop step : Z) : result (list Z) :=
  if step =? 0 then Raise ValueError
  else
    let n := if 0 <? step then (stop + step - 1) / step
             else (- stop - step - 1) / (- step) in
    Ok (map (fun k => k * step) (range n)).

(** [range(start, stop)]. *)
Definition range_from (start stop : Z) : list Z :=
  map (fun k => start + k) (range (stop - start)).

(** Slice bounds [a[i:j]] on a sequence of length [n]: a negative bound
    counts from the end, and both are clamped to [0..n]. *)
Definition slice_bound (n i : Z) : Z :=
  if i <? 0 then Z.max 0 (i + n) else Z.min i n.

Definition getslice {A} (a : list A) (i j : Z) : list A :=
  let n := Z.of_nat (List.length a) in
  let lo := slice_bound n i in
  let hi := slice_bound n j in
  firstn (Z.to_nat (hi - lo)) (skipn (Z.to_nat lo) a).

(** [a[i]]: a negative index counts from the end. *)
Definition getitem {A} (a : list A) (i : Z) : result A :=
  let n := Z.of_nat (List.length a) in
  let k := if i <? 0 then i + n else i in
  if (k <? 0) || (n <=? k) then Raise IndexError
  else match nth_error a (Z.to_nat k) with
       | Some x => Ok x
       | None => Raise IndexError
       end.

(** The builtin [max] over a sequence of numbers. *)
Definition max (a : list Z) : result Z :=
  match a with
  | [] => Raise ValueError
  | x :: rest => Ok (fold_left Z.max rest x)
  end.

(** [list(dict.fromkeys(l))] and pandas' [Series.unique()]: the distinct
    values, in order of first occurrence. *)
Fixpoint unique (l : list string) : list string :=
  match l with
  | [] => []
  | x :: rest => x :: filter (fun y => negb (String.eqb y x)) (unique rest)
  end.

(** [sep.join(parts)] and [s.split(sep)] for a one-character separator. *)
Fixpoint join (sep : string) (parts : list string) : string :=
  match parts with
  | [] => EmptyString
  | [p] => p
  | p :: rest => (p ++ sep ++ join sep rest)%string
  end.

Fixpoint split (sep : ascii) (s : string) : list string :=
  match s with
  | EmptyString => [EmptyString]
  | String c rest =>
      if Ascii.eqb c sep then EmptyString :: split sep rest
      else match split sep rest with
           | [] => [String c EmptyString]
           | p :: ps => String c p :: ps
           end
  end.

(** [l[:-1]]. *)
Definition droplast {A} (l : list A) : list A := removelast l.

(** Values of the two types the end-of-run message concatenates, and [+]
    between them. *)
Inductive value : Type :=
| Str (s : string)
| Int (z : Z).

Definition add (a b : value) : result value :=
  match a, b with
  | Str s, Str t => Ok (Str (s ++ t)%string)
  | Int x, Int y => Ok (Int (x + y))
  | _, _ => Raise TypeError
  end.

End Py.

(** ** numpy: float64 specials, arrays of 0/1 samples, reductions *)

Module Np.

(** A float64 result that may be non-finite: numpy's true division does not
    raise on a zero divisor. *)
Inductive float64 : Type :=
| Fin (q : Q)
| Inf (negative : bool)
| NaN.

Definition is_neg (q : Q) : bool := negb (Qle_bool 0 q).

Definition fdiv (a b : float64) : float64 :=
  match a, b with
  | NaN, _ | _, NaN => NaN
  | Inf _, Inf _ => NaN
  | Inf s, Fin y => Inf (xorb s (is_neg y))
  | Fin _, Inf _ => Fin 0
  | Fin x, Fin y =>
      if Qeq_bool y 0 then (if Qeq_bool x 0 then NaN else Inf (is_neg x))
      else Fin (x / y)
  end.

Definition fmul (a b : float64) : float64 :=
  match a, b with
  | NaN, _ | _, NaN => NaN
  | Inf s, Inf t => Inf (xorb s t)
  | Inf s, Fin y | Fin y, Inf s =>
      if Qeq_bool y 0 then NaN else Inf (xorb s (is_neg y))
  | Fin x, Fin y => Fin (x * y)
  end.

Definition fadd (a b : float64) : float64 :=
  match a, b with
  | NaN, _ | _, NaN => NaN
  | Inf s, Inf t => if Bool.eqb s t then Inf s else NaN
  | Inf s, Fin _ | Fin _, Inf s => Inf s
  | Fin x, Fin y => Fin (x + y)
  end.

(** [round(x, ndigits)] leaves the specials alone. *)
Definition fround (a : float64) (ndigits : nat) : float64 :=
  match a with
  | Fin x => Fin (Py.round x ndigits)
  | other => other
  end.

(** [math.floor(x)]. *)
Definition floor (a : float64) : result Z :=
  match a with
  | Fin x => Ok (Qfloor x)
  | Inf _ => Raise OverflowError
  | NaN => Raise ValueError
  end.

(** [np.zeros(n)] and [np.zeros((r, n))]. *)
Definition zeros (n : Z) : result (list Z) :=
  if n <? 0 then Raise ValueError else Ok (repeat 0 (Z.to_nat n)).

Definition zeros2 (r : nat) (n : Z) : result (list (list Z)) :=
  row <- zeros n ;; Ok (repeat row r).

(** [a[i:j] = v]. *)
Definition setslice (a : list Z) (i j v : Z) : list Z :=
  let n := Z.of_nat (List.length a) in
  let lo := Py.slice_bound n i in
  let hi := Py.slice_bound n j in
  if lo <? hi
  then firstn (Z.to_nat lo) a ++ repeat v (Z.to_nat (hi - lo))
         ++ skipn (Z.to_nat hi) a
  else a.

(** [np.count_nonzero(a == v)]. *)
Definition count_eq (a : list Z) (v : Z) : Z :=
  Z.of_nat (List.length (filter (fun x => x =? v) a)).

(** One entry of [np.matmul(h, b.transpose())]: the dot product of two rows. *)
Fixpoint dot (u v : list Z) : Z :=
  match u, v with
  | x :: u', y :: v' => x * y + dot u' v'
  | _, _ => 0
  end.

(** [np.sum(np.logical_or(u, v))]. *)
Fixpoint sum_logical_or (u v : list Z) : Z :=
  match u, v with
  | x :: u', y :: v' =>
      (if negb (x =? 0) || negb (y =? 0) then 1 else 0) + sum_logical_or u' v'
  | _, _ => 0
  end.

(** A two-dimensional float array with its shape, which numpy keeps even
    when one of the two dimensions is zero. *)
Record matrix : Type := mkMatrix {
  nrows : nat;
  ncols : nat;
  rows : list (list Q)
}.

Definition column (m : matrix) (j : nat) : list Q :=
  map (fun r => nth j r 0%Q) (rows m).

Definition qmax_list (x : Q) (l : list Q) : Q := fold_left Qmax l x.

(** [np.max(m, axis=1)] and [np.max(m, axis=0)]: a reduction over an axis of
    length zero has no identity and raises. *)
Definition max_axis1 (m : matrix) : result (list Q) :=
  if Nat.eqb (ncols m) 0 then Raise ValueError
  else Ok (map (fun r => match r with
                         | [] => 0%Q
                         | x :: rest => qmax_list x rest
                         end) (rows m)).

Definition max_axis0 (m : matrix) : result (list Q) :=
  if Nat.eqb (nrows m) 0 then Raise ValueError
  else Ok (map (fun j => match column m j with
                         | [] => 0%Q
                         | x :: rest => qmax_list x rest
                         end) (seq 0 (ncols m))).

End Np.

(** ** The annotation table *)

(** One row of a Kaleidoscope-format table. *)
Record Annotation : Type := mkAnnotation {
  FOLDER : string;
  IN_FILE : string;
  CLIP_LENGTH : Q;
  CHANNEL : Z;
  OFFSET : Q;
  DURATION : Q;
  SAMPLE_RATE : Z;
  MANUAL_ID : string
}.

Definition DataFrame : Type := list Annotation.

(** [df[col].unique()[0]] and [df[col].to_list()[0]]: the first row's value. *)
Definition first_value {A} (col : Annotation -> A) (df : DataFrame) : result A :=
  match df with
  | [] => Raise IndexError
  | r :: _ => Ok (col r)
  end.

(** The loop shared by the chunker, [clip_general], [clip_IoU] and
    [clip_catch]: every row's label is placed on the array as
    [arr[minval:maxval] = 1], the bounds being the row's start and end times
    [scale] samples per second. *)
Definition label_bounds (scale : Q) (row : Annotation) : Z * Z :=
  (Py.int_round (OFFSET row * scale),
   Py.int_round ((OFFSET row + DURATION row) * scale)).

Definition place_label (scale : Q) (arr : list Z) (row : Annotation) : list Z :=
  let '(minval, maxval) := label_bounds scale row in
  Np.setslice arr minval maxval 1.

Definition place_labels (scale : Q) (df : DataFrame) (arr : list Z) : list Z :=
  fold_left (place_label scale) df arr.

(** ** annotation_post_processing.py *)

Module annotation_post_processing.

Definition FILEPATH (r : Annotation) : string := (FOLDER r ++ IN_FILE r)%string.

(** The window of chunk [index] on the millisecond array:
    [chunk_start] and [chunk_end] of the source. *)
Definition chunk_start (chunk_length : Q) (index : Z) : Q :=
  inject_Z index * (chunk_length * 1000).

Definition chunk_end (chunk_length : Q) (arr_len : Z) (index : Z) : Q :=
  Qmin ((inject_Z index + 1) * chunk_length * 1000) (inject_Z arr_len).

(** The row built for a chunk that holds a label. *)
Definition chunk_row (path file bird : string) (clip_len : Q) (sr : Z)
    (chunk_length : Q) (index : Z) : Annotation :=
  {| FOLDER := path; IN_FILE := file; CLIP_LENGTH := clip_len;
     CHANNEL := 0; OFFSET := chunk_start chunk_length index / 1000;
     DURATION := chunk_length; SAMPLE_RATE := sr; MANUAL_ID := bird |}.

(** The body of [for index in range(potential_annotation_count)]. *)
Definition chunk_step (path file bird : string) (clip_len : Q) (sr : Z)
    (chunk_length : Q) (arr_len : Z) (human_arr : list Z)
    (index : Z) (output_df : DataFrame) : result DataFrame :=
  let cs := chunk_start chunk_length index in
  let ce := chunk_end chunk_length arr_len index in
  let chunk := Py.getslice human_arr (Py.int cs) (Py.int ce) in
  m <- Py.max chunk ;;
  if Qle_bool (1 # 2) (inject_Z m)
  then Ok (output_df ++
           [chunk_row path file bird clip_len sr chunk_length index])
  else Ok output_df.

(** The body of [for bird in birds]. *)
Definition bird_step (clip_df : DataFrame) (path file : string) (clip_len : Q)
    (sr : Z) (chunk_length : Q) (potential_annotation_count arr_len : Z)
    (bird : string) (output_df : DataFrame) : result DataFrame :=
  let species_df := filter (fun r => String.eqb (MANUAL_ID r) bird) clip_df in
  zeros <- Np.zeros arr_len ;;
  let human_arr := place_labels 1000 species_df zeros in
  for_each (Py.range potential_annotation_count)
    (chunk_step path file bird clip_len sr chunk_length arr_len human_arr)
    output_df.

(** The body of [for clip in clips]. *)
Definition clip_step (kaleidoscope_df : DataFrame) (chunk_length : Q)
    (clip : string) (output_df : DataFrame) : result DataFrame :=
  let clip_df :=
    filter (fun r => String.eqb (FILEPATH r) clip) kaleidoscope_df in
  path <- first_value FOLDER clip_df ;;
  file <- first_value IN_FILE clip_df ;;
  let birds := Py.unique (map MANUAL_ID clip_df) in
  sr <- first_value SAMPLE_RATE clip_df ;;
  clip_len <- first_value CLIP_LENGTH clip_df ;;
  if negb (Qle_bool chunk_length clip_len) then Ok output_df
  else
    potential_annotation_count <-
      Py.floordiv (Py.int clip_len) (Py.int chunk_length) ;;
    let arr_len := Py.int (clip_len * 1000) in
    for_each birds
      (bird_step clip_df path file clip_len sr chunk_length
                 potential_annotation_count arr_len)
      output_df.

Definition annotation_chunker (kaleidoscope_df : DataFrame) (chunk_length : Q)
  : result DataFrame :=
  let clips := Py.unique (map FILEPATH kaleidoscope_df) in
  for_each clips (clip_step kaleidoscope_df chunk_length) [].

(** The windows the chunker examines on a clip of length [clip_len]: the
    slice bounds of every iteration of its innermost loop. *)
Definition windows_considered (clip_len chunk_length : Q)
  : result (list (Z * Z)) :=
  if negb (Qle_bool chunk_length clip_len) then Ok []
  else
    potential_annotation_count <-
      Py.floordiv (Py.int clip_len) (Py.int chunk_length) ;;
    let arr_len := Py.int (clip_len * 1000) in
    Ok (map (fun index =>
               (Py.int (chunk_start chunk_length index),
                Py.int (chunk_end chunk_length arr_len index)))
            (Py.range potential_annotation_count)).

(** *** The arrays for the ROC curve *)

(** [np.unique(df.set_index(["FOLDER","IN FILE"]).index)]: the distinct
    (folder, file) pairs in increasing order, pairs being compared
    component by component and strings character by character. *)
Definition item : Type := (string * string)%type.

Definition item_compare (a b : item) : comparison :=
  match String.compare (fst a) (fst b) with
  | Eq => String.compare (snd a) (snd b)
  | c => c
  end.

Fixpoint insert_item (x : item) (l : list item) : list item :=
  match l with
  | [] => [x]
  | y :: rest =>
      match item_compare x y with
      | Lt => x :: l
      | Eq => l
      | Gt => y :: insert_item x rest
      end
  end.

Definition np_unique_index (df : DataFrame) : list item :=
  fold_right insert_item [] (map (fun r => (FOLDER r, IN_FILE r)) df).

Definition clip_rows (df : DataFrame) (it : item) : DataFrame :=
  filter (fun r => String.eqb (FOLDER r) (fst it)
                   && String.eqb (IN_FILE r) (snd it)) df.

(** [df.iloc[0][col]]. *)
Definition iloc0 {A} (col : Annotation -> A) (df : DataFrame) : result A :=
  match df with
  | [] => Raise IndexError
  | r :: _ => Ok (col r)
  end.

(** Comparisons of a finite number with a float64. *)
Definition le_float (x : Q) (y : Np.float64) : bool :=
  match y with
  | Np.Fin q => Qle_bool x q
  | Np.Inf negative => negb negative
  | Np.NaN => false
  end.

Definition ge_float (x : Q) (y : Np.float64) : bool :=
  match y with
  | Np.Fin q => Qle_bool q x
  | Np.Inf negative => negative
  | Np.NaN => false
  end.

(** The array starts at zero and entry [i] is set to 1 when a label holds
    the instant [i * seconds_per_index]. *)
Definition convert_label_to_local_score (manual_df : DataFrame)
    (size_of_local_score : Z) : result (list Z) :=
  duration_of_clip <- iloc0 CLIP_LENGTH manual_df ;;
  let seconds_per_index :=
    Np.fdiv (Np.Fin duration_of_clip)
            (Np.Fin (inject_Z size_of_local_score)) in
  local_score <- Np.zeros size_of_local_score ;;
  Ok (map (fun i =>
             let current_seconds :=
               Np.fmul (Np.Fin (inject_Z i)) seconds_per_index in
             let annotations_at_time :=
               filter (fun r => le_float (OFFSET r) current_seconds
                                && ge_float (OFFSET r + DURATION r)
                                            current_seconds) manual_df in
             match annotations_at_time with
             | [] => 0
             | _ => 1
             end)
          (Py.range size_of_local_score)).

(** An entry of [chunk_size_list]. *)
Definition chunk_size_entry : Type := (Z * Q * string)%type.

Definition target_step (chunked_manual_df : DataFrame) (chunk_size : Q)
    (it : item) (s : list Z * list chunk_size_entry)
  : result (list Z * list chunk_size_entry) :=
  let '(target_score_array, chunk_size_list) := s in
  let clip_df := clip_rows chunked_manual_df it in
  clip_duration <- iloc0 CLIP_LENGTH clip_df ;;
  number_of_chunks <-
    Np.floor (Np.fdiv (Np.Fin clip_duration) (Np.Fin chunk_size)) ;;
  target_score_clip <-
    convert_label_to_local_score clip_df number_of_chunks ;;
  Ok (target_score_array ++ target_score_clip,
      chunk_size_list ++ [(number_of_chunks, clip_duration, snd it)]).

Definition get_target_annotations (chunked_manual_df : DataFrame)
    (chunk_size : Q) : result (list Z * list chunk_size_entry) :=
  for_each (np_unique_index chunked_manual_df)
    (target_step chunked_manual_df chunk_size) ([], []).

(** [local_scores_array[name]] on the dictionary of score curves. *)
Fixpoint lookup (d : list (string * list Q)) (name : string)
  : result (list Q) :=
  match d with
  | [] => Raise KeyError
  | (k, v) :: rest => if String.eqb k name then Ok v else lookup rest name
  end.

(** The variables of [get_confidence_array] that live across its loops;
    [i] is unbound until the chunk loop has run once. *)
Record confidence_state : Type := mkConfidence {
  array_of_max_scores : list Q;
  k : Z;
  i : option Z
}.

(** The loop [for j in range(start_index, end_index)]. *)
Definition max_score_step (local_score_clip : list Q) (j : Z) (max_score : Q)
  : result Q :=
  current_score <- Py.getitem local_score_clip j ;;
  if Qlt_le_dec max_score current_score then Ok current_score
  else Ok max_score.

(** The body of [for i in range(0, num_chunks * chunk_length, chunk_length)]:
    the greatest score among the samples of the chunk. *)
Definition chunk_score_step (clip_df : DataFrame) (local_score_clip : list Q)
    (chunk_length : Z) (index : Z) (s : confidence_state)
  : result confidence_state :=
  clip_length <- iloc0 CLIP_LENGTH clip_df ;;
  let size := inject_Z (Z.of_nat (List.length local_score_clip)) in
  let index_per_seconds := Np.fdiv (Np.Fin size) (Np.Fin clip_length) in
  start_index <-
    Np.floor (Np.fmul index_per_seconds (Np.Fin (inject_Z index))) ;;
  end_index <-
    Np.floor (Np.fmul index_per_seconds
                      (Np.Fin (inject_Z (index + chunk_length)))) ;;
  max_score <-
    for_each (Py.range_from start_index end_index)
             (max_score_step local_score_clip) 0%Q ;;
  Ok (mkConfidence (array_of_max_scores s ++ [max_score]) (k s) (Some index)).

(** The lines printed on a mismatch; the second reads [chunk_size_list[i]]. *)
Definition report_mismatch (chunk_size_list : list chunk_size_entry)
    (s : confidence_state) : result unit :=
  _ <- Py.getitem chunk_size_list (k s) ;;
  index <- match i s with
           | Some index => Ok index
           | None => Raise UnboundLocalError
           end ;;
  _ <- Py.getitem chunk_size_list index ;;
  _ <- Py.getitem chunk_size_list (k s) ;;
  Ok tt.

(** The body of the loop over the clips. *)
Definition confidence_step (local_scores_array : list (string * list Q))
    (chunked_df : DataFrame) (chunk_size_list : list chunk_size_entry)
    (it : item) (s : confidence_state) : result (flow confidence_state) :=
  let clip_df := clip_rows chunked_df it in
  local_score_clip <- lookup local_scores_array (snd it) ;;
  duration_of_clip <- iloc0 CLIP_LENGTH clip_df ;;
  num_chunks <-
    Np.floor (Np.fdiv (Np.Fin duration_of_clip) (Np.Fin 3)) ;;
  target <- Py.getitem chunk_size_list (k s) ;;
  if negb (num_chunks =? fst (fst target)) then
    _ <- report_mismatch chunk_size_list s ;;
    Ok (Break s)
  else
    let s := mkConfidence (array_of_max_scores s) (k s + 1) (i s) in
    duration <- iloc0 DURATION clip_df ;;
    let chunk_length := Py.int duration in
    indexes <- Py.range_step (num_chunks * chunk_length) chunk_length ;;
    s <- for_each indexes
           (chunk_score_step clip_df local_score_clip chunk_length) s ;;
    Ok (Continue s).

Definition confidence_loop (local_scores_array : list (string * list Q))
    (chunked_df : DataFrame) (chunk_size_list : list chunk_size_entry)
    (items : list item) (s : confidence_state)
  : result (flow confidence_state) :=
  for_each_break items
    (confidence_step local_scores_array chunked_df chunk_size_list) s.

Definition get_confidence_array (local_scores_array : list (string * list Q))
    (chunked_df : DataFrame) (chunk_size_list : list chunk_size_entry)
  : result (list Q) :=
  f <- confidence_loop local_scores_array chunked_df chunk_size_list
         (np_unique_index chunked_df) (mkConfidence [] 0 None) ;;
  match f with
  | Continue s => Ok (array_of_max_scores s)
  | Break s => Ok (array_of_max_scores s)
  end.

(** The two arrays [generate_ROC_curves] hands to the ROC routine, from the
    chunked manual table. *)
Definition roc_arrays (local_scoress : list (string * list Q))
    (manual_chunked_df : DataFrame) (chunk_length : Q)
  : result (list Z * list Q) :=
  t <- get_target_annotations manual_chunked_df chunk_length ;;
  let '(target_array, chunk_size_list) := t in
  confidence_scores_array <-
    get_confidence_array local_scoress manual_chunked_df chunk_size_list ;;
  Ok (target_array, confidence_scores_array).

(** *** The arrays of [generate_ROC_curves_raw_local] *)

(** [manual_df['IN FILE'].isin(automated_df["IN FILE"].to_list())]. *)
Definition isin_files (automated_df : DataFrame) (r : Annotation) : bool :=
  existsb (String.eqb (IN_FILE r)) (map IN_FILE automated_df).

(** The body of the loop over the clips.  The instants of the clip are
    looked up in [manual_df], the whole manual table, as the source does. *)
Definition raw_local_step (manual_df : DataFrame)
    (local_scoress : list (string * list Q)) (it : item)
    (s : list Z * list Q) : result (list Z * list Q) :=
  let '(target_array, confidence_scores_array) := s in
  let clip_manual_df := clip_rows manual_df it in
  local_score_clip <- lookup local_scoress (snd it) ;;
  duration_of_clip <- iloc0 CLIP_LENGTH clip_manual_df ;;
  let size_of_local_score := Z.of_nat (List.length local_score_clip) in
  let seconds_per_index :=
    Np.fdiv (Np.Fin duration_of_clip)
            (Np.Fin (inject_Z size_of_local_score)) in
  _ <- Np.zeros size_of_local_score ;;
  let target_clip :=
    map (fun i =>
           let current_seconds :=
             Np.fmul (Np.Fin (inject_Z i)) seconds_per_index in
           match filter (fun r => le_float (OFFSET r) current_seconds
                                  && ge_float (OFFSET r + DURATION r)
                                              current_seconds) manual_df with
           | [] => 0
           | _ => 1
           end)
        (Py.range size_of_local_score) in
  Ok (target_array ++ target_clip,
      confidence_scores_array ++ local_score_clip).

(** The target and confidence arrays [generate_ROC_curves_raw_local] hands
    to the ROC routine. *)
Definition raw_local_arrays (automated_df manual_df : DataFrame)
    (local_scoress : list (string * list Q)) : result (list Z * list Q) :=
  let manual_df := filter (isin_files automated_df) manual_df in
  for_each (np_unique_index manual_df)
           (raw_local_step manual_df local_scoress) ([], []).

End annotation_post_processing.

(** ** statistics.py *)

Module statistics.

(** One row of the table [matrix_IoU_Scores] returns. *)
Record IoUStats : Type := mkIoUStats {
  stat_FOLDER : string;
  stat_IN_FILE : string;
  stat_MANUAL_ID : string;
  TRUE_POSITIVE : Z;
  FALSE_NEGATIVE : Z;
  FALSE_POSITIVE : Z;
  PRECISION : Q;
  RECALL : Q;
  F1 : Q
}.

(** One row of the table [clip_general] returns; the counts are seconds. *)
Record GeneralStats : Type := mkGeneralStats {
  gen_FOLDER : string;
  gen_IN_FILE : string;
  gen_MANUAL_ID : string;
  gen_TRUE_POSITIVE : Q;
  gen_FALSE_POSITIVE : Q;
  gen_FALSE_NEGATIVE : Q;
  gen_TRUE_NEGATIVE : Q;
  gen_UNION : Q;
  gen_PRECISION : Q;
  gen_RECALL : Q;
  gen_F1 : Q;
  gen_Global_IoU : Q
}.

(** The statistics table is the list of its rows, of one kind or the other;
    the table without rows is [pd.DataFrame()], which has no column. *)
Inductive stats_row : Type :=
| IoU_row (r : IoUStats)
| general_row (r : GeneralStats).

Definition stats_table : Type := list stats_row.

(** [try: body except <handled>: handler]. *)
Definition try_except {A} (body : result A) (handled : exn -> bool)
    (handler : result A) : result A :=
  match body with
  | Ok a => Ok a
  | Raise e => if handled e then handler else Raise e
  end.

Definition BaseException (e : exn) : bool := true.

Definition is_ZeroDivisionError (e : exn) : bool :=
  match e with ZeroDivisionError => true | _ => false end.

(** [df[col][0]] on a table indexed from 0. *)
Definition at0 {A} (col : Annotation -> A) (df : DataFrame) : result A :=
  match df with
  | [] => Raise KeyError
  | r :: _ => Ok (col r)
  end.

Definition Qlt_bool (x y : Q) : bool := negb (Qle_bool y x).

(** [np.nan_to_num]. *)
Definition float_max : Q := inject_Z ((2 ^ 53 - 1) * 2 ^ 971).

Definition nan_to_num (x : Np.float64) : Q :=
  match x with
  | Np.Fin q => q
  | Np.NaN => 0
  | Np.Inf false => float_max
  | Np.Inf true => - float_max
  end.

Definition clip_general (automated_df human_df : DataFrame)
  : result GeneralStats :=
  clip_class <-
    match Py.unique (map MANUAL_ID human_df) with
    | [] => Raise IndexError
    | c :: _ => Ok c
    end ;;
  duration <- first_value CLIP_LENGTH automated_df ;;
  sample_rate <- first_value SAMPLE_RATE automated_df ;;
  human_arr <- Np.zeros (Py.int (inject_Z sample_rate * duration)) ;;
  bot_arr <- Np.zeros (Py.int (inject_Z sample_rate * duration)) ;;
  folder_name <- first_value FOLDER automated_df ;;
  clip_name <- first_value IN_FILE automated_df ;;
  let bot_arr := place_labels (inject_Z sample_rate) automated_df bot_arr in
  let human_arr := place_labels (inject_Z sample_rate) human_df human_arr in
  let human_arr_flipped := map (fun x => 1 - x) human_arr in
  let bot_arr_flipped := map (fun x => 1 - x) bot_arr in
  let mul := fun u v => map (fun p => fst p * snd p) (combine u v) in
  let true_positive_arr := mul human_arr bot_arr in
  let false_negative_arr := mul human_arr bot_arr_flipped in
  let false_positive_arr := mul human_arr_flipped bot_arr in
  let true_negative_arr := mul human_arr_flipped bot_arr_flipped in
  let IoU_arr :=
    map (fun p => let s := fst p + snd p in if s =? 2 then 1 else s)
        (combine human_arr bot_arr) in
  let seconds := fun arr =>
    Py.truediv (inject_Z (Np.count_eq arr 1)) (inject_Z sample_rate) in
  true_positive_count <- seconds true_positive_arr ;;
  false_negative_count <- seconds false_negative_arr ;;
  false_positive_count <- seconds false_positive_arr ;;
  true_negative_count <- seconds true_negative_arr ;;
  union_count <- seconds IoU_arr ;;
  metrics <-
    try_except
      (precision <- Py.truediv true_positive_count
                      (true_positive_count + false_positive_count) ;;
       recall <- Py.truediv true_positive_count
                   (true_positive_count + false_negative_count) ;;
       f1 <- Py.truediv (2 * (recall * precision)) (recall + precision) ;;
       IoU <- Py.truediv true_positive_count union_count ;;
       Ok (f1, precision, recall, IoU))
      BaseException
      (Ok (0, 0, 0, 0)%Q) ;;
  let '(f1, precision, recall, IoU) := metrics in
  Ok {| gen_FOLDER := folder_name; gen_IN_FILE := clip_name;
        gen_MANUAL_ID := clip_class;
        gen_TRUE_POSITIVE := true_positive_count;
        gen_FALSE_POSITIVE := false_positive_count;
        gen_FALSE_NEGATIVE := false_negative_count;
        gen_TRUE_NEGATIVE := true_negative_count;
        gen_UNION := union_count;
        gen_PRECISION := precision; gen_RECALL := recall; gen_F1 := f1;
        gen_Global_IoU := IoU |}.

(** One entry of the matrix [clip_IoU] returns, from the rows of the two
    label arrays: zero when the rows share no sample, otherwise the shared
    samples over the samples of either, rounded to four digits. *)
Definition IoU_entry (human_row bot_row : list Z) : Q :=
  let shared := Np.dot human_row bot_row in
  if shared =? 0 then 0
  else nan_to_num
         (Np.fround
            (Np.fdiv (Np.Fin (inject_Z shared))
                     (Np.Fin (inject_Z (Np.sum_logical_or human_row bot_row))))
            4).

Definition clip_IoU (automated_df manual_df : DataFrame) : result Np.matrix :=
  let manual_row_count := List.length manual_df in
  let automated_row_count := List.length automated_df in
  duration <- first_value CLIP_LENGTH automated_df ;;
  sample_rate <- first_value SAMPLE_RATE automated_df ;;
  bot_arr <-
    Np.zeros2 automated_row_count (Py.int (duration * inject_Z sample_rate)) ;;
  human_arr <-
    Np.zeros2 manual_row_count (Py.int (duration * inject_Z sample_rate)) ;;
  let bot_arr :=
    map (fun p => place_label (inject_Z sample_rate) (fst p) (snd p))
        (combine bot_arr automated_df) in
  let human_arr :=
    map (fun p => place_label (inject_Z sample_rate) (fst p) (snd p))
        (combine human_arr manual_df) in
  Ok {| Np.nrows := manual_row_count;
        Np.ncols := automated_row_count;
        Np.rows :=
          map (fun h => map (fun b => IoU_entry h b) bot_arr) human_arr |}.

Definition matrix_IoU_Scores (IoU_Matrix : Np.matrix) (manual_df : DataFrame)
    (threshold : Q) : result IoUStats :=
  _ <- assert (Qlt_bool 0 threshold && Qlt_bool threshold 1) ;;
  clip_class <- at0 MANUAL_ID manual_df ;;
  audio_dir <- at0 FOLDER manual_df ;;
  filename <- at0 IN_FILE manual_df ;;
  automated_label_best_fits <- Np.max_axis1 IoU_Matrix ;;
  let tp_count :=
    Z.of_nat (List.length (filter (fun x => Qle_bool threshold x)
                                  automated_label_best_fits)) in
  let fn_count :=
    Z.of_nat (List.length (filter (fun x => Qlt_bool x threshold)
                                  automated_label_best_fits)) in
  max_val_per_column <- Np.max_axis0 IoU_Matrix ;;
  let fp_count :=
    Z.of_nat (List.length (filter (fun x => Qlt_bool x threshold)
                                  max_val_per_column)) in
  metrics <-
    try_except
      (recall <- Py.truediv (inject_Z tp_count)
                   (inject_Z (tp_count + fn_count)) ;;
       let recall := Py.round recall 4 in
       precision <- Py.truediv (inject_Z tp_count)
                      (inject_Z (tp_count + fp_count)) ;;
       let precision := Py.round precision 4 in
       f1 <- Py.truediv (2 * (recall * precision)) (recall + precision) ;;
       Ok (recall, precision, Py.round f1 4))
      is_ZeroDivisionError
      (Ok (0, 0, 0)%Q) ;;
  let '(recall, precision, f1) := metrics in
  Ok {| stat_FOLDER := audio_dir; stat_IN_FILE := filename;
        stat_MANUAL_ID := clip_class;
        TRUE_POSITIVE := tp_count; FALSE_NEGATIVE := fn_count;
        FALSE_POSITIVE := fp_count;
        PRECISION := precision; RECALL := recall; F1 := f1 |}.

(** The name before the extension:
    [".".join(clip.split(".")[:-1])]. *)
Definition stem (clip : string) : string :=
  Py.join "." (Py.droplast (Py.split "." clip)).

(** The manual rows paired with an automated clip. *)
Definition clip_manual (manual_df : DataFrame) (clip : string) : DataFrame :=
  filter (fun r => String.prefix (stem clip) (IN_FILE r)) manual_df.

(** [statistics_df = clip_stats_df] on an empty table, [append] otherwise. *)
Definition append_stats (statistics_df : stats_table) (clip_stats_df : stats_row)
  : stats_table :=
  match statistics_df with
  | [] => [clip_stats_df]
  | _ => statistics_df ++ [clip_stats_df]
  end.

(** The variables of the loop over the clips. *)
Record run_state : Type := mkState {
  statistics_df : stats_table;
  num_errors : Z;
  num_processed : Z
}.

(** The [try] block of the loop. *)
Definition clip_stats (stats_type : string) (threshold : Q)
    (clip_automated_df clip_manual_df : DataFrame)
    (statistics_df : stats_table) : result stats_table :=
  if String.eqb stats_type "general" then
    clip_stats_df <- clip_general clip_automated_df clip_manual_df ;;
    Ok (append_stats statistics_df (general_row clip_stats_df))
  else if String.eqb stats_type "IoU" then
    IoU_Matrix <- clip_IoU clip_automated_df clip_manual_df ;;
    clip_stats_df <- matrix_IoU_Scores IoU_Matrix clip_manual_df threshold ;;
    Ok (append_stats statistics_df (IoU_row clip_stats_df))
  else Ok statistics_df.

(** The body of [for clip in clips]: a clip whose statistics raise is
    counted and skipped. *)
Definition clip_step (automated_df manual_df : DataFrame)
    (stats_type : string) (threshold : Q) (clip : string) (s : run_state)
  : result run_state :=
  let num_processed := num_processed s + 1 in
  let clip_automated_df :=
    filter (fun r => String.eqb (IN_FILE r) clip) automated_df in
  let clip_manual_df := clip_manual manual_df clip in
  try_except
    (df <- clip_stats stats_type threshold clip_automated_df clip_manual_df
             (statistics_df s) ;;
     Ok (mkState df (num_errors s) num_processed))
    BaseException
    (Ok (mkState (statistics_df s) (num_errors s + 1) num_processed)).

(** [str(n)]. *)
Definition str (n : Z) : string :=
  DecimalString.NilZero.string_of_int (Z.to_int n).

(** The message built after the loop when a clip failed; [checkVerbose]
    prints it when [verbose] is set. *)
Definition error_report (num_errors : Z) (clips : list string)
  : result Py.value :=
  m <- Py.add (Py.Str "Something went wrong with") (Py.Int num_errors) ;;
  m <- Py.add m (Py.Str "clips out of") ;;
  m <- Py.add m (Py.Str (str (Z.of_nat (List.length clips)))) ;;
  Py.add m (Py.Str "clips").

(** The loop of [automated_labeling_statistics], and the function.  The
    progress line printed every 50 clips carries a wall-clock time and is
    left out. *)
Definition run_clips (automated_df manual_df : DataFrame)
    (stats_type : string) (threshold : Q) (clips : list string)
  : result run_state :=
  for_each clips (clip_step automated_df manual_df stats_type threshold)
           (mkState [] 0 0).

Definition automated_labeling_statistics (automated_df manual_df : DataFrame)
    (stats_type : string) (threshold : Q) (verbose : bool)
  : result stats_table :=
  _ <- assert (existsb (String.eqb stats_type) ["IoU"; "general"]%string) ;;
  _ <- assert (Qlt_bool 0 threshold && Qlt_bool threshold 1) ;;
  let clips := Py.unique (map IN_FILE automated_df) in
  s <- run_clips automated_df manual_df stats_type threshold clips ;;
  _ <- (if 0 <? num_errors s
        then _ <- error_report (num_errors s) clips ;; Ok tt
        else Ok tt) ;;
  Ok (statistics_df s).

(** One row of the table [global_statistics] returns. *)
Record GlobalStats : Type := mkGlobalStats {
  glob_MANUAL_ID : string;
  glob_TRUE_POSITIVE : Q;
  glob_FALSE_NEGATIVE : Q;
  glob_FALSE_POSITIVE : Q;
  glob_PRECISION : Np.float64;
  glob_RECALL : Np.float64;
  glob_F1 : Np.float64
}.

(** The count columns of a statistics table, row by row. *)
Record counts : Type := mkCounts {
  class_of : string;
  tp : Q;
  fn : Q;
  fp : Q
}.

Definition counts_of (row : stats_row) : counts :=
  match row with
  | IoU_row r =>
      mkCounts (stat_MANUAL_ID r) (inject_Z (TRUE_POSITIVE r))
               (inject_Z (FALSE_NEGATIVE r)) (inject_Z (FALSE_POSITIVE r))
  | general_row r =>
      mkCounts (gen_MANUAL_ID r) (gen_TRUE_POSITIVE r)
               (gen_FALSE_NEGATIVE r) (gen_FALSE_POSITIVE r)
  end.

(** The assertions on the columns fail on the table without columns. *)
Definition count_columns (statistics_df : stats_table)
  : result (list counts) :=
  match statistics_df with
  | [] => Raise AssertionError
  | _ => Ok (map counts_of statistics_df)
  end.

(** [Series.sum()]. *)
Definition column_sum (col : counts -> Q) (rows : list counts) : Q :=
  fold_left Qplus (map col rows) 0%Q.

(** [global_statistics] on the count columns: the sums are numpy numbers,
    so a zero denominator gives [nan] and the [except] branch is not
    taken. *)
Definition global_of_counts (rows : list counts) (manual_id : string)
  : GlobalStats :=
  let tp_sum := column_sum tp rows in
  let fn_sum := column_sum fn rows in
  let fp_sum := column_sum fp rows in
  let precision := Np.fdiv (Np.Fin tp_sum) (Np.Fin (tp_sum + fp_sum)) in
  let recall := Np.fdiv (Np.Fin tp_sum) (Np.Fin (tp_sum + fn_sum)) in
  let f1 :=
    Np.fdiv (Np.fmul (Np.Fin 2) (Np.fmul precision recall))
            (Np.fadd precision recall) in
  {| glob_MANUAL_ID := manual_id;
     glob_TRUE_POSITIVE := tp_sum;
     glob_FALSE_NEGATIVE := fn_sum;
     glob_FALSE_POSITIVE := fp_sum;
     glob_PRECISION := Np.fround precision 4;
     glob_RECALL := Np.fround recall 4;
     glob_F1 := Np.fround f1 4 |}.

Definition global_statistics (statistics_df : stats_table)
    (manual_id : string) : result GlobalStats :=
  rows <- count_columns statistics_df ;;
  Ok (global_of_counts rows manual_id).

(** One row of [global_dataset_statistics], which needs the columns of the
    general table. *)
Record DatasetStats : Type := mkDatasetStats {
  data_MANUAL_ID : string;
  data_PRECISION : Np.float64;
  data_RECALL : Np.float64;
  data_F1 : Np.float64;
  data_Global_IoU : Np.float64
}.

Definition is_general (row : stats_row) : bool :=
  match row with general_row _ => true | IoU_row _ => false end.

(** The sum of a column only the general rows have; pandas skips the
    missing values. *)
Definition general_sum (col : GeneralStats -> Q) (rows : stats_table) : Q :=
  fold_left Qplus
    (map (fun row => match row with
                     | general_row r => col r
                     | IoU_row _ => 0%Q
                     end) rows) 0%Q.

Definition global_dataset_statistics (statistics_df : stats_table)
    (manual_id : string) : result DatasetStats :=
  _ <- assert (existsb is_general statistics_df) ;;
  let rows := map counts_of statistics_df in
  let tp_sum := column_sum tp rows in
  let fp_sum := column_sum fp rows in
  let fn_sum := column_sum fn rows in
  let union_sum := general_sum gen_UNION statistics_df in
  let precision := Np.fdiv (Np.Fin tp_sum) (Np.Fin (tp_sum + fp_sum)) in
  let recall := Np.fdiv (Np.Fin tp_sum) (Np.Fin (tp_sum + fn_sum)) in
  let f1 :=
    Np.fdiv (Np.fmul (Np.Fin 2) (Np.fmul precision recall))
            (Np.fadd precision recall) in
  let IoU := Np.fdiv (Np.Fin tp_sum) (Np.Fin union_sum) in
  Ok {| data_MANUAL_ID := manual_id;
        data_PRECISION := Np.fround precision 6;
        data_RECALL := Np.fround recall 6;
        data_F1 := Np.fround f1 6;
        data_Global_IoU := Np.fround IoU 6 |}.

(** [class_statistics]: [global_statistics] on the rows of each class, in
    order of first occurrence. *)
Definition class_statistics (clip_statistics : stats_table)
  : result (list GlobalStats) :=
  rows <- count_columns clip_statistics ;;
  let class_list := Py.unique (map class_of rows) in
  Ok (map (fun class_ =>
             global_of_counts
               (filter (fun r => String.eqb (class_of r) class_) rows) class_)
          class_list).

(** *** Catch scores *)

(** Elementwise product of two arrays. *)
Definition multiply (u v : list Z) : list Z :=
  map (fun p => fst p * snd p) (combine u v).

(** The variables of the loop over the human labels of [clip_catch]: the
    scores computed so far (the entries of [catch_matrix] already
    assigned, in row order) and the human array, which is cleared at the
    end of every turn. *)
Definition catch_step (sample_rate : Z) (bot_arr : list Z) (row : Annotation)
    (s : list Q * list Z) : result (list Q * list Z) :=
  let '(catch_matrix, human_arr) := s in
  let '(minval, maxval) := label_bounds (inject_Z sample_rate) row in
  let human_arr := Np.setslice human_arr minval maxval 1 in
  let samples_in_label := maxval - minval in
  let intersection := multiply human_arr bot_arr in
  let intersection_count := Np.count_eq intersection 1 in
  catch <- Py.truediv (inject_Z intersection_count)
                      (inject_Z samples_in_label) ;;
  let human_arr := map (fun x => if x =? 1 then 0 else x) human_arr in
  Ok (catch_matrix ++ [Py.round catch 4], human_arr).

Definition clip_catch (automated_df manual_df : DataFrame)
  : result (list Q) :=
  duration <- first_value CLIP_LENGTH automated_df ;;
  sample_rate <- first_value SAMPLE_RATE automated_df ;;
  bot_arr <- Np.zeros (Py.int (duration * inject_Z sample_rate)) ;;
  human_arr <- Np.zeros (Py.int (duration * inject_Z sample_rate)) ;;
  let bot_arr := place_labels (inject_Z sample_rate) automated_df bot_arr in
  s <- for_each manual_df (catch_step sample_rate bot_arr) ([], human_arr) ;;
  Ok (fst s).

(** [dataset_Catch]: for every automated clip, the manual rows with the
    same file name, each with its catch score. *)
Definition catch_clip_step (automated_df manual_df : DataFrame)
    (clip : string) (manual_df_with_Catch : list (Annotation * Q))
  : result (list (Annotation * Q)) :=
  let clip_automated_df :=
    filter (fun r => String.eqb (IN_FILE r) clip) automated_df in
  let clip_manual_df :=
    filter (fun r => String.eqb (IN_FILE r) clip) manual_df in
  Catch_Array <- clip_catch clip_automated_df clip_manual_df ;;
  Ok (manual_df_with_Catch ++ combine clip_manual_df Catch_Array).

Definition dataset_Catch (automated_df manual_df : DataFrame)
  : result (list (Annotation * Q)) :=
  let clips := Py.unique (map IN_FILE automated_df) in
  for_each clips (catch_clip_step automated_df manual_df) [].

(** *** Statistics class by class *)

(** [np.intersect1d(a, b)]: the values found in both, each once, in
    increasing order. *)
Fixpoint insert_sorted (x : string) (l : list string) : list string :=
  match l with
  | [] => [x]
  | y :: rest =>
      match String.compare x y with
      | Lt => x :: l
      | Eq => l
      | Gt => y :: insert_sorted x rest
      end
  end.

Definition intersect1d (a b : list string) : list string :=
  fold_right insert_sorted []
    (filter (fun x => existsb (String.eqb x) b) a).

(** The body of [for class_ in class_list]. *)
Definition class_step (automated_df manual_df : DataFrame)
    (stats_type : string) (threshold : Q) (class_ : string)
    (clip_statistics : stats_table) : result stats_table :=
  let temp_manual_class_df :=
    filter (fun r => String.eqb (MANUAL_ID r) class_) manual_df in
  let temp_automated_class_df :=
    filter (fun r => String.eqb (MANUAL_ID r) class_) automated_df in
  temp_df <- automated_labeling_statistics temp_automated_class_df
               temp_manual_class_df stats_type threshold true ;;
  match clip_statistics with
  | [] => Ok temp_df
  | _ => Ok (clip_statistics ++ temp_df)
  end.

Definition clip_statistics (automated_df manual_df : DataFrame)
    (stats_type : string) (threshold : Q) : result stats_table :=
  let automated_class_list := Py.unique (map MANUAL_ID automated_df) in
  let manual_class_list := Py.unique (map MANUAL_ID manual_df) in
  let class_list := intersect1d automated_class_list manual_class_list in
  for_each class_list
    (class_step automated_df manual_df stats_type threshold) [].

End statistics.

(** ** Notions used to state the properties *)

(** Sample [k] of an array of length [n] lies under the label of [row]. *)
Definition in_label (n : Z) (scale : Q) (k : Z) (row : Annotation) : bool :=
  let '(minval, maxval) := label_bounds scale row in
  (Py.slice_bound n minval <=? k) && (k <? Py.slice_bound n maxval).

Definition covered (n : Z) (scale : Q) (df : DataFrame) (k : Z) : bool :=
  existsb (in_label n scale k) df.

Definition nonempty {R} (l : list R) : bool :=
  match l with [] => false | _ => true end.

Module chunker_view.
Import annotation_post_processing.

(** Chunk [index] holds a labelled millisecond. *)
Definition window_hit (chunk_length : Q) (arr_len : Z) (human_arr : list Z)
    (index : Z) : bool :=
  existsb (fun x => 1 <=? x)
    (Py.getslice human_arr (Py.int (chunk_start chunk_length index))
                 (Py.int (chunk_end chunk_length arr_len index))).

(** The rows the chunker adds for one class of one clip, for one clip, and
    for the table, as functions of the table. *)
Definition bird_chunks (clip_df : DataFrame) (path file : string) (clip_len : Q)
    (sr : Z) (chunk_length : Q) (count arr_len : Z) (bird : string)
  : DataFrame :=
  let species_df := filter (fun r => String.eqb (MANUAL_ID r) bird) clip_df in
  let human_arr :=
    place_labels 1000 species_df (repeat 0 (Z.to_nat arr_len)) in
  map (chunk_row path file bird clip_len sr chunk_length)
      (filter (window_hit chunk_length arr_len human_arr) (Py.range count)).

Definition clip_chunks (df : DataFrame) (l : Z) (clip : string) : DataFrame :=
  match filter (fun r => String.eqb (FILEPATH r) clip) df with
  | [] => []
  | r :: rest =>
      let clip_df := r :: rest in
      let clip_len := CLIP_LENGTH r in
      if Qle_bool (inject_Z l) clip_len
      then flat_map
             (bird_chunks clip_df (FOLDER r) (IN_FILE r) clip_len
                (SAMPLE_RATE r) (inject_Z l) (Py.int clip_len / l)
                (Py.int (clip_len * 1000)))
             (Py.unique (map MANUAL_ID clip_df))
      else []
  end.

Definition chunks (df : DataFrame) (l : Z) : DataFrame :=
  flat_map (clip_chunks df l) (Py.unique (map FILEPATH df)).

End chunker_view.

Module examples.
Local Open Scope string_scope.

(** A ten-second clip with one label at 2.5 s to 2.6 s. *)
Definition short_label : DataFrame :=
  [ mkAnnotation "d/" "a.wav" 10 0 (5 # 2) (1 # 10) 44100 "bird" ].

(** A 10.9-second clip with one label inside its last 0.9 s. *)
Definition tail_label : DataFrame :=
  [ mkAnnotation "d/" "a.wav" (109 # 10) 0 (102 # 10) (3 # 10) 44100 "bird" ].

(** Two clips, two classes on the first. *)
Definition two_clips : DataFrame :=
  [ mkAnnotation "d/" "a.wav" 10 0 (5 # 2) (1 # 10) 44100 "bird";
    mkAnnotation "d/" "b.wav" 7 0 1 (9 # 2) 22050 "frog";
    mkAnnotation "d/" "a.wav" 10 0 (29 # 10) (1 # 2) 44100 "frog" ].

End examples.

(** 1 when sample [k] is one of [lo..hi-1], and the 0/1 array of length
    [n] that is 1 on these samples. *)
Definition inside (lo hi : Z) (k : nat) : Z :=
  if (lo <=? Z.of_nat k) && (Z.of_nat k <? hi) then 1 else 0.

Definition indicator (lo hi : Z) (n : nat) : list Z :=
  map (inside lo hi) (seq 0 n).

(** The sum of [F] over the indices in [l]. *)
Fixpoint sum_over (l : list nat) (F : nat -> Z) : Z :=
  match l with
  | [] => 0
  | k :: rest => F k + sum_over rest F
  end.

(** Number of integers in [lo..hi-1]. *)
Definition span (lo hi : Z) : Z := Z.max 0 (hi - lo).

Module IoU_view.

(** The label array of one row, and the slice it fills, on a clip of [n]
    samples at [sr] samples per second. *)
Definition label_row (sr : Z) (n : Z) (row : Annotation) : list Z :=
  place_label (inject_Z sr) (repeat 0 (Z.to_nat n)) row.

Definition label_lo (sr n : Z) (row : Annotation) : Z :=
  Py.slice_bound n (fst (label_bounds (inject_Z sr) row)).

Definition label_hi (sr n : Z) (row : Annotation) : Z :=
  Py.slice_bound n (snd (label_bounds (inject_Z sr) row)).

(** Entry [i][j] of a matrix. *)
Definition entry (m : Np.matrix) (i j : nat) : Q :=
  nth j (nth i (Np.rows m) []) 0%Q.

End IoU_view.

Module IoU_examples.
Local Open Scope string_scope.

(** A label of 10 microseconds on a one-second clip sampled at 44.1 kHz. *)
Definition brief_label : Annotation :=
  mkAnnotation "d/" "a.wav" 1 0 (1 # 2) (1 # 100000) 44100 "bird".

(** Human labels over [0,1] and [5,6] seconds, an automated label over
    [0,10] seconds, on a ten-second clip sampled at 100 Hz. *)
Definition human_0_1 : Annotation :=
  mkAnnotation "d/" "a.wav" 10 0 0 1 100 "bird".
Definition human_5_6 : Annotation :=
  mkAnnotation "d/" "a.wav" 10 0 5 1 100 "bird".
Definition automated_0_10 : Annotation :=
  mkAnnotation "d/" "a.wav" 10 0 0 10 100 "bird".

End IoU_examples.

(** A matrix whose rows agree with its shape. *)
Definition well_shaped (m : Np.matrix) : Prop :=
  List.length (Np.rows m) = Np.nrows m /\
  Forall (fun r => List.length r = Np.ncols m) (Np.rows m).

(** [x] is the greatest element of [l]. *)
Definition greatest (x : Q) (l : list Q) : Prop :=
  In x l /\ forall y, In y l -> (y <= x)%Q.

(** Number of elements of [l] that satisfy [p]. *)
Definition count_if (p : Q -> bool) (l : list Q) : Z :=
  Z.of_nat (List.length (filter p l)).


Module stats_examples.
Import statistics.
Local Open Scope string_scope.



End stats_examples.

(** The character [c] occurs in [s]. *)
Fixpoint occurs (c : ascii) (s : string) : bool :=
  match s with
  | EmptyString => false
  | String x rest => Ascii.eqb x c || occurs c rest
  end.

Module pairing_spec.
Local Open Scope string_scope.

(** The pairing of clips as the specification words it: "match by the
    filename stem (text before the final '.'-delimited extension) when an
    exact match fails".  A name without '.' has no extension and is its own
    stem. *)
Fixpoint stem_of (name : string) : string :=
  match name with
  | EmptyString => EmptyString
  | String c rest =>
      if occurs "." rest then String c (stem_of rest)
      else if Ascii.eqb c "." then EmptyString
      else name
  end.

Definition paired (manual_df : DataFrame) (clip : string) : DataFrame :=
  match filter (fun r => String.eqb (IN_FILE r) clip) manual_df with
  | [] => filter (fun r => String.eqb (stem_of (IN_FILE r)) (stem_of clip))
                 manual_df
  | exact => exact
  end.

End pairing_spec.

Module pairing_examples.
Local Open Scope string_scope.

Definition manual_row (file : string) : Annotation :=
  mkAnnotation "d/" file 10 0 0 1 100 "bird".

(** Manual rows of three files whose names start alike. *)
Definition manual_table : DataFrame :=
  [ manual_row "a.wav"; manual_row "ab.wav"; manual_row "a.mp3" ].

End pairing_examples.

Module run_view.
Import statistics.

(** The statistics of a clip raise. *)
Definition clip_fails (automated_df manual_df : DataFrame)
    (stats_type : string) (threshold : Q) (clip : string) : bool :=
  match clip_stats stats_type threshold
          (filter (fun r => String.eqb (IN_FILE r) clip) automated_df)
          (clip_manual manual_df clip) [] with
  | Ok _ => false
  | Raise _ => true
  end.

End run_view.

Module roc_examples.
Local Open Scope string_scope.

(** A chunked manual table with chunk length 2 s: a 3 s clip with one
    chunk, a 10 s clip with two; and the score curves of the two clips. *)
Definition chunked_2s : DataFrame :=
  [ mkAnnotation "d/" "b.wav" 10 0 4 2 100 "bird";
    mkAnnotation "d/" "a.wav" 3 0 0 2 100 "bird";
    mkAnnotation "d/" "b.wav" 10 0 0 2 100 "bird" ].

(** The same two clips chunked with chunk length 3 s. *)
Definition chunked_3s : DataFrame :=
  [ mkAnnotation "d/" "b.wav" 10 0 3 3 100 "bird";
    mkAnnotation "d/" "a.wav" 3 0 0 3 100 "bird" ].

Definition score_curves : list (string * list Q) :=
  [ ("a.wav", [1 # 10; 2 # 10; 9 # 10; 3 # 10; 95 # 100; 1 # 10]);
    ("b.wav", [1 # 10; 2 # 10; 3 # 10; 4 # 10; 5 # 10;
               6 # 10; 7 # 10; 8 # 10; 9 # 10; 1 # 10]) ].

End roc_examples.

Module roc_view.
Import annotation_post_processing.

(** Total number of chunks recorded in a list of entries. *)
Definition recorded_chunks (entries : list chunk_size_entry) : nat :=
  fold_right (fun e acc => (Z.to_nat (fst (fst e)) + acc)%nat) 0%nat entries.

End roc_view.

(** ** Further views and examples *)

(** An array that holds only zeros and ones. *)
Definition binary (l : list Z) : Prop := Forall (fun x => x = 0 \/ x = 1) l.

Module general_examples.
Local Open Scope string_scope.

(** A ten-second clip sampled at 100 Hz with an automated label over
    [0,4] seconds and a human label over [3,6] seconds. *)
Definition automated_0_4 : Annotation :=
  mkAnnotation "d/" "a.wav" 10 0 0 4 100 "bird".
Definition human_3_6 : Annotation :=
  mkAnnotation "d/" "a.wav" 10 0 3 3 100 "bird".

End general_examples.

Module run_rows_view.
Import statistics.

(** [row] is the row the statistics of the clip contribute to the table. *)
Definition row_of_clip (automated_df manual_df : DataFrame)
    (stats_type : string) (threshold : Q) (clip : string) (row : stats_row)
  : Prop :=
  clip_stats stats_type threshold
    (filter (fun r => String.eqb (IN_FILE r) clip) automated_df)
    (clip_manual manual_df clip) [] = Ok [row].

End run_rows_view.

Module general_run_examples.
Import statistics.
Local Open Scope string_scope.

(** The table of the run in general mode over the clip of
    [general_examples]. *)
Definition general_table : stats_table :=
  Eval vm_compute in
    match automated_labeling_statistics
            [general_examples.automated_0_4] [general_examples.human_3_6]
            "general" (1 # 2) false with
    | Ok table => table
    | Raise _ => []
    end.

End general_run_examples.

Module class_view.

(** The class of the row is found in both tables. *)
Definition shared_class (automated_df manual_df : DataFrame) (r : Annotation)
  : bool :=
  existsb (String.eqb (MANUAL_ID r)) (map MANUAL_ID automated_df)
  && existsb (String.eqb (MANUAL_ID r)) (map MANUAL_ID manual_df).

End class_view.

Module class_examples.
Local Open Scope string_scope.

(** Automated labels of two classes and manual labels of two classes on a
    ten-second clip; the tables share the class owl only. *)
Definition automated_owl : Annotation :=
  mkAnnotation "d/" "a.wav" 10 0 0 4 100 "owl".
Definition automated_wren : Annotation :=
  mkAnnotation "d/" "a.wav" 10 0 5 2 100 "wren".
Definition manual_owl : Annotation :=
  mkAnnotation "d/" "a.wav" 10 0 1 3 100 "owl".
Definition manual_lark : Annotation :=
  mkAnnotation "d/" "a.wav" 10 0 6 2 100 "lark".

End class_examples.

Module catch_view.

(** Number of samples between the rounded ends of a label, the divisor of
    its catch score. *)
Definition samples_in_label (sample_rate : Z) (row : Annotation) : Z :=
  snd (label_bounds (inject_Z sample_rate) row)
  - fst (label_bounds (inject_Z sample_rate) row).

End catch_view.

Module chunker_examples.
Local Open Scope string_scope.

(** A seven-second clip with a label of 0.2 s that straddles the boundary
    at 3 s. *)
Definition straddling_label : Annotation :=
  mkAnnotation "d/" "a.wav" 7 0 (29 # 10) (2 # 10) 100 "bird".

End chunker_examples.

Module roc_extra_examples.
Local Open Scope string_scope.

(** A nine-second clip chunked by 3 s: one row, for the first window. *)
Definition first_row : Annotation :=
  annotation_post_processing.chunk_row "d/" "a.wav" "bird" 9 100
    (inject_Z 3) 0.

Definition first_window : DataFrame := [first_row].

(** Score curves below zero. *)
Definition negative_curves : list (string * list Q) :=
  [ ("a.wav", [(-1 # 10); (-2 # 10); (-9 # 10);
               (-3 # 10); (-5 # 10); (-1 # 10)]);
    ("b.wav", [(-1 # 10); (-2 # 10); (-3 # 10); (-4 # 10); (-5 # 10);
               (-6 # 10); (-7 # 10); (-8 # 10); (-9 # 10); (-1 # 10)]) ].

End roc_extra_examples.

(** ** Inputs on which binary64 arithmetic is exact

    The program computes on binary64 floats and then cuts to integers with
    [int], [round] and [math.floor]; the embedding computes on the exact
    rationals.  The two agree on the integers they cut to whenever no
    operation on the way rounds, that is whenever the inputs and every
    intermediate value are binary64 numbers.  The statements that read a
    sample index, an array length or an instant off the inputs carry this
    as a hypothesis; the statements on reported ratios, which the program
    rounds to four or six digits after a binary64 division, bound the
    distance to the exact ratio instead of naming the rounded value. *)

(** [x] is [m / 2^k] with [|m| < 2^53] and [k <= 1074]: a binary64 number
    of magnitude below 2^53. *)
Definition is_binary64 (x : Q) : bool :=
  let r := Qred x in
  let d := Z.pos (Qden r) in
  (Z.abs (Qnum r) <? 2 ^ 53) && (d =? 2 ^ Z.log2 d) && (Z.log2 d <=? 1074).

(** The ends of a label are placed on the samples without rounding error:
    offset, duration, their sum and the two products with the rate are
    binary64 numbers. *)
Definition exact_label (scale : Q) (row : Annotation) : bool :=
  is_binary64 scale
  && is_binary64 (OFFSET row) && is_binary64 (DURATION row)
  && is_binary64 (OFFSET row * scale)
  && is_binary64 (OFFSET row + DURATION row)
  && is_binary64 ((OFFSET row + DURATION row) * scale).

(** The length of the array of a clip is computed without rounding
    error. *)
Definition exact_length (scale : Q) (clip_length : Q) : bool :=
  is_binary64 scale && is_binary64 clip_length
  && is_binary64 (clip_length * scale).

(** The ends of a label are binary64 numbers and so is their sum, as the
    comparisons of [convert_label_to_local_score] read them. *)
Definition exact_ends (row : Annotation) : bool :=
  is_binary64 (OFFSET row) && is_binary64 (DURATION row)
  && is_binary64 (OFFSET row + DURATION row).

(** The instants [i * (clip_length / size)], [0 <= i < size], are computed
    without rounding error. *)
Definition exact_instants (clip_length : Q) (size : Z) : bool :=
  is_binary64 clip_length
  && is_binary64 (clip_length / inject_Z size)
  && forallb (fun i => is_binary64 (inject_Z i * (clip_length / inject_Z size)))
             (Py.range size).

(** [q] lies within [tolerance] of [p]. *)
Definition within (tolerance q p : Q) : Prop :=
  (p - tolerance <= q <= p + tolerance)%Q.

Module exact_examples.
Local Open Scope string_scope.

(** A label of 2^-17 s, about 7.6 microseconds, at half a second on a
    one-second clip sampled at 44.1 kHz: both ends round to sample 22050. *)
Definition brief_dyadic_label : Annotation :=
  mkAnnotation "d/" "a.wav" 1 0 (1 # 2) (1 # 131072) 44100 "bird".

(** Labels over [0, 1.5] and [1.5, 4] seconds on a ten-second clip sampled
    at 100 Hz. *)
Definition label_0_15 : Annotation :=
  mkAnnotation "d/" "a.wav" 10 0 0 (3 # 2) 100 "bird".
Definition label_15_4 : Annotation :=
  mkAnnotation "d/" "a.wav" 10 0 (3 # 2) (5 # 2) 100 "bird".

(** A seven-second clip with a label over [2.75, 3.25] seconds, which
    straddles the boundary at 3 s. *)
Definition straddling_label : Annotation :=
  mkAnnotation "d/" "a.wav" 7 0 (11 # 4) (1 # 2) 100 "bird".

End exact_examples.

(** * Properties *)

(** ** Numbers *)

Ltac qcompare_prop C :=
  match type of C with
  | (_ ?= _)%Q = Eq => apply Qeq_alt in C
  | (_ ?= _)%Q = Lt => apply Qlt_alt in C
  | (_ ?= _)%Q = Gt => apply Qgt_alt in C
  end.

Section Numbers.

Local Open Scope Q_scope.

Lemma int_round_comp (x y : Q) : x == y -> Py.int_round x = Py.int_round y.
Proof.
  intros E. unfold Py.int_round.
  rewrite (Qfloor_comp _ _ E).
  assert (C : (x - inject_Z (Qfloor y) ?= 1 # 2) =
              (y - inject_Z (Qfloor y) ?= 1 # 2)).
  { apply Qcompare_comp; [rewrite E|]; reflexivity. }
  rewrite C. reflexivity.
Qed.

Lemma int_round_inject (z : Z) : Py.int_round (inject_Z z) = z.
Proof.
  unfold Py.int_round. rewrite Qfloor_Z.
  assert (C : (inject_Z z - inject_Z z ?= 1 # 2) = Lt).
  { rewrite <- Qlt_alt. ring_simplify. reflexivity. }
  rewrite C. reflexivity.
Qed.

Lemma int_round_of_integer (x : Q) (z : Z) :
  x == inject_Z z -> Py.int_round x = z.
Proof. intros E. rewrite (int_round_comp _ _ E). apply int_round_inject. Qed.

(** Rounding to the nearest integer is monotone. *)
Lemma int_round_bounds (x : Q) :
  inject_Z (Py.int_round x) - (1 # 2) <= x /\
  x <= inject_Z (Py.int_round x) + (1 # 2).
Proof.
  unfold Py.int_round.
  pose proof (Qfloor_le x) as Hl. pose proof (Qlt_floor x) as Hu.
  rewrite inject_Z_plus in Hu. change (inject_Z 1) with 1 in Hu.
  destruct (x - inject_Z (Qfloor x) ?= 1 # 2) eqn:C.
  - qcompare_prop C.
    destruct (Z.even (Qfloor x));
      [|rewrite inject_Z_plus; change (inject_Z 1) with 1]; lra.
  - qcompare_prop C. lra.
  - qcompare_prop C. rewrite inject_Z_plus. change (inject_Z 1) with 1. lra.
Qed.

Lemma int_round_mono (x y : Q) :
  x <= y -> (Py.int_round x <= Py.int_round y)%Z.
Proof.
  intros Hxy.
  destruct (Z_le_gt_dec (Py.int_round x) (Py.int_round y)) as [|G]; [assumption|].
  exfalso.
  (* both round to integers one apart at least: x and y sit on the same tie *)
  unfold Py.int_round in G.
  pose proof (Qfloor_le x) as Hlx. pose proof (Qlt_floor x) as Hux.
  pose proof (Qfloor_le y) as Hly. pose proof (Qlt_floor y) as Huy.
  pose proof (Qfloor_resp_le _ _ Hxy) as Hf.
  rewrite inject_Z_plus in Hux, Huy. change (inject_Z 1) with 1 in Hux, Huy.
  destruct (Z.eq_dec (Qfloor x) (Qfloor y)) as [E|NE].
  - destruct (x - inject_Z (Qfloor x) ?= 1 # 2) eqn:Cx;
      destruct (y - inject_Z (Qfloor y) ?= 1 # 2) eqn:Cy;
      qcompare_prop Cx; qcompare_prop Cy; rewrite ?E in *;
      destruct (Z.even (Qfloor y)); try lia; lra.
  - assert (Hlt : (Qfloor x + 1 <= Qfloor y)%Z) by lia.
    destruct (x - inject_Z (Qfloor x) ?= 1 # 2);
      destruct (y - inject_Z (Qfloor y) ?= 1 # 2);
      destruct (Z.even (Qfloor x)); destruct (Z.even (Qfloor y)); lia.
Qed.

Lemma Qfloor_unique (y : Q) (q : Z) :
  inject_Z q <= y -> y < inject_Z (q + 1) -> Qfloor y = q.
Proof.
  intros H1 H2.
  pose proof (Qfloor_le y) as Hl. pose proof (Qlt_floor y) as Hu.
  assert (A : inject_Z (Qfloor y) < inject_Z (q + 1)) by lra.
  assert (B : inject_Z q < inject_Z (Qfloor y + 1)) by lra.
  rewrite <- Zlt_Qlt in A, B. lia.
Qed.

Lemma int_of_nonneg (x : Q) : 0 <= x -> Py.int x = Qfloor x.
Proof.
  destruct x as [n d]. unfold Qle, Py.int, Qfloor. simpl. intros H.
  apply Z.quot_div_nonneg; lia.
Qed.

Lemma int_of_integer (x : Q) (z : Z) : x == inject_Z z -> Py.int x = z.
Proof.
  intros E. destruct x as [n d]. unfold Qeq in E. simpl in E.
  unfold Py.int. simpl. assert (n = z * Z.pos d)%Z by lia. subst n.
  apply Z.quot_mul. lia.
Qed.

Lemma Qle_bool_false (x y : Q) : Qle_bool x y = false <-> y < x.
Proof.
  split; intros H.
  - apply Qnot_le_lt. intros C. apply Qle_bool_iff in C. congruence.
  - destruct (Qle_bool x y) eqn:E; [|reflexivity].
    apply Qle_bool_iff in E. lra.
Qed.

(** [round(x, 4)] stays inside [0..1] and fixes both ends. *)
Lemma round_unit_interval (x : Q) (n : nat) :
  0 <= x <= 1 -> 0 <= Py.round x n <= 1.
Proof.
  intros [H0 H1]. unfold Py.round. rewrite Qred_correct.
  set (p := (10 ^ Z.of_nat n)%Z).
  assert (Hp : (0 < p)%Z) by (apply Z.pow_pos_nonneg; lia).
  assert (HpQ : 0 < inject_Z p) by (rewrite <- (Zlt_Qlt 0); assumption).
  assert (Hlo : (0 <= Py.int_round (x * inject_Z p))%Z).
  { rewrite <- (int_round_inject 0). apply int_round_mono.
    apply Qmult_le_0_compat; lra. }
  assert (Hhi : (Py.int_round (x * inject_Z p) <= p)%Z).
  { rewrite <- (int_round_inject p) at 2. apply int_round_mono.
    rewrite <- (Qmult_1_l (inject_Z p)) at 2.
    apply Qmult_le_compat_r; lra. }
  rewrite Zle_Qle in Hlo, Hhi. change (inject_Z 0) with 0 in Hlo.
  split.
  - apply Qle_shift_div_l; lra.
  - apply Qle_shift_div_r; lra.
Qed.

Lemma round_one (n : nat) : Py.round 1 n == 1.
Proof.
  unfold Py.round. rewrite Qred_correct.
  set (p := (10 ^ Z.of_nat n)%Z).
  assert (Hp : (0 < p)%Z) by (apply Z.pow_pos_nonneg; lia).
  rewrite (int_round_of_integer _ p) by ring.
  field. intros C.
  assert (0 < inject_Z p) by (rewrite <- (Zlt_Qlt 0); assumption). lra.
Qed.

End Numbers.

(** ** Loops, slices and first occurrences *)

Section Loops.

Context {X R : Type}.

Lemma for_each_append (body : X -> list R -> result (list R))
    (g : X -> list R) (xs : list X) :
  (forall x, In x xs -> forall s, body x s = Ok (s ++ g x)) ->
  forall s, for_each xs body s = Ok (s ++ flat_map g xs).
Proof.
  induction xs as [|x xs IH]; intros Hb s; simpl.
  - now rewrite app_nil_r.
  - rewrite (Hb x (or_introl eq_refl)). simpl.
    rewrite IH by (intros; apply Hb; now right).
    now rewrite app_assoc.
Qed.

End Loops.

Lemma range_In (c k : Z) : In k (Py.range c) <-> 0 <= k < c.
Proof.
  unfold Py.range. rewrite in_map_iff. split.
  - intros [i [<- Hi]]. apply in_seq in Hi. lia.
  - intros H. exists (Z.to_nat k). split; [lia|]. apply in_seq. lia.
Qed.

Section Slices.

Lemma nth_firstn_lt {A} (l : list A) (n i : nat) (d : A) :
  (i < n)%nat -> nth i (firstn n l) d = nth i l d.
Proof.
  intros H. rewrite nth_firstn.
  destruct (i <? n)%nat eqn:E; [reflexivity|]. apply Nat.ltb_ge in E. lia.
Qed.

Lemma slice_bound_range (n i : Z) : 0 <= n -> 0 <= Py.slice_bound n i <= n.
Proof. unfold Py.slice_bound. destruct (i <? 0) eqn:E; lia. Qed.

Lemma slice_bound_inside (n i : Z) : 0 <= i <= n -> Py.slice_bound n i = i.
Proof. unfold Py.slice_bound. destruct (i <? 0) eqn:E; lia. Qed.

Lemma setslice_length (a : list Z) (i j v : Z) :
  List.length (Np.setslice a i j v) = List.length a.
Proof.
  unfold Np.setslice.
  pose proof (slice_bound_range (Z.of_nat (List.length a)) i ltac:(lia)) as Hi.
  pose proof (slice_bound_range (Z.of_nat (List.length a)) j ltac:(lia)) as Hj.
  destruct (_ <? _) eqn:E; [|reflexivity].
  rewrite !length_app, repeat_length, length_firstn, length_skipn. lia.
Qed.

Lemma setslice_nth (a : list Z) (i j v : Z) (k : nat) :
  let n := Z.of_nat (List.length a) in
  nth k (Np.setslice a i j v) 0 =
  if (Py.slice_bound n i <=? Z.of_nat k) && (Z.of_nat k <? Py.slice_bound n j)
  then v else nth k a 0.
Proof.
  intros n. unfold Np.setslice. fold n.
  pose proof (slice_bound_range n i ltac:(lia)) as Hi.
  pose proof (slice_bound_range n j ltac:(lia)) as Hj.
  set (lo := Py.slice_bound n i) in *. set (hi := Py.slice_bound n j) in *.
  destruct (lo <? hi) eqn:E.
  - destruct (lo <=? Z.of_nat k) eqn:E1; simpl.
    + rewrite app_nth2 by (rewrite length_firstn; lia).
      rewrite length_firstn, Nat.min_l by lia.
      destruct (Z.of_nat k <? hi) eqn:E2.
      * rewrite app_nth1 by (rewrite repeat_length; lia).
        apply nth_repeat_lt. lia.
      * rewrite app_nth2 by (rewrite repeat_length; lia).
        rewrite repeat_length, nth_skipn. f_equal. lia.
    + rewrite app_nth1 by (rewrite length_firstn; lia).
      apply nth_firstn_lt. lia.
  - destruct (lo <=? Z.of_nat k) eqn:E1, (Z.of_nat k <? hi) eqn:E2;
      simpl; try reflexivity; lia.
Qed.

Lemma place_labels_length (scale : Q) (df : DataFrame) (arr : list Z) :
  List.length (place_labels scale df arr) = List.length arr.
Proof.
  revert arr. induction df as [|r df IH]; intros arr; [reflexivity|].
  change (place_labels scale (r :: df) arr)
    with (place_labels scale df (place_label scale arr r)).
  rewrite IH. unfold place_label.
  destruct (label_bounds scale r). apply setslice_length.
Qed.

Lemma place_labels_nth (scale : Q) (df : DataFrame) (arr : list Z) (k : nat) :
  nth k (place_labels scale df arr) 0 =
  if covered (Z.of_nat (List.length arr)) scale df (Z.of_nat k)
  then 1 else nth k arr 0.
Proof.
  revert arr. induction df as [|r df IH]; intros arr; [reflexivity|].
  change (place_labels scale (r :: df) arr)
    with (place_labels scale df (place_label scale arr r)).
  rewrite IH. cbn [covered existsb]. fold (covered (Z.of_nat (List.length arr)) scale df (Z.of_nat k)).
  unfold place_label, in_label.
  destruct (label_bounds scale r) as [minval maxval].
  rewrite setslice_length, setslice_nth.
  destruct (covered _ _ df _); [now rewrite orb_true_r|].
  now rewrite orb_false_r.
Qed.

(** An array that started at zero holds only zeros and ones. *)
Lemma place_labels_zeros_nth (scale : Q) (df : DataFrame) (n k : nat) :
  nth k (place_labels scale df (repeat 0 n)) 0 =
  if covered (Z.of_nat n) scale df (Z.of_nat k) then 1 else 0.
Proof.
  rewrite place_labels_nth, repeat_length.
  destruct (covered _ _ _ _); [reflexivity|].
  destruct (Nat.lt_ge_cases k n).
  - now apply nth_repeat_lt.
  - apply nth_overflow. rewrite repeat_length. lia.
Qed.

Lemma getslice_inside {A} (a : list A) (lo hi : Z) :
  0 <= lo <= hi -> hi <= Z.of_nat (List.length a) ->
  Py.getslice a lo hi = firstn (Z.to_nat (hi - lo)) (skipn (Z.to_nat lo) a).
Proof.
  intros H1 H2. unfold Py.getslice.
  rewrite !slice_bound_inside by lia. reflexivity.
Qed.

Lemma getslice_exists (a : list Z) (lo hi : Z) (p : Z -> bool) :
  0 <= lo <= hi -> hi <= Z.of_nat (List.length a) ->
  existsb p (Py.getslice a lo hi) = true <->
  exists k, lo <= k < hi /\ p (nth (Z.to_nat k) a 0) = true.
Proof.
  intros H1 H2. rewrite getslice_inside by assumption.
  rewrite existsb_exists. split.
  - intros [x [Hin Hp]].
    apply (In_nth _ _ 0) in Hin. destruct Hin as [m [Hm Hx]].
    rewrite length_firstn, length_skipn in Hm.
    rewrite nth_firstn in Hx.
    destruct (m <? Z.to_nat (hi - lo))%nat eqn:E.
    2:{ apply Nat.ltb_ge in E. lia. }
    rewrite nth_skipn in Hx.
    exists (lo + Z.of_nat m). split; [lia|].
    replace (Z.to_nat (lo + Z.of_nat m)) with (Z.to_nat lo + m)%nat by lia.
    now rewrite Hx.
  - intros [k [Hk Hp]].
    exists (nth (Z.to_nat k) a 0). split; [|assumption].
    replace (Z.to_nat k) with (Z.to_nat lo + Z.to_nat (k - lo))%nat by lia.
    rewrite <- nth_skipn.
    rewrite <- (nth_firstn_lt _ (Z.to_nat (hi - lo))) by lia.
    apply nth_In. rewrite length_firstn, length_skipn. lia.
Qed.

Lemma fold_max_ge (l : list Z) (x : Z) : x <= fold_left Z.max l x.
Proof.
  revert x. induction l as [|y l IH]; intros x; simpl; [lia|].
  specialize (IH (Z.max x y)). lia.
Qed.

Lemma fold_max_exists (l : list Z) (x t : Z) :
  t <= fold_left Z.max l x <-> t <= x \/ exists y, In y l /\ t <= y.
Proof.
  revert x. induction l as [|y l IH]; intros x; simpl.
  - split; [auto|]. intros [H|[y [[] _]]]. assumption.
  - rewrite IH. split.
    + intros [H|[z [Hz Ht]]].
      * destruct (Z.max_spec x y) as [[_ E]|[_ E]]; rewrite E in H; eauto.
      * eauto.
    + intros [H|[z [[->|Hz] Ht]]]; [left; lia|left; lia|eauto].
Qed.

(** The chunker's test [max(chunk) >= 0.5] on a non-empty chunk. *)
Lemma max_threshold (chunk : list Z) :
  chunk <> [] ->
  exists m, Py.max chunk = Ok m /\
            Qle_bool (1 # 2) (inject_Z m) = existsb (fun x => 1 <=? x) chunk.
Proof.
  destruct chunk as [|x rest]; [congruence|]. intros _.
  eexists. split; [reflexivity|].
  set (m := fold_left Z.max rest x).
  assert (Hm : 1 <= m <-> 1 <= x \/ exists y, In y rest /\ 1 <= y)
    by apply fold_max_exists.
  destruct (existsb _ _) eqn:E.
  - apply Qle_bool_iff. apply existsb_exists in E. destruct E as [y [Hy Hy1]].
    assert (1 <= m).
    { apply Hm. simpl in Hy. destruct Hy as [<-|Hy]; [left; lia|].
      right. exists y. split; [assumption|lia]. }
    unfold Qle. simpl. lia.
  - apply Qle_bool_false. unfold Qlt. simpl.
    destruct (Z_le_gt_dec 1 m) as [H|H]; [|lia].
    exfalso. apply Hm in H.
    assert (existsb (fun x => 1 <=? x) (x :: rest) = true); [|congruence].
    apply existsb_exists. destruct H as [H|[y [Hy H]]].
    + exists x. split; [now left|lia].
    + exists y. split; [now right|lia].
Qed.

End Slices.

(** ** The chunker on an integer chunk length *)

Section ChunkWindows.
Import annotation_post_processing chunker_view.

Variable l : Z.
Hypothesis l_pos : 0 < l.

Lemma int_chunk_length : Py.int (inject_Z l) = l.
Proof. apply int_of_integer. reflexivity. Qed.

Section OneClip.

Variable clip_len : Q.
Hypothesis clip_long : (inject_Z l <= clip_len)%Q.

Let count := Py.int clip_len / l.
Let arr_len := Py.int (clip_len * 1000).

Lemma clip_len_pos : (0 < clip_len)%Q.
Proof.
  apply Qlt_le_trans with (inject_Z l); [|assumption].
  rewrite <- (Zlt_Qlt 0). assumption.
Qed.

Lemma count_floor : count = Qfloor (clip_len / inject_Z l).
Proof.
  unfold count. rewrite int_of_nonneg by (pose proof clip_len_pos; lra).
  assert (Hq : (0 < inject_Z l)%Q) by (rewrite <- (Zlt_Qlt 0); assumption).
  set (f := Qfloor clip_len). set (q := f / l).
  pose proof (Z.mul_div_le f l l_pos) as Hlo.
  pose proof (Z.mul_succ_div_gt f l l_pos) as Hhi.
  fold q in Hlo, Hhi.
  pose proof (Qfloor_le clip_len) as Fl. pose proof (Qlt_floor clip_len) as Fu.
  fold f in Fl, Fu.
  symmetry. apply Qfloor_unique.
  - apply Qle_shift_div_l; [assumption|].
    apply Qle_trans with (inject_Z f); [|assumption].
    rewrite <- inject_Z_mult, <- Zle_Qle. lia.
  - apply Qlt_shift_div_r; [assumption|].
    apply Qlt_le_trans with (inject_Z (f + 1)); [assumption|].
    rewrite <- inject_Z_mult, <- Zle_Qle. lia.
Qed.

Lemma arr_len_floor : arr_len = Qfloor (clip_len * 1000).
Proof.
  unfold arr_len. apply int_of_nonneg. pose proof clip_len_pos. lra.
Qed.

Lemma window_inside (index : Z) :
  0 <= index < count -> (index + 1) * l * 1000 <= arr_len.
Proof.
  intros H. rewrite arr_len_floor.
  assert (Hc : (index + 1) * l <= Qfloor clip_len).
  { unfold count in H.
    rewrite int_of_nonneg in H by (pose proof clip_len_pos; lra).
    pose proof (Z.mul_div_le (Qfloor clip_len) l l_pos). nia. }
  rewrite <- (Qfloor_Z ((index + 1) * l * 1000)).
  apply Qfloor_resp_le.
  rewrite inject_Z_mult.
  apply Qmult_le_compat_r; [|discriminate].
  apply Qle_trans with (inject_Z (Qfloor clip_len)); [|apply Qfloor_le].
  rewrite <- Zle_Qle. assumption.
Qed.

Lemma chunk_start_int (index : Z) :
  Py.int (chunk_start (inject_Z l) index) = index * l * 1000.
Proof.
  apply int_of_integer. unfold chunk_start.
  rewrite !inject_Z_mult. ring.
Qed.

Lemma chunk_end_int (index : Z) :
  0 <= index < count ->
  Py.int (chunk_end (inject_Z l) arr_len index) = (index + 1) * l * 1000.
Proof.
  intros H. apply int_of_integer. unfold chunk_end.
  rewrite Q.min_l.
  - rewrite !inject_Z_mult, inject_Z_plus. ring.
  - pose proof (window_inside index H) as Hw. rewrite Zle_Qle in Hw.
    rewrite !inject_Z_mult, inject_Z_plus in Hw. exact Hw.
Qed.

Lemma chunk_step_ok (path file bird : string) (sr : Z) (human_arr : list Z)
    (index : Z) (output_df : DataFrame) :
  Z.of_nat (List.length human_arr) = arr_len ->
  0 <= index < count ->
  chunk_step path file bird clip_len sr (inject_Z l) arr_len human_arr
             index output_df
  = Ok (output_df ++
        if window_hit (inject_Z l) arr_len human_arr index
        then [chunk_row path file bird clip_len sr (inject_Z l) index]
        else []).
Proof.
  intros Hlen Hi. unfold chunk_step, window_hit.
  rewrite chunk_start_int, (chunk_end_int index Hi).
  pose proof (window_inside index Hi) as Hw.
  set (chunk := Py.getslice _ _ _).
  assert (Hne : chunk <> []).
  { unfold chunk. rewrite getslice_inside by nia.
    intros C. apply (f_equal (@List.length Z)) in C.
    rewrite length_firstn, length_skipn in C. simpl in C. nia. }
  destruct (max_threshold chunk Hne) as [m [Hm Ht]].
  rewrite Hm. simpl. rewrite Ht.
  destruct (existsb _ chunk); [reflexivity|now rewrite app_nil_r].
Qed.

Lemma bird_step_ok (clip_df : DataFrame) (path file : string) (sr : Z)
    (bird : string) (output_df : DataFrame) :
  bird_step clip_df path file clip_len sr (inject_Z l) count arr_len
            bird output_df
  = Ok (output_df ++
        bird_chunks clip_df path file clip_len sr (inject_Z l) count arr_len
                    bird).
Proof.
  unfold bird_step, bird_chunks, Np.zeros.
  assert (Hn : 0 <= arr_len).
  { rewrite arr_len_floor. rewrite <- (Qfloor_Z 0). apply Qfloor_resp_le.
    change (inject_Z 0) with 0%Q. pose proof clip_len_pos. lra. }
  destruct (arr_len <? 0) eqn:E; [lia|]. simpl.
  set (human_arr := place_labels _ _ _).
  assert (Hlen : Z.of_nat (List.length human_arr) = arr_len).
  { unfold human_arr. rewrite place_labels_length, repeat_length. lia. }
  rewrite (for_each_append _
             (fun index => if window_hit (inject_Z l) arr_len human_arr index
                           then [chunk_row path file bird clip_len sr
                                           (inject_Z l) index]
                           else [])).
  - f_equal. f_equal. induction (Py.range count) as [|i rest IH]; simpl.
    + reflexivity.
    + destruct (window_hit _ _ _ i); simpl; now rewrite IH.
  - intros index Hin s. apply range_In in Hin.
    now apply chunk_step_ok.
Qed.

End OneClip.

Lemma unique_In (x : string) (xs : list string) :
  In x (Py.unique xs) <-> In x xs.
Proof.
  induction xs as [|y xs IH]; simpl; [reflexivity|].
  rewrite filter_In, IH. split.
  - intros [H|[H _]]; auto.
  - intros [H|H]; [now left|].
    destruct (String.eqb_spec x y) as [->|N]; [now left|].
    right. split; [assumption|].
    destruct (String.eqb_spec x y); [congruence|reflexivity].
Qed.

Lemma clip_step_ok (df : DataFrame) (clip : string) (output_df : DataFrame) :
  In clip (map FILEPATH df) ->
  clip_step df (inject_Z l) clip output_df
  = Ok (output_df ++ clip_chunks df l clip).
Proof.
  intros Hin. unfold clip_step, clip_chunks.
  destruct (filter _ df) as [|r rest] eqn:Hclip.
  - (* a clip name always comes from a row of the table *)
    exfalso. apply in_map_iff in Hin. destruct Hin as [r [Hr Hin]].
    assert (C : In r (filter (fun r => String.eqb (FILEPATH r) clip) df)).
    { apply filter_In. split; [assumption|]. rewrite Hr. apply String.eqb_refl. }
    rewrite Hclip in C. destruct C.
  - cbn [first_value bind].
    destruct (Qle_bool (inject_Z l) (CLIP_LENGTH r)) eqn:E; cbn [negb].
    + apply Qle_bool_iff in E.
      rewrite int_chunk_length. unfold Py.floordiv.
      destruct (l =? 0) eqn:E0; [lia|]. cbn [bind].
      apply for_each_append. intros bird _ s.
      now apply bird_step_ok.
    + now rewrite app_nil_r.
Qed.

Theorem annotation_chunker_integer (df : DataFrame) :
  annotation_chunker df (inject_Z l) = Ok (chunks df l).
Proof.
  unfold annotation_chunker, chunks.
  rewrite (for_each_append _ (clip_chunks df l)); [reflexivity|].
  intros clip Hin s. apply clip_step_ok. now apply unique_In.
Qed.

End ChunkWindows.

(** ** Grouping rows by a key *)

Section Groups.

Context {R : Type}.
Variable key : R -> string.
Variable f : string -> list R.

Lemma unique_notin_filter (k : string) (xs : list string) :
  ~ In k xs -> filter (fun y => negb (String.eqb y k)) xs = xs.
Proof.
  induction xs as [|x xs IH]; intros H; simpl; [reflexivity|].
  destruct (String.eqb_spec x k) as [->|N]; simpl.
  - exfalso. apply H. now left.
  - f_equal. apply IH. intros C. apply H. now right.
Qed.

Lemma filter_filter_neq (k : string) (xs : list string) :
  filter (fun y => negb (String.eqb y k))
         (filter (fun y => negb (String.eqb y k)) xs)
  = filter (fun y => negb (String.eqb y k)) xs.
Proof.
  induction xs as [|x xs IH]; simpl; [reflexivity|].
  destruct (negb (String.eqb x k)) eqn:E; simpl; rewrite ?E, IH; reflexivity.
Qed.

Lemma unique_NoDup (xs : list string) : NoDup (Py.unique xs).
Proof.
  induction xs as [|x xs IH]; simpl; constructor.
  - rewrite filter_In. intros [_ C]. now rewrite String.eqb_refl in C.
  - now apply NoDup_filter.
Qed.

(** A block of rows of one key in front of rows of other keys. *)
Lemma unique_block (k : string) (g rest : list R) :
  (forall r, In r g -> key r = k) ->
  ~ In k (map key rest) ->
  Py.unique (map key (g ++ rest)) =
  if nonempty g then k :: Py.unique (map key rest)
  else Py.unique (map key rest).
Proof.
  intros Hg Hk. induction g as [|r g IH]; [reflexivity|].
  simpl. rewrite (Hg r (or_introl eq_refl)). f_equal.
  rewrite IH by (intros; apply Hg; now right).
  assert (Hu : ~ In k (Py.unique (map key rest))) by now rewrite unique_In.
  destruct (nonempty g); simpl.
  - rewrite String.eqb_refl. simpl. now apply unique_notin_filter.
  - now apply unique_notin_filter.
Qed.

Hypothesis key_of_group : forall k r, In r (f k) -> key r = k.

Lemma flat_map_keys (ks : list string) (k : string) :
  In k (map key (flat_map f ks)) -> In k ks.
Proof.
  rewrite in_map_iff. intros [r [<- Hr]].
  apply in_flat_map in Hr. destruct Hr as [k' [Hk' Hr]].
  now rewrite (key_of_group k' r Hr).
Qed.

Lemma unique_groups (ks : list string) :
  NoDup ks ->
  Py.unique (map key (flat_map f ks)) =
  filter (fun k => nonempty (f k)) ks.
Proof.
  induction 1 as [|k ks Hk Hnd IH]; [reflexivity|].
  cbn [flat_map filter]. rewrite (unique_block k).
  - rewrite IH. destruct (nonempty (f k)); reflexivity.
  - intros r. apply key_of_group.
  - intros C. apply Hk. now apply flat_map_keys.
Qed.

Lemma filter_other_group (ks : list string) (k : string) :
  ~ In k ks ->
  filter (fun r => String.eqb (key r) k) (flat_map f ks) = [].
Proof.
  intros Hk. induction ks as [|k' ks IH]; [reflexivity|].
  cbn [flat_map]. rewrite filter_app, IH by (intros C; apply Hk; now right).
  rewrite app_nil_r.
  assert (N : k' <> k) by (intros ->; apply Hk; now left).
  assert (G : forall r, In r (f k') -> String.eqb (key r) k = false).
  { intros r Hr. rewrite (key_of_group k' r Hr).
    destruct (String.eqb_spec k' k); congruence. }
  induction (f k') as [|r g IHg]; [reflexivity|].
  simpl. rewrite (G r (or_introl eq_refl)).
  apply IHg. intros; apply G; now right.
Qed.

Lemma filter_own_group (k : string) :
  filter (fun r => String.eqb (key r) k) (f k) = f k.
Proof.
  assert (G : forall r, In r (f k) -> String.eqb (key r) k = true).
  { intros r Hr. rewrite (key_of_group k r Hr). apply String.eqb_refl. }
  induction (f k) as [|r g IHg]; [reflexivity|].
  simpl. rewrite (G r (or_introl eq_refl)). f_equal.
  apply IHg. intros; apply G; now right.
Qed.

Lemma filter_group (ks : list string) (k : string) :
  NoDup ks -> In k ks ->
  filter (fun r => String.eqb (key r) k) (flat_map f ks) = f k.
Proof.
  induction 1 as [|k' ks Hk Hnd IH]; intros Hin; [destruct Hin|].
  cbn [flat_map]. rewrite filter_app.
  destruct Hin as [->|Hin].
  - rewrite filter_own_group, filter_other_group by assumption.
    apply app_nil_r.
  - rewrite IH by assumption.
    assert (N : k' <> k) by (intros ->; contradiction).
    assert (G : forall r, In r (f k') -> String.eqb (key r) k = false).
    { intros r Hr. rewrite (key_of_group k' r Hr).
      destruct (String.eqb_spec k' k); congruence. }
    replace (filter _ (f k')) with (@nil R); [reflexivity|].
    symmetry. induction (f k') as [|r g IHg]; [reflexivity|].
    simpl. rewrite (G r (or_introl eq_refl)).
    apply IHg. intros; apply G; now right.
Qed.

Lemma flat_map_nonempty (ks : list string) :
  flat_map f (filter (fun k => nonempty (f k)) ks) = flat_map f ks.
Proof.
  induction ks as [|k ks IH]; [reflexivity|].
  cbn [filter flat_map]. destruct (f k) eqn:E; cbn [nonempty].
  - exact IH.
  - cbn [flat_map]. rewrite E, IH. reflexivity.
Qed.

End Groups.

Lemma flat_map_ext_In {A B} (f g : A -> list B) (l : list A) :
  (forall a, In a l -> f a = g a) -> flat_map f l = flat_map g l.
Proof.
  induction l as [|a l IH]; intros H; [reflexivity|].
  simpl. rewrite (H a (or_introl eq_refl)), IH; [reflexivity|].
  intros; apply H; now right.
Qed.

(** ** Chunking the chunker's output *)

Section Rechunk.
Import annotation_post_processing chunker_view.

Variable l : Z.
Hypothesis l_pos : 0 < l.

Section OneClip.

Variable clip_len : Q.
Hypothesis clip_long : (inject_Z l <= clip_len)%Q.
Variables (path file : string) (sr : Z).

Local Abbreviation count := (Py.int clip_len / l).
Local Abbreviation arr_len := (Py.int (clip_len * 1000)).
Local Abbreviation w := (l * 1000).

Lemma arr_len_nonneg : 0 <= arr_len.
Proof.
  rewrite (arr_len_floor l l_pos clip_len clip_long).
  rewrite <- (Qfloor_Z 0). apply Qfloor_resp_le.
  change (inject_Z 0) with 0%Q.
  pose proof (clip_len_pos l l_pos clip_len clip_long). lra.
Qed.

Lemma label_bounds_chunk_row (bird : string) (index : Z) :
  label_bounds 1000
    (chunk_row path file bird clip_len sr (inject_Z l) index)
  = (index * w, (index + 1) * w).
Proof.
  unfold label_bounds, chunk_row, chunk_start. cbn [OFFSET DURATION].
  f_equal; apply int_round_of_integer;
    rewrite !inject_Z_mult, ?inject_Z_plus; field.
Qed.

Lemma covered_chunk_rows (bird : string) (idxs : list Z) (k : Z) :
  Forall (fun index => 0 <= index < count) idxs ->
  covered arr_len 1000
    (map (chunk_row path file bird clip_len sr (inject_Z l)) idxs) k
  = existsb (fun index => (index * w <=? k) && (k <? (index + 1) * w)) idxs.
Proof.
  induction 1 as [|index idxs Hi _ IH]; [reflexivity|].
  cbn [map covered existsb]. fold (covered arr_len 1000
    (map (chunk_row path file bird clip_len sr (inject_Z l)) idxs) k).
  rewrite IH. f_equal.
  unfold in_label. rewrite label_bounds_chunk_row.
  pose proof (window_inside l l_pos clip_len clip_long index Hi) as Hw.
  rewrite !slice_bound_inside by nia. reflexivity.
Qed.

(** On the array rebuilt from the rows of the windows selected by [P], the
    windows that hold a label are those selected by [P]. *)
Lemma window_hit_rechunk (bird : string) (P : Z -> bool) (j : Z) :
  0 <= j < count ->
  window_hit (inject_Z l) arr_len
    (place_labels 1000
       (map (chunk_row path file bird clip_len sr (inject_Z l))
            (filter P (Py.range count)))
       (repeat 0 (Z.to_nat arr_len))) j
  = P j.
Proof.
  intros Hj. unfold window_hit.
  rewrite (chunk_start_int l), (chunk_end_int l l_pos clip_len clip_long j Hj).
  pose proof (window_inside l l_pos clip_len clip_long j Hj) as Hw.
  pose proof arr_len_nonneg as Hn.
  set (arr := place_labels _ _ _).
  assert (Hlen : Z.of_nat (List.length arr) = arr_len).
  { unfold arr. rewrite place_labels_length, repeat_length. lia. }
  assert (Hidx : Forall (fun index => 0 <= index < count)
                        (filter P (Py.range count))).
  { apply Forall_forall. intros i Hi. apply filter_In in Hi.
    now apply range_In. }
  apply Bool.eq_iff_eq_true.
  rewrite getslice_exists by nia. split.
  - intros [k [Hk H1]]. unfold arr in H1.
    rewrite place_labels_zeros_nth in H1.
    rewrite !Z2Nat.id in H1 by lia.
    rewrite covered_chunk_rows in H1 by assumption.
    destruct (existsb _ _) eqn:E; [|discriminate].
    apply existsb_exists in E. destruct E as [i [Hi Hin]].
    apply filter_In in Hi. destruct Hi as [Hr HP].
    apply range_In in Hr.
    assert (i = j) by nia. now subst i.
  - intros HP. exists (j * l * 1000). split; [nia|].
    unfold arr. rewrite place_labels_zeros_nth.
    rewrite !Z2Nat.id by nia.
    rewrite covered_chunk_rows by assumption.
    replace (existsb _ _) with true; [reflexivity|].
    symmetry. apply existsb_exists. exists j. split.
    + apply filter_In. split; [now apply range_In|assumption].
    + nia.
Qed.

Lemma bird_chunks_key (clip_df : DataFrame) (bird : string) (r : Annotation) :
  In r (bird_chunks clip_df path file clip_len sr (inject_Z l) count arr_len
          bird) ->
  MANUAL_ID r = bird.
Proof.
  unfold bird_chunks. rewrite in_map_iff. now intros [i [<- _]].
Qed.

(** Re-chunking the rows of one clip gives, class by class, the same rows. *)
Lemma bird_chunks_rechunk (clip_df : DataFrame) (birds : list string)
    (bird : string) :
  NoDup birds -> In bird birds ->
  bird_chunks
    (flat_map (bird_chunks clip_df path file clip_len sr (inject_Z l)
                 count arr_len) birds)
    path file clip_len sr (inject_Z l) count arr_len bird
  = bird_chunks clip_df path file clip_len sr (inject_Z l) count arr_len bird.
Proof.
  intros Hnd Hin. unfold bird_chunks at 1.
  rewrite (filter_group MANUAL_ID _ (bird_chunks_key clip_df))
    by assumption.
  unfold bird_chunks. f_equal.
  apply filter_ext_in. intros j Hj. apply range_In in Hj.
  now apply window_hit_rechunk.
Qed.

End OneClip.

Lemma clip_chunks_key (df : DataFrame) (clip : string) (r : Annotation) :
  In r (clip_chunks df l clip) -> FILEPATH r = clip.
Proof.
  unfold clip_chunks.
  destruct (filter _ df) as [|r0 rest] eqn:E; [intros []|].
  destruct (Qle_bool _ _); [|intros []].
  rewrite in_flat_map. intros [bird [_ Hr]].
  unfold bird_chunks in Hr. apply in_map_iff in Hr.
  destruct Hr as [i [<- _]]. unfold chunk_row, FILEPATH. cbn.
  assert (Hin : In r0 (filter (fun r => String.eqb (FILEPATH r) clip) df))
    by (rewrite E; now left).
  apply filter_In in Hin. destruct Hin as [_ Hk].
  now apply String.eqb_eq in Hk.
Qed.

Lemma clip_chunks_rechunk (df : DataFrame) (clips : list string)
    (clip : string) :
  NoDup clips -> In clip clips ->
  nonempty (clip_chunks df l clip) = true ->
  clip_chunks (flat_map (clip_chunks df l) clips) l clip
  = clip_chunks df l clip.
Proof.
  intros Hnd Hin Hne. unfold clip_chunks at 1.
  rewrite (filter_group FILEPATH _ (clip_chunks_key df)) by assumption.
  destruct (clip_chunks df l clip) as [|r' rest'] eqn:Hrows;
    [discriminate|].
  revert Hrows. unfold clip_chunks.
  destruct (filter _ df) as [|r0 rest] eqn:E; [discriminate|].
  destruct (Qle_bool (inject_Z l) (CLIP_LENGTH r0)) eqn:Hlong;
    [|discriminate].
  apply Qle_bool_iff in Hlong.
  set (birds := Py.unique (map MANUAL_ID (r0 :: rest))).
  set (bc := bird_chunks (r0 :: rest) (FOLDER r0) (IN_FILE r0)
               (CLIP_LENGTH r0) (SAMPLE_RATE r0) (inject_Z l)
               (Py.int (CLIP_LENGTH r0) / l)
               (Py.int (CLIP_LENGTH r0 * 1000))).
  intros Hrows.
  assert (Hr' : In r' (flat_map bc birds)) by (rewrite Hrows; now left).
  apply in_flat_map in Hr'. destruct Hr' as [b [_ Hr']].
  unfold bc, bird_chunks in Hr'. apply in_map_iff in Hr'.
  destruct Hr' as [i [Hr' _]].
  assert (F1 : FOLDER r' = FOLDER r0) by now subst r'.
  assert (F2 : IN_FILE r' = IN_FILE r0) by now subst r'.
  assert (F3 : CLIP_LENGTH r' = CLIP_LENGTH r0) by now subst r'.
  assert (F4 : SAMPLE_RATE r' = SAMPLE_RATE r0) by now subst r'.
  rewrite F1, F2, F3, F4.
  apply Qle_bool_iff in Hlong. rewrite Hlong. apply Qle_bool_iff in Hlong.
  rewrite <- Hrows. fold bc.
  assert (Hb : NoDup birds) by apply unique_NoDup.
  rewrite (unique_groups MANUAL_ID bc) by
    (try assumption; intros k r; apply bird_chunks_key).
  rewrite (flat_map_ext_In _ bc).
  - apply flat_map_nonempty.
  - intros bird Hbird. apply filter_In in Hbird. destruct Hbird as [Hbird _].
    unfold bc. now apply bird_chunks_rechunk.
Qed.

Theorem chunks_idempotent (df : DataFrame) :
  chunks (chunks df l) l = chunks df l.
Proof.
  unfold chunks at 1 3.
  set (clips := Py.unique (map FILEPATH df)).
  assert (Hnd : NoDup clips) by apply unique_NoDup.
  unfold chunks. fold clips.
  rewrite (unique_groups FILEPATH (clip_chunks df l))
    by (try assumption; intros k r; apply clip_chunks_key).
  rewrite (flat_map_ext_In _ (clip_chunks df l)).
  - apply flat_map_nonempty.
  - intros clip Hclip. apply filter_In in Hclip.
    destruct Hclip as [Hclip Hne]. now apply clip_chunks_rechunk.
Qed.

End Rechunk.

(** ** Claims on the chunker *)

Section ChunkerClaims.
Import annotation_post_processing chunker_view.

Lemma filter_head_find {A} (p : A -> bool) (l : list A) (x : A) (rest : list A) :
  filter p l = x :: rest -> find p l = Some x.
Proof.
  induction l as [|y l IH]; simpl; [discriminate|].
  destruct (p y); [now intros [= -> _]|assumption].
Qed.

Lemma floor_short_clip (l : Z) (clip_len : Q) :
  0 < l -> (clip_len < inject_Z l)%Q -> Qfloor (clip_len / inject_Z l) <= 0.
Proof.
  intros Hl Hshort.
  assert (HlQ : (0 < inject_Z l)%Q) by (rewrite <- (Zlt_Qlt 0); assumption).
  assert (H1 : (clip_len / inject_Z l < 1)%Q)
    by (apply Qlt_shift_div_r; [assumption|lra]).
  pose proof (Qfloor_le (clip_len / inject_Z l)) as Hf.
  assert (H2 : (inject_Z (Qfloor (clip_len / inject_Z l)) < inject_Z 1)%Q)
    by (change (inject_Z 1) with 1%Q; lra).
  rewrite <- Zlt_Qlt in H2. lia.
Qed.

Lemma chunks_In (df : DataFrame) (l : Z) (r : Annotation) :
  In r (chunks df l) ->
  exists clip r0 bird index,
    find (fun x => String.eqb (FILEPATH x) clip) df = Some r0 /\
    (inject_Z l <= CLIP_LENGTH r0)%Q /\
    0 <= index < Py.int (CLIP_LENGTH r0) / l /\
    r = chunk_row (FOLDER r0) (IN_FILE r0) bird (CLIP_LENGTH r0)
          (SAMPLE_RATE r0) (inject_Z l) index.
Proof.
  unfold chunks. rewrite in_flat_map. intros [clip [_ Hr]].
  unfold clip_chunks in Hr.
  destruct (filter _ df) as [|r0 rest] eqn:E; [destruct Hr|].
  destruct (Qle_bool _ _) eqn:Hlong; [|destruct Hr].
  apply in_flat_map in Hr. destruct Hr as [bird [_ Hr]].
  unfold bird_chunks in Hr. apply in_map_iff in Hr.
  destruct Hr as [index [<- Hi]]. apply filter_In in Hi.
  destruct Hi as [Hi _]. apply range_In in Hi.
  exists clip, r0, bird, index. repeat split; try lia.
  - eapply filter_head_find; eassumption.
  - now apply Qle_bool_iff.
Qed.

(** A clip that one label of one class covers from start to end gets a row
    for every window the chunker examines. *)
Lemma full_label_chunks (l : Z) (r : Annotation) :
  0 < l -> OFFSET r = 0%Q -> DURATION r = CLIP_LENGTH r ->
  chunks [r] l =
  map (chunk_row (FOLDER r) (IN_FILE r) (MANUAL_ID r) (CLIP_LENGTH r)
                 (SAMPLE_RATE r) (inject_Z l))
      (Py.range (Qfloor (CLIP_LENGTH r / inject_Z l))).
Proof.
  intros Hl Hoff Hdur. unfold chunks. cbn [map Py.unique filter flat_map].
  rewrite app_nil_r. unfold clip_chunks. cbn [filter].
  rewrite String.eqb_refl.
  destruct (Qle_bool (inject_Z l) (CLIP_LENGTH r)) eqn:Hlong.
  - apply Qle_bool_iff in Hlong.
    cbn [map Py.unique filter flat_map]. rewrite app_nil_r.
    unfold bird_chunks. cbn [filter]. rewrite String.eqb_refl.
    rewrite <- (count_floor l Hl (CLIP_LENGTH r) Hlong). f_equal.
    set (n := Py.int (CLIP_LENGTH r * 1000)).
    assert (Hn : 0 <= n) by apply (arr_len_nonneg l Hl _ Hlong).
    assert (Hall : forall index, In index (Py.range (Py.int (CLIP_LENGTH r) / l)) ->
              window_hit (inject_Z l) n
                (place_labels 1000 [r] (repeat 0 (Z.to_nat n))) index = true).
    { intros index Hi. apply range_In in Hi. unfold window_hit, n.
      rewrite (chunk_start_int l),
              (chunk_end_int l Hl (CLIP_LENGTH r) Hlong index Hi).
      fold n.
      pose proof (window_inside l Hl (CLIP_LENGTH r) Hlong index Hi) as Hw.
      fold n in Hw.
      apply getslice_exists.
      - nia.
      - rewrite place_labels_length, repeat_length. lia.
      - exists (index * l * 1000). split; [nia|].
        rewrite place_labels_zeros_nth. rewrite !Z2Nat.id by nia.
        cbn [covered existsb]. unfold in_label, label_bounds.
        rewrite Hoff, Hdur.
        rewrite (int_round_of_integer (0 * 1000)%Q 0) by reflexivity.
        assert (Hr : n <= Py.int_round ((0 + CLIP_LENGTH r) * 1000)).
        { unfold n. rewrite (arr_len_floor l Hl _ Hlong).
          rewrite <- (int_round_inject (Qfloor (CLIP_LENGTH r * 1000))).
          apply int_round_mono.
          eapply Qle_trans; [apply Qfloor_le|]. lra. }
        rewrite slice_bound_inside by lia.
        unfold Py.slice_bound.
        destruct (Py.int_round ((0 + CLIP_LENGTH r) * 1000) <? 0) eqn:E;
          [lia|].
        rewrite Z.min_r by lia.
        replace (0 <=? index * l * 1000) with true
          by (symmetry; apply Z.leb_le; nia).
        replace (index * l * 1000 <? n) with true
          by (symmetry; apply Z.ltb_lt; nia).
        reflexivity. }
    induction (Py.range (Py.int (CLIP_LENGTH r) / l)) as [|i rest IH];
      [reflexivity|].
    cbn [filter]. rewrite (Hall i (or_introl eq_refl)). f_equal.
    apply IH. intros; apply Hall; now right.
  - apply Qle_bool_false in Hlong.
    pose proof (floor_short_clip l (CLIP_LENGTH r) Hl Hlong) as Hf.
    unfold Py.range. replace (Z.to_nat _) with 0%nat by lia. reflexivity.
Qed.

(** C6, as amended: for a chunk length that is a positive integer [l] (the
    type the chunker documents), the chunker examines on a clip exactly the
    floor(clip_length / l) windows [i*l, (i+1)*l) seconds, i = 0, 1, ...;
    every row it returns is one of these windows of its clip, so it ends
    inside the clip and nothing of a shorter tail is labelled; a clip
    that one label covers from start to end gets a row for each of these
    windows and no other; a clip shorter than [l] has no window and no row;
    and a 10 s clip with chunk length 3 has the windows at 0, 3 and 6 s. *)
Theorem chunker_windows_integer (l : Z) :
  0 < l ->
  (forall clip_len : Q,
      windows_considered clip_len (inject_Z l) =
      Ok (map (fun i => (i * l * 1000, (i + 1) * l * 1000))
              (Py.range (Qfloor (clip_len / inject_Z l))))) /\
  (forall df : DataFrame,
      exists out,
        annotation_chunker df (inject_Z l) = Ok out /\
        forall r, In r out ->
          exists r0 i,
            find (fun x => String.eqb (FILEPATH x) (FILEPATH r)) df = Some r0 /\
            CLIP_LENGTH r = CLIP_LENGTH r0 /\
            0 <= i < Qfloor (CLIP_LENGTH r0 / inject_Z l) /\
            (OFFSET r == inject_Z (i * l))%Q /\
            DURATION r = inject_Z l /\
            (OFFSET r + DURATION r <= CLIP_LENGTH r0)%Q) /\
  (forall r : Annotation,
      OFFSET r = 0%Q -> DURATION r = CLIP_LENGTH r ->
      annotation_chunker [r] (inject_Z l) =
      Ok (map (chunk_row (FOLDER r) (IN_FILE r) (MANUAL_ID r) (CLIP_LENGTH r)
                         (SAMPLE_RATE r) (inject_Z l))
              (Py.range (Qfloor (CLIP_LENGTH r / inject_Z l))))) /\
  (forall (df : DataFrame) (out : DataFrame) (r0 : Annotation) (clip : string),
      annotation_chunker df (inject_Z l) = Ok out ->
      find (fun x => String.eqb (FILEPATH x) clip) df = Some r0 ->
      (CLIP_LENGTH r0 < inject_Z l)%Q ->
      filter (fun r => String.eqb (FILEPATH r) clip) out = []) /\
  (l = 3 ->
   windows_considered 10 (inject_Z l) =
   Ok [(0, 3000); (3000, 6000); (6000, 9000)]).
Proof.
  intros Hl.
  assert (HlQ : (0 < inject_Z l)%Q) by (rewrite <- (Zlt_Qlt 0); assumption).
  assert (Hrows : forall df r, In r (chunks df l) ->
            exists r0 i,
              find (fun x => String.eqb (FILEPATH x) (FILEPATH r)) df = Some r0 /\
              CLIP_LENGTH r = CLIP_LENGTH r0 /\
              0 <= i < Qfloor (CLIP_LENGTH r0 / inject_Z l) /\
              (OFFSET r == inject_Z (i * l))%Q /\
              DURATION r = inject_Z l /\
              (OFFSET r + DURATION r <= CLIP_LENGTH r0)%Q).
  { intros df r Hr.
    assert (Hkey : exists clip, In r (clip_chunks df l clip)).
    { unfold chunks in Hr. apply in_flat_map in Hr.
      destruct Hr as [c [_ Hc]]. now exists c. }
    destruct Hkey as [clip' Hkey]. apply clip_chunks_key in Hkey.
    apply chunks_In in Hr.
    destruct Hr as [clip [r0 [bird [i [Hfind [Hlong [Hi ->]]]]]]].
    assert (Hclip : clip = clip').
    { rewrite <- Hkey. unfold chunk_row, FILEPATH. cbn.
      apply find_some in Hfind. destruct Hfind as [_ Hf].
      apply String.eqb_eq in Hf. now rewrite <- Hf. }
    rewrite <- Hclip in Hkey. clear Hclip clip'. rewrite Hkey.
    exists r0, i. cbn [CLIP_LENGTH OFFSET DURATION chunk_row].
    rewrite <- (count_floor l Hl (CLIP_LENGTH r0) Hlong).
    pose proof (window_inside l Hl (CLIP_LENGTH r0) Hlong i Hi) as Hw.
    rewrite (arr_len_floor l Hl (CLIP_LENGTH r0) Hlong) in Hw.
    repeat split; try assumption; try lia.
    - unfold chunk_start. rewrite !inject_Z_mult. field.
    - unfold chunk_start.
      assert (Hc : (inject_Z ((i + 1) * l * 1000) <= CLIP_LENGTH r0 * 1000)%Q).
      { eapply Qle_trans; [|apply Qfloor_le]. now rewrite <- Zle_Qle. }
      rewrite !inject_Z_mult, inject_Z_plus in Hc.
      change (inject_Z 1000) with 1000%Q in Hc.
      change (inject_Z 1) with 1%Q in Hc.
      setoid_replace (inject_Z i * (inject_Z l * 1000) / 1000 + inject_Z l)%Q
        with ((inject_Z i + 1) * inject_Z l)%Q by field.
      lra. }
  repeat split.
  - intros clip_len. unfold windows_considered.
    destruct (Qle_bool (inject_Z l) clip_len) eqn:Hlong; cbn [negb].
    + apply Qle_bool_iff in Hlong.
      rewrite (int_chunk_length l). unfold Py.floordiv.
      destruct (l =? 0) eqn:E0; [lia|]. cbn [bind].
      rewrite <- (count_floor l Hl clip_len Hlong). f_equal.
      apply map_ext_in. intros i Hi. apply range_In in Hi.
      now rewrite (chunk_start_int l), (chunk_end_int l Hl clip_len Hlong i Hi).
    + apply Qle_bool_false in Hlong.
      pose proof (floor_short_clip l clip_len Hl Hlong) as Hf.
      unfold Py.range. replace (Z.to_nat _) with 0%nat by lia. reflexivity.
  - intros df. exists (chunks df l). split.
    + now apply annotation_chunker_integer.
    + apply Hrows.
  - intros r Hoff Hdur. rewrite (annotation_chunker_integer l Hl).
    f_equal. now apply full_label_chunks.
  - intros df out r0 clip Hout Hfind Hshort.
    rewrite (annotation_chunker_integer l Hl) in Hout. injection Hout as <-.
    destruct (filter _ (chunks df l)) as [|r rest] eqn:E; [reflexivity|].
    exfalso.
    assert (Hr : In r (filter (fun r => String.eqb (FILEPATH r) clip)
                              (chunks df l))) by (rewrite E; now left).
    apply filter_In in Hr. destruct Hr as [Hr Hk].
    apply String.eqb_eq in Hk.
    destruct (Hrows df r Hr) as [r1 [i [Hfind1 [_ [Hi _]]]]].
    rewrite Hk, Hfind in Hfind1. injection Hfind1 as <-.
    pose proof (floor_short_clip l (CLIP_LENGTH r0) Hl Hshort) as Hf.
    lia.
  - intros ->. reflexivity.
Qed.

Lemma chunker_windows_integer_witness :
  0 < 3 /\
  windows_considered (109 # 10) (inject_Z 3) =
  Ok [(0, 3000); (3000, 6000); (6000, 9000)].
Proof.
  split; [lia|].
  exact (proj1 (chunker_windows_integer 3 ltac:(lia)) (109 # 10)).
Defined.

(** C6 as stated fails off the integers: with chunk length 2.5 s a 10.9 s
    clip has floor(10.9 / 2.5) = 4 whole windows, but five are examined, the
    fifth being the 0.9 s tail, which is labelled. *)
Lemma chunker_windows_fractional :
  Qfloor ((109 # 10) / (5 # 2)) = 4 /\
  windows_considered (109 # 10) (5 # 2) =
  Ok [(0, 2500); (2500, 5000); (5000, 7500); (7500, 10000); (10000, 10900)] /\
  exists r,
    annotation_chunker examples.tail_label (5 # 2) = Ok [r] /\
    (OFFSET r == 10)%Q /\ DURATION r = 5 # 2.
Proof.
  split; [reflexivity|]. split; [reflexivity|].
  eexists. split; [vm_compute; reflexivity|]. split; reflexivity.
Qed.

(** C8, as amended: chunking is idempotent for every table and every chunk
    length that is a positive integer: the chunker returns, and applied to
    its own output with the same chunk length it returns the same rows. *)
Theorem chunker_idempotent_integer (S : DataFrame) (L : Z) :
  0 < L ->
  exists out,
    annotation_chunker S (inject_Z L) = Ok out /\
    annotation_chunker out (inject_Z L) = Ok out.
Proof.
  intros HL. exists (chunks S L). split.
  - now apply annotation_chunker_integer.
  - rewrite annotation_chunker_integer by assumption.
    f_equal. now apply chunks_idempotent.
Qed.

Lemma chunker_idempotent_integer_witness :
  0 < 3 /\
  exists out,
    annotation_chunker examples.two_clips (inject_Z 3) = Ok out /\
    annotation_chunker out (inject_Z 3) = Ok out.
Proof.
  split; [lia|]. apply (chunker_idempotent_integer examples.two_clips 3). lia.
Defined.

(** C8 as stated fails off the integers: with chunk length 1.0625 s the
    label at 2.5 s gives one row, for the window that starts at 2.125 s;
    that row ends on the tie 3187.5 ms, which rounds up into the next
    window, so chunking the output gives two rows. *)
Lemma chunker_not_idempotent_fractional :
  exists out out',
    annotation_chunker examples.short_label (17 # 16) = Ok out /\
    annotation_chunker out (17 # 16) = Ok out' /\
    List.length out = 1%nat /\ List.length out' = 2%nat /\ out <> out'.
Proof.
  eexists. eexists. split; [vm_compute; reflexivity|].
  split; [vm_compute; reflexivity|].
  split; [reflexivity|]. split; [reflexivity|]. discriminate.
Qed.

End ChunkerClaims.

(** ** Label arrays as intervals of samples *)

Section Intervals.

Lemma sum_over_ext (l : list nat) (F G : nat -> Z) :
  (forall k, In k l -> F k = G k) -> sum_over l F = sum_over l G.
Proof.
  induction l as [|k l IH]; intros H; simpl; [reflexivity|].
  rewrite (H k (or_introl eq_refl)), IH; [reflexivity|].
  intros; apply H; now right.
Qed.

Lemma sum_over_plus (l : list nat) (F G : nat -> Z) :
  sum_over l (fun k => F k + G k) = sum_over l F + sum_over l G.
Proof. induction l as [|k l IH]; simpl; [reflexivity|]. rewrite IH. lia. Qed.

Lemma sum_over_minus (l : list nat) (F G : nat -> Z) :
  sum_over l (fun k => F k - G k) = sum_over l F - sum_over l G.
Proof. induction l as [|k l IH]; simpl; [reflexivity|]. rewrite IH. lia. Qed.

Lemma sum_inside_seq (lo hi : Z) (s n : nat) :
  sum_over (seq s n) (inside lo hi) =
  span (Z.max lo (Z.of_nat s)) (Z.min hi (Z.of_nat (s + n))).
Proof.
  revert s. induction n as [|n IH]; intros s.
  - simpl. unfold span. lia.
  - cbn [seq sum_over]. rewrite IH. unfold inside, span.
    destruct (lo <=? Z.of_nat s) eqn:E1, (Z.of_nat s <? hi) eqn:E2;
      cbn [andb]; lia.
Qed.

Lemma sum_inside (lo hi : Z) (n : nat) :
  0 <= lo -> hi <= Z.of_nat n ->
  sum_over (seq 0 n) (inside lo hi) = span lo hi.
Proof.
  intros H1 H2. rewrite sum_inside_seq. unfold span. simpl. lia.
Qed.

Lemma dot_maps (l : list nat) (F G : nat -> Z) :
  Np.dot (map F l) (map G l) = sum_over l (fun k => F k * G k).
Proof. induction l as [|k l IH]; simpl; [reflexivity|]. now rewrite IH. Qed.

Lemma sum_logical_or_maps (l : list nat) (F G : nat -> Z) :
  Np.sum_logical_or (map F l) (map G l) =
  sum_over l (fun k => if negb (F k =? 0) || negb (G k =? 0) then 1 else 0).
Proof. induction l as [|k l IH]; simpl; [reflexivity|]. now rewrite IH. Qed.

Lemma inside_meet (a b c d : Z) (k : nat) :
  inside a b k * inside c d k = inside (Z.max a c) (Z.min b d) k.
Proof.
  unfold inside.
  destruct (a <=? Z.of_nat k) eqn:E1, (Z.of_nat k <? b) eqn:E2,
           (c <=? Z.of_nat k) eqn:E3, (Z.of_nat k <? d) eqn:E4,
           (Z.max a c <=? Z.of_nat k) eqn:E5,
           (Z.of_nat k <? Z.min b d) eqn:E6; simpl; lia.
Qed.

Lemma inside_join (a b c d : Z) (k : nat) :
  (if negb (inside a b k =? 0) || negb (inside c d k =? 0) then 1 else 0)
  = inside a b k + inside c d k - inside a b k * inside c d k.
Proof.
  unfold inside.
  destruct ((a <=? Z.of_nat k) && (Z.of_nat k <? b)),
           ((c <=? Z.of_nat k) && (Z.of_nat k <? d)); reflexivity.
Qed.

(** Shared samples and samples of either, for two intervals on a clip of
    [n] samples. *)
Lemma dot_indicator (a b c d : Z) (n : nat) :
  0 <= a -> b <= Z.of_nat n -> 0 <= c -> d <= Z.of_nat n ->
  Np.dot (indicator a b n) (indicator c d n) = span (Z.max a c) (Z.min b d).
Proof.
  intros. unfold indicator.
  rewrite (dot_maps (seq 0 n) (inside a b) (inside c d)).
  rewrite (sum_over_ext _ _ (inside (Z.max a c) (Z.min b d)))
    by (intros; apply inside_meet).
  apply sum_inside; lia.
Qed.

Lemma sum_logical_or_indicator (a b c d : Z) (n : nat) :
  0 <= a -> b <= Z.of_nat n -> 0 <= c -> d <= Z.of_nat n ->
  Np.sum_logical_or (indicator a b n) (indicator c d n) =
  span a b + span c d - span (Z.max a c) (Z.min b d).
Proof.
  intros. unfold indicator.
  rewrite (sum_logical_or_maps (seq 0 n) (inside a b) (inside c d)).
  rewrite (sum_over_ext _ _
             (fun k => inside a b k + inside c d k
                       - inside (Z.max a c) (Z.min b d) k))
    by (intros; rewrite inside_join, inside_meet; reflexivity).
  rewrite sum_over_minus, sum_over_plus, !sum_inside by lia. reflexivity.
Qed.

Lemma setslice_zeros (n : nat) (i j : Z) :
  Np.setslice (repeat 0 n) i j 1 =
  indicator (Py.slice_bound (Z.of_nat n) i) (Py.slice_bound (Z.of_nat n) j) n.
Proof.
  set (lo := Py.slice_bound (Z.of_nat n) i).
  set (hi := Py.slice_bound (Z.of_nat n) j).
  apply (nth_ext _ _ 0 (inside lo hi 0%nat)).
  - unfold indicator.
    now rewrite setslice_length, repeat_length, length_map, length_seq.
  - intros k Hk. rewrite setslice_length, repeat_length in Hk.
    rewrite setslice_nth, repeat_length. unfold indicator.
    rewrite map_nth, seq_nth by assumption. unfold inside. cbn [Nat.add].
    fold lo hi.
    destruct (_ && _); [reflexivity|]. now apply nth_repeat_lt.
Qed.

End Intervals.

(** ** The IoU matrix of a clip *)

Section IoUMatrix.
Import statistics IoU_view.

Lemma nth_map_some {A B} (f : A -> B) (l : list A) (i : nat) (x : A) (d : B) :
  nth_error l i = Some x -> nth i (map f l) d = f x.
Proof.
  revert i. induction l as [|y l IH]; intros [|i]; simpl; try discriminate.
  - now intros [= ->].
  - apply IH.
Qed.

Lemma map_combine_repeat {A B C} (g : A -> B -> C) (z : A) (l : list B) :
  map (fun p => g (fst p) (snd p)) (combine (repeat z (List.length l)) l)
  = map (g z) l.
Proof. induction l as [|x l IH]; simpl; [reflexivity|]. now rewrite IH. Qed.

Variables (sr n : Z).
Hypothesis n_nonneg : 0 <= n.

Lemma label_range (row : Annotation) :
  0 <= label_lo sr n row <= n /\ 0 <= label_hi sr n row <= n.
Proof. split; apply slice_bound_range; assumption. Qed.

Lemma label_row_indicator (row : Annotation) :
  label_row sr n row =
  indicator (label_lo sr n row) (label_hi sr n row) (Z.to_nat n).
Proof.
  unfold label_row, place_label, label_lo, label_hi.
  destruct (label_bounds (inject_Z sr) row) as [minval maxval]. cbn [fst snd].
  rewrite setslice_zeros. now rewrite Z2Nat.id by assumption.
Qed.

Lemma shared_samples (h a : Annotation) :
  Np.dot (label_row sr n h) (label_row sr n a) =
  span (Z.max (label_lo sr n h) (label_lo sr n a))
       (Z.min (label_hi sr n h) (label_hi sr n a)).
Proof.
  rewrite !label_row_indicator.
  pose proof (label_range h). pose proof (label_range a).
  apply dot_indicator; lia.
Qed.

Lemma union_samples (h a : Annotation) :
  Np.sum_logical_or (label_row sr n h) (label_row sr n a) =
  span (label_lo sr n h) (label_hi sr n h)
  + span (label_lo sr n a) (label_hi sr n a)
  - span (Z.max (label_lo sr n h) (label_lo sr n a))
         (Z.min (label_hi sr n h) (label_hi sr n a)).
Proof.
  rewrite !label_row_indicator.
  pose proof (label_range h). pose proof (label_range a).
  apply sum_logical_or_indicator; lia.
Qed.

Lemma shared_le_union (h a : Annotation) :
  0 <= Np.dot (label_row sr n h) (label_row sr n a)
    <= Np.sum_logical_or (label_row sr n h) (label_row sr n a).
Proof. rewrite shared_samples, union_samples. unfold span. lia. Qed.

(** An entry is zero, or the rounded ratio of the two counts. *)
Lemma IoU_entry_ratio (h a : Annotation) :
  let shared := Np.dot (label_row sr n h) (label_row sr n a) in
  let union := Np.sum_logical_or (label_row sr n h) (label_row sr n a) in
  IoU_entry (label_row sr n h) (label_row sr n a) =
  if shared =? 0 then 0%Q
  else Py.round (inject_Z shared / inject_Z union) 4.
Proof.
  intros shared union. unfold IoU_entry. fold shared union.
  destruct (shared =? 0) eqn:E; [reflexivity|].
  pose proof (shared_le_union h a) as Hs. fold shared union in Hs.
  unfold Np.fdiv.
  assert (U : Qeq_bool (inject_Z union) 0 = false).
  { destruct (Qeq_bool (inject_Z union) 0) eqn:EU; [|reflexivity].
    apply Qeq_bool_eq in EU. unfold Qeq in EU. simpl in EU. lia. }
  rewrite U. reflexivity.
Qed.

Lemma IoU_entry_unit (h a : Annotation) :
  (0 <= IoU_entry (label_row sr n h) (label_row sr n a) <= 1)%Q.
Proof.
  rewrite IoU_entry_ratio. cbv zeta.
  pose proof (shared_le_union h a) as Hs.
  set (shared := Np.dot _ _) in *. set (union := Np.sum_logical_or _ _) in *.
  destruct (shared =? 0) eqn:E; [split; discriminate|].
  apply round_unit_interval.
  assert (HU : (0 < inject_Z union)%Q) by (rewrite <- (Zlt_Qlt 0); lia).
  split.
  - apply Qle_shift_div_l; [assumption|].
    rewrite Qmult_0_l. rewrite <- (Zle_Qle 0). lia.
  - apply Qle_shift_div_r; [assumption|].
    rewrite Qmult_1_l. rewrite <- Zle_Qle. lia.
Qed.

(** A label that fills at least one sample has IoU 1 with itself. *)
Lemma IoU_entry_same (h a : Annotation) :
  label_lo sr n h = label_lo sr n a ->
  label_hi sr n h = label_hi sr n a ->
  label_lo sr n h < label_hi sr n h ->
  IoU_entry (label_row sr n h) (label_row sr n a) = 1%Q.
Proof.
  intros Hlo Hhi Hne. rewrite IoU_entry_ratio. cbv zeta.
  rewrite shared_samples, union_samples, <- Hlo, <- Hhi.
  unfold span.
  rewrite !Z.max_id, !Z.min_id.
  set (len := label_hi sr n h - label_lo sr n h).
  replace (Z.max 0 len + Z.max 0 len - Z.max 0 len) with (Z.max 0 len) by lia.
  rewrite Z.max_r by (unfold len; lia).
  destruct (len =? 0) eqn:E; [unfold len in E; lia|].
  unfold Py.round.
  rewrite (int_round_of_integer _ 10000).
  - reflexivity.
  - assert (HL : ~ (inject_Z len == 0)%Q).
    { unfold Qeq. simpl. unfold len. lia. }
    change (inject_Z (10 ^ Z.of_nat 4)) with 10000%Q. field. exact HL.
Qed.

(** Labels without a common sample have IoU 0. *)
Lemma IoU_entry_apart (h a : Annotation) :
  label_hi sr n h <= label_lo sr n a \/ label_hi sr n a <= label_lo sr n h ->
  IoU_entry (label_row sr n h) (label_row sr n a) = 0%Q.
Proof.
  intros H. rewrite IoU_entry_ratio. cbv zeta. rewrite shared_samples.
  unfold span. replace (Z.max 0 _) with 0 by lia. reflexivity.
Qed.

End IoUMatrix.

Section ClipIoU.
Import statistics IoU_view.

Lemma clip_IoU_rows (automated_df manual_df : DataFrame) (r0 : Annotation)
    (rest : DataFrame) :
  automated_df = r0 :: rest ->
  let sr := SAMPLE_RATE r0 in
  let n := Py.int (CLIP_LENGTH r0 * inject_Z sr) in
  0 <= n ->
  clip_IoU automated_df manual_df =
  Ok {| Np.nrows := List.length manual_df;
        Np.ncols := List.length automated_df;
        Np.rows :=
          map (fun h =>
                 map (fun a => IoU_entry (label_row sr n h) (label_row sr n a))
                     automated_df)
              manual_df |}.
Proof.
  intros Ha sr n Hn. subst automated_df. unfold clip_IoU.
  cbn [first_value bind]. fold sr n.
  unfold Np.zeros2, Np.zeros.
  destruct (n <? 0) eqn:E; [lia|]. cbn [bind].
  rewrite !(map_combine_repeat (place_label (inject_Z sr))).
  rewrite map_map. do 2 f_equal.
  apply map_ext. intros h. now rewrite map_map.
Qed.

Lemma clip_IoU_ok (automated_df manual_df : DataFrame) (m : Np.matrix) :
  clip_IoU automated_df manual_df = Ok m ->
  exists r0 rest,
    automated_df = r0 :: rest /\
    0 <= Py.int (CLIP_LENGTH r0 * inject_Z (SAMPLE_RATE r0)).
Proof.
  unfold clip_IoU. destruct automated_df as [|r0 rest]; [discriminate|].
  cbn [first_value bind]. unfold Np.zeros2, Np.zeros.
  destruct (_ <? 0) eqn:E; [discriminate|]. intros _.
  exists r0, rest. split; [reflexivity|lia].
Qed.

End ClipIoU.

(** ** Claims on the IoU matrix *)

Section IoUClaims.
Import statistics IoU_view.

Lemma label_bounds_comp (scale : Q) (h a : Annotation) :
  (OFFSET h == OFFSET a)%Q -> (DURATION h == DURATION a)%Q ->
  label_bounds scale h = label_bounds scale a.
Proof.
  intros Ho Hd. unfold label_bounds. f_equal; apply int_round_comp.
  - now rewrite Ho.
  - now rewrite Ho, Hd.
Qed.

Lemma int_round_nonneg (x : Q) : (0 <= x)%Q -> 0 <= Py.int_round x.
Proof.
  intros H. rewrite <- (int_round_inject 0). now apply int_round_mono.
Qed.

Lemma slice_bound_mono (n x y : Z) :
  0 <= n -> 0 <= x <= y -> Py.slice_bound n x <= Py.slice_bound n y.
Proof.
  intros Hn H. unfold Py.slice_bound.
  destruct (x <? 0) eqn:E1, (y <? 0) eqn:E2; lia.
Qed.

(** A label that ends before another starts fills no sample of it. *)
Lemma labels_apart (sr n : Z) (h a : Annotation) :
  0 <= n -> 0 <= sr ->
  (0 <= OFFSET h)%Q -> (0 <= DURATION h)%Q ->
  (OFFSET h + DURATION h <= OFFSET a)%Q ->
  label_hi sr n h <= label_lo sr n a.
Proof.
  intros Hn Hsr Ho Hd Hsep. unfold label_hi, label_lo, label_bounds.
  cbn [fst snd].
  assert (HsrQ : (0 <= inject_Z sr)%Q) by (rewrite <- (Zle_Qle 0); assumption).
  apply slice_bound_mono; [assumption|]. split.
  - apply int_round_nonneg. apply Qmult_le_0_compat; lra.
  - apply int_round_mono. now apply Qmult_le_compat_r.
Qed.

(** C7, as amended: every entry of the IoU matrix of a clip lies in
    [0,1]; an automated label with the same offset and duration as a human
    label has IoU 1 with it whenever the label fills at least one sample of
    the clip's array (its first sample is below its last, after rounding
    to samples and clamping to the array), the array length and the two
    ends of the label being computed without rounding error; and two
    labels of which one ends before the other starts, their offsets and
    durations being binary64 numbers, have IoU 0. *)
Theorem clip_IoU_entries (automated_df manual_df : DataFrame)
    (r0 : Annotation) (rest : DataFrame) :
  automated_df = r0 :: rest ->
  let sr := SAMPLE_RATE r0 in
  let n := Py.int (CLIP_LENGTH r0 * inject_Z sr) in
  0 <= n ->
  exists m,
    clip_IoU automated_df manual_df = Ok m /\
    Np.nrows m = List.length manual_df /\
    Np.ncols m = List.length automated_df /\
    (forall i j, (0 <= entry m i j <= 1)%Q) /\
    (forall i j h a,
        nth_error manual_df i = Some h ->
        nth_error automated_df j = Some a ->
        (OFFSET h == OFFSET a)%Q -> (DURATION h == DURATION a)%Q ->
        exact_length (inject_Z sr) (CLIP_LENGTH r0) = true ->
        exact_label (inject_Z sr) h = true ->
        label_lo sr n h < label_hi sr n h ->
        entry m i j = 1%Q) /\
    (forall i j h a,
        nth_error manual_df i = Some h ->
        nth_error automated_df j = Some a ->
        0 <= sr ->
        (0 <= OFFSET h)%Q -> (0 <= DURATION h)%Q ->
        (0 <= OFFSET a)%Q -> (0 <= DURATION a)%Q ->
        is_binary64 (OFFSET h) = true -> is_binary64 (DURATION h) = true ->
        is_binary64 (OFFSET a) = true -> is_binary64 (DURATION a) = true ->
        (OFFSET h + DURATION h <= OFFSET a)%Q \/
        (OFFSET a + DURATION a <= OFFSET h)%Q ->
        entry m i j = 0%Q).
Proof.
  intros Ha sr n Hn. eexists. split.
  { apply (clip_IoU_rows automated_df manual_df r0 rest Ha Hn). }
  cbn [Np.nrows Np.ncols Np.rows]. fold sr n.
  split; [reflexivity|]. split; [reflexivity|].
  assert (E : forall i j h a,
             nth_error manual_df i = Some h ->
             nth_error automated_df j = Some a ->
             entry {| Np.nrows := List.length manual_df;
                      Np.ncols := List.length automated_df;
                      Np.rows :=
                        map (fun h => map (fun a =>
                               IoU_entry (label_row sr n h) (label_row sr n a))
                               automated_df) manual_df |} i j
             = IoU_entry (label_row sr n h) (label_row sr n a)).
  { intros i j h a Hh Hj. unfold entry. cbn [Np.rows].
    rewrite (nth_map_some _ _ _ h) by assumption.
    now rewrite (nth_map_some _ _ _ a) by assumption. }
  repeat split.
  - unfold entry. cbn [Np.rows].
    destruct (nth_error manual_df i) as [h|] eqn:Hi.
    + rewrite (nth_map_some _ _ _ h) by assumption.
      destruct (nth_error automated_df j) as [a|] eqn:Hj.
      * rewrite (nth_map_some _ _ _ a) by assumption.
        now apply IoU_entry_unit.
      * rewrite nth_overflow; [discriminate|].
        rewrite length_map. now apply nth_error_None.
    + rewrite (nth_overflow (map _ manual_df)).
      * destruct j; discriminate.
      * rewrite length_map. now apply nth_error_None.
  - unfold entry. cbn [Np.rows].
    destruct (nth_error manual_df i) as [h|] eqn:Hi.
    + rewrite (nth_map_some _ _ _ h) by assumption.
      destruct (nth_error automated_df j) as [a|] eqn:Hj.
      * rewrite (nth_map_some _ _ _ a) by assumption.
        now apply IoU_entry_unit.
      * rewrite nth_overflow; [discriminate|].
        rewrite length_map. now apply nth_error_None.
    + rewrite (nth_overflow (map _ manual_df)).
      * destruct j; discriminate.
      * rewrite length_map. now apply nth_error_None.
  - intros i j h a Hh Hj Ho Hd _ _ Hne. rewrite (E i j h a Hh Hj).
    pose proof (label_bounds_comp (inject_Z sr) h a Ho Hd) as Hb.
    apply IoU_entry_same; try assumption.
    + unfold label_lo. now rewrite Hb.
    + unfold label_hi. now rewrite Hb.
  - intros i j h a Hh Hj Hsr Hoh Hdh Hoa Hda _ _ _ _ Hsep.
    rewrite (E i j h a Hh Hj).
    apply IoU_entry_apart; [assumption|].
    destruct Hsep as [Hsep|Hsep]; [left|right];
      now apply labels_apart.
Qed.

(** On a ten-second clip at 100 Hz, the human label over [0, 1.5] s has
    IoU 1 with the automated label over [0, 1.5] s and IoU 0 with the
    automated label over [1.5, 4] s. *)
Lemma clip_IoU_entries_witness :
  exists m,
    clip_IoU [exact_examples.label_0_15; exact_examples.label_15_4]
             [exact_examples.label_0_15] = Ok m /\
    Np.nrows m = 1%nat /\ Np.ncols m = 2%nat /\
    (forall i j, (0 <= entry m i j <= 1)%Q) /\
    entry m 0 0 = 1%Q /\ entry m 0 1 = 0%Q.
Proof.
  destruct (clip_IoU_entries
              [exact_examples.label_0_15; exact_examples.label_15_4]
              [exact_examples.label_0_15]
              exact_examples.label_0_15 [exact_examples.label_15_4] eq_refl)
    as [m [H1 [H2 [H3 [H4 [H5 H6]]]]]].
  - vm_compute. discriminate.
  - exists m. split; [exact H1|]. split; [exact H2|]. split; [exact H3|].
    split; [exact H4|]. split.
    + apply (H5 0%nat 0%nat exact_examples.label_0_15
                exact_examples.label_0_15); reflexivity.
    + apply (H6 0%nat 1%nat exact_examples.label_0_15
                exact_examples.label_15_4);
        try reflexivity; try (vm_compute; discriminate).
      left. vm_compute. discriminate.
Defined.

(** C7 as stated fails for a label of 10 microseconds at 44.1 kHz: it
    has a positive duration, both its ends round to sample 22050, it fills
    no sample, and it has IoU 0 with itself. *)
Lemma clip_IoU_brief_label :
  (0 < DURATION IoU_examples.brief_label)%Q /\
  clip_IoU [IoU_examples.brief_label] [IoU_examples.brief_label] =
  Ok {| Np.nrows := 1; Np.ncols := 1; Np.rows := [[0%Q]] |}.
Proof. split; [reflexivity|]. vm_compute. reflexivity. Qed.

End IoUClaims.

(** ** The worked example of the matcher *)

Section WorkedExample.
Import statistics IoU_view.

Variable sr : Z.
Hypothesis sr_pos : 0 < sr.

Variables a h1 h2 : Annotation.
Hypothesis clip_a : CLIP_LENGTH a = 10%Q.
Hypothesis rate_a : SAMPLE_RATE a = sr.
Hypothesis label_a : OFFSET a = 0%Q /\ DURATION a = 10%Q.
Hypothesis label_h1 : OFFSET h1 = 0%Q /\ DURATION h1 = 1%Q.
Hypothesis label_h2 : OFFSET h2 = 5%Q /\ DURATION h2 = 1%Q.

Let n := 10 * sr.

Lemma example_samples : Py.int (CLIP_LENGTH a * inject_Z (SAMPLE_RATE a)) = n.
Proof.
  rewrite clip_a, rate_a. apply int_of_integer.
  unfold n. rewrite inject_Z_mult. reflexivity.
Qed.

Lemma example_bounds :
  label_bounds (inject_Z sr) a = (0, 10 * sr) /\
  label_bounds (inject_Z sr) h1 = (0, sr) /\
  label_bounds (inject_Z sr) h2 = (5 * sr, 6 * sr).
Proof.
  destruct label_a as [Oa Da], label_h1 as [O1 D1], label_h2 as [O2 D2].
  unfold label_bounds. rewrite Oa, Da, O1, D1, O2, D2.
  repeat split; f_equal; apply int_round_of_integer;
    rewrite ?inject_Z_mult; ring.
Qed.

Lemma example_entry (h : Annotation) (lo : Z) :
  label_bounds (inject_Z sr) h = (lo * sr, (lo + 1) * sr) ->
  0 <= lo <= 9 ->
  IoU_entry (label_row sr n h) (label_row sr n a) = 1 # 10.
Proof.
  intros Hb Hlo. destruct example_bounds as [Ba _].
  assert (Hn : 0 <= n) by (unfold n; lia).
  rewrite (IoU_entry_ratio sr n Hn). cbv zeta.
  rewrite (shared_samples sr n Hn), (union_samples sr n Hn).
  unfold label_lo, label_hi. rewrite Hb, Ba. cbn [fst snd].
  rewrite !slice_bound_inside by (unfold n; nia).
  unfold span.
  replace (Z.max 0 (Z.min ((lo + 1) * sr) (10 * sr) - Z.max (lo * sr) 0))
    with sr by nia.
  replace (Z.max 0 ((lo + 1) * sr - lo * sr) + Z.max 0 (10 * sr - 0) - sr)
    with (10 * sr) by nia.
  destruct (sr =? 0) eqn:E; [lia|].
  unfold Py.round. rewrite (int_round_of_integer _ 1000).
  - reflexivity.
  - assert (HS : ~ (inject_Z sr == 0)%Q) by (unfold Qeq; simpl; lia).
    rewrite inject_Z_mult.
    change (inject_Z (10 ^ Z.of_nat 4)) with 10000%Q.
    change (inject_Z 10) with 10%Q. change (inject_Z 1000) with 1000%Q.
    field. exact HS.
Qed.

Lemma example_matrix :
  clip_IoU [a] [h1; h2] =
  Ok {| Np.nrows := 2; Np.ncols := 1; Np.rows := [[1 # 10]; [1 # 10]] |}.
Proof.
  assert (Hn : 0 <= n) by (unfold n; lia).
  pose proof (clip_IoU_rows [a] [h1; h2] a [] eq_refl) as H.
  cbv zeta in H. rewrite example_samples, rate_a in H.
  rewrite (H Hn). cbn [map List.length].
  destruct example_bounds as [_ [B1 B2]].
  rewrite (example_entry h1 0), (example_entry h2 5);
    try lia; try reflexivity.
  - rewrite B2. f_equal; lia.
  - rewrite B1. f_equal; lia.
Qed.

End WorkedExample.

Section WorkedExampleClaim.
Import statistics IoU_view.

(** C3, as amended: one clip of 10 s sampled at any positive rate, human
    labels over [0,1] and [5,6] seconds, one automated label over [0,10]
    seconds, threshold 0.5: both entries of the IoU matrix are 0.1 and the
    matcher returns TP = 0, FN = 2 and FP = 1, the one automated label
    having best fit 0.1 below the threshold (precision, recall and F1 are
    0). *)
Theorem matcher_worked_example (sr : Z) (a h1 h2 : Annotation) :
  0 < sr ->
  CLIP_LENGTH a = 10%Q -> SAMPLE_RATE a = sr ->
  OFFSET a = 0%Q /\ DURATION a = 10%Q ->
  OFFSET h1 = 0%Q /\ DURATION h1 = 1%Q ->
  OFFSET h2 = 5%Q /\ DURATION h2 = 1%Q ->
  exists m stats,
    clip_IoU [a] [h1; h2] = Ok m /\
    Np.rows m = [[1 # 10]; [1 # 10]] /\
    matrix_IoU_Scores m [h1; h2] (1 # 2) = Ok stats /\
    TRUE_POSITIVE stats = 0 /\
    FALSE_NEGATIVE stats = 2 /\
    FALSE_POSITIVE stats = 1 /\
    PRECISION stats = 0%Q /\ RECALL stats = 0%Q /\ F1 stats = 0%Q.
Proof.
  intros Hsr Hc Hr Ha H1 H2.
  eexists. eexists. split.
  { apply (example_matrix sr Hsr a h1 h2 Hc Hr Ha H1 H2). }
  split; [reflexivity|].
  split; [reflexivity|].
  repeat split.
Qed.

Lemma matcher_worked_example_witness :
  exists m stats,
    clip_IoU [IoU_examples.automated_0_10]
             [IoU_examples.human_0_1; IoU_examples.human_5_6] = Ok m /\
    Np.rows m = [[1 # 10]; [1 # 10]] /\
    matrix_IoU_Scores m [IoU_examples.human_0_1; IoU_examples.human_5_6]
                      (1 # 2) = Ok stats /\
    TRUE_POSITIVE stats = 0 /\
    FALSE_NEGATIVE stats = 2 /\
    FALSE_POSITIVE stats = 1 /\
    PRECISION stats = 0%Q /\ RECALL stats = 0%Q /\ F1 stats = 0%Q.
Proof.
  apply (matcher_worked_example 100 IoU_examples.automated_0_10
           IoU_examples.human_0_1 IoU_examples.human_5_6);
    try reflexivity; split; reflexivity.
Defined.

(** C3 as stated fails on its last count: on that input the matcher
    returns FP = 1, not 0. *)
Lemma matcher_worked_example_false_positive :
  exists m stats,
    clip_IoU [IoU_examples.automated_0_10]
             [IoU_examples.human_0_1; IoU_examples.human_5_6] = Ok m /\
    matrix_IoU_Scores m [IoU_examples.human_0_1; IoU_examples.human_5_6]
                      (1 # 2) = Ok stats /\
    TRUE_POSITIVE stats = 0 /\ FALSE_NEGATIVE stats = 2 /\
    FALSE_POSITIVE stats = 1 /\ FALSE_POSITIVE stats <> 0.
Proof.
  eexists. eexists. split; [vm_compute; reflexivity|].
  split; [vm_compute; reflexivity|].
  repeat split. discriminate.
Qed.

End WorkedExampleClaim.

(** ** Claims on the best-fit matcher *)

Section Matcher.
Import statistics IoU_view.

Lemma Qmax_cases (x y : Q) : Qmax x y = x \/ Qmax x y = y.
Proof.
  unfold Qmax, GenericMinMax.gmax. destruct (x ?= y)%Q; auto.
Qed.

Lemma qmax_list_greatest (x : Q) (l : list Q) :
  greatest (Np.qmax_list x l) (x :: l).
Proof.
  unfold Np.qmax_list. revert x. induction l as [|y l IH]; intros x.
  - split; [now left|]. intros z [<-|[]]. apply Qle_refl.
  - cbn [fold_left]. destruct (IH (Qmax x y)) as [Hin Hub]. split.
    + destruct Hin as [Hin|Hin]; [|now right; right].
      rewrite <- Hin.
      destruct (Qmax_cases x y) as [E|E]; rewrite E; [now left|now right; left].
    + intros z [<-|[<-|Hz]].
      * eapply Qle_trans; [apply Q.le_max_l|]. apply Hub. now left.
      * eapply Qle_trans; [apply Q.le_max_r|]. apply Hub. now left.
      * apply Hub. now right.
Qed.

Lemma filter_partition_length {A} (p : A -> bool) (l : list A) :
  (List.length (filter p l) + List.length (filter (fun x => negb (p x)) l)
   = List.length l)%nat.
Proof.
  induction l as [|x l IH]; simpl; [reflexivity|].
  destruct (p x); simpl; lia.
Qed.

Variable m : Np.matrix.
Hypothesis shape : well_shaped m.
Hypothesis has_row : (1 <= Np.nrows m)%nat.
Hypothesis has_column : (1 <= Np.ncols m)%nat.

Lemma max_axis1_rows :
  exists best,
    Np.max_axis1 m = Ok best /\
    List.length best = Np.nrows m /\
    forall i, (i < Np.nrows m)%nat ->
      greatest (nth i best 0%Q) (nth i (Np.rows m) []).
Proof using shape has_row has_column.
  unfold Np.max_axis1. destruct shape as [Hr Hc].
  destruct (Nat.eqb_spec (Np.ncols m) 0) as [E|_]; [lia|].
  eexists. split; [reflexivity|]. split; [now rewrite length_map|].
  intros i Hi. rewrite <- Hr in Hi.
  destruct (nth_error (Np.rows m) i) as [r|] eqn:Hn.
  2:{ apply nth_error_None in Hn. lia. }
  rewrite (nth_map_some _ _ _ r) by assumption.
  rewrite (nth_error_nth _ _ _ Hn).
  assert (Hlen : List.length r = Np.ncols m).
  { rewrite Forall_forall in Hc. apply Hc. eapply nth_error_In; eassumption. }
  destruct r as [|x r]; [simpl in Hlen; lia|].
  apply qmax_list_greatest.
Qed.

Lemma max_axis0_columns :
  exists best,
    Np.max_axis0 m = Ok best /\
    List.length best = Np.ncols m /\
    forall j, (j < Np.ncols m)%nat ->
      greatest (nth j best 0%Q) (Np.column m j).
Proof using shape has_row has_column.
  unfold Np.max_axis0. destruct shape as [Hr Hc].
  destruct (Nat.eqb_spec (Np.nrows m) 0) as [E|_]; [lia|].
  eexists. split; [reflexivity|].
  split; [now rewrite length_map, length_seq|].
  intros j Hj.
  rewrite (nth_map_some _ _ _ j).
  2:{ rewrite nth_error_nth' with (d := 0%nat) by (rewrite length_seq; lia).
      now rewrite seq_nth. }
  destruct (Np.column m j) as [|x c] eqn:E.
  - exfalso. apply (f_equal (@List.length Q)) in E. unfold Np.column in E.
    rewrite length_map in E. simpl in E. lia.
  - apply qmax_list_greatest.
Qed.

Lemma matrix_IoU_Scores_ok (manual_df : DataFrame) (threshold : Q) :
  (0 < threshold < 1)%Q -> manual_df <> [] ->
  exists stats best_human_fit best_automated_fit,
    matrix_IoU_Scores m manual_df threshold = Ok stats /\
    Np.max_axis1 m = Ok best_human_fit /\
    Np.max_axis0 m = Ok best_automated_fit /\
    TRUE_POSITIVE stats =
      count_if (fun x => Qle_bool threshold x) best_human_fit /\
    FALSE_NEGATIVE stats =
      count_if (fun x => Qlt_bool x threshold) best_human_fit /\
    FALSE_POSITIVE stats =
      count_if (fun x => Qlt_bool x threshold) best_automated_fit.
Proof using shape has_row has_column.
  intros [Ht0 Ht1] Hne.
  destruct max_axis1_rows as [bh [Hbh _]].
  destruct max_axis0_columns as [ba [Hba _]].
  unfold matrix_IoU_Scores.
  assert (Ha : Qlt_bool 0 threshold && Qlt_bool threshold 1 = true).
  { unfold Qlt_bool. apply andb_true_iff.
    split; apply negb_true_iff, Qle_bool_false; assumption. }
  rewrite Ha. cbn [assert bind].
  destruct manual_df as [|r0 rest]; [congruence|]. cbn [at0 bind].
  rewrite Hbh, Hba. cbn [bind].
  destruct (try_except _ _ _) as [[[recall precision] f1]|e] eqn:Hm.
  - cbn [bind]. do 3 eexists. split; [reflexivity|].
    repeat split.
  - exfalso. revert Hm. unfold try_except, Py.truediv.
    repeat (match goal with
            | |- context [if ?b then _ else _] => destruct b
            end; cbn [bind is_ZeroDivisionError]); discriminate.
Qed.

End Matcher.

Section MatcherClaims.
Import statistics IoU_view.

(** C4, as amended: for every IoU matrix with at least one human row and
    one automated column (and the clip's human rows, of which there is at
    least one), and every threshold in (0,1), the matcher returns;
    best_human_fit[i] is the maximum of row i and best_automated_fit[j] the
    maximum of column j; TP is the number of rows whose maximum is at or
    above the threshold, FN the number of rows whose maximum is below it,
    and FP the number of columns whose maximum is below it. *)
Theorem matcher_counts (m : Np.matrix) (manual_df : DataFrame) (threshold : Q) :
  well_shaped m -> (1 <= Np.nrows m)%nat -> (1 <= Np.ncols m)%nat ->
  manual_df <> [] -> (0 < threshold < 1)%Q ->
  exists stats best_human_fit best_automated_fit,
    matrix_IoU_Scores m manual_df threshold = Ok stats /\
    Np.max_axis1 m = Ok best_human_fit /\
    Np.max_axis0 m = Ok best_automated_fit /\
    List.length best_human_fit = Np.nrows m /\
    List.length best_automated_fit = Np.ncols m /\
    (forall i, (i < Np.nrows m)%nat ->
       greatest (nth i best_human_fit 0%Q) (nth i (Np.rows m) [])) /\
    (forall j, (j < Np.ncols m)%nat ->
       greatest (nth j best_automated_fit 0%Q) (Np.column m j)) /\
    TRUE_POSITIVE stats =
      count_if (fun x => Qle_bool threshold x) best_human_fit /\
    FALSE_NEGATIVE stats =
      count_if (fun x => Qlt_bool x threshold) best_human_fit /\
    FALSE_POSITIVE stats =
      count_if (fun x => Qlt_bool x threshold) best_automated_fit.
Proof.
  intros Hs Hr Hc Hne Ht.
  destruct (matrix_IoU_Scores_ok m Hs Hr Hc manual_df threshold Ht Hne)
    as [stats [bh [ba [H1 [H2 [H3 [H4 [H5 H6]]]]]]]].
  destruct (max_axis1_rows m Hs Hr Hc) as [bh' [Hbh [Lh Gh]]].
  destruct (max_axis0_columns m Hs Hr Hc) as [ba' [Hba [La Ga]]].
  rewrite H2 in Hbh. injection Hbh as <-.
  rewrite H3 in Hba. injection Hba as <-.
  exists stats, bh, ba. repeat split; try assumption.
  - now apply Gh.
  - now apply Gh.
  - now apply Ga.
  - now apply Ga.
Qed.

(** C10: for every IoU matrix with at least one human row and at least one
    automated column (called, as always, with the clip's human rows), and
    every threshold in (0,1), the matcher returns, and its TP and FN counts
    sum to the number of human rows of the matrix: each human label is
    counted once, as a true positive or as a false negative. *)
Theorem matcher_rows_counted_once (m : Np.matrix) (manual_df : DataFrame)
    (threshold : Q) :
  well_shaped m -> (1 <= Np.nrows m)%nat -> (1 <= Np.ncols m)%nat ->
  manual_df <> [] -> (0 < threshold < 1)%Q ->
  exists stats,
    matrix_IoU_Scores m manual_df threshold = Ok stats /\
    TRUE_POSITIVE stats + FALSE_NEGATIVE stats = Z.of_nat (Np.nrows m).
Proof.
  intros Hs Hr Hc Hne Ht.
  destruct (matrix_IoU_Scores_ok m Hs Hr Hc manual_df threshold Ht Hne)
    as [stats [bh [ba [H1 [H2 [_ [H4 [H5 _]]]]]]]].
  destruct (max_axis1_rows m Hs Hr Hc) as [bh' [Hbh [Lh _]]].
  rewrite H2 in Hbh. injection Hbh as <-.
  exists stats. split; [assumption|].
  rewrite H4, H5, <- Lh. unfold count_if, Qlt_bool.
  pose proof (filter_partition_length (fun x => Qle_bool threshold x) bh).
  lia.
Qed.

End MatcherClaims.

Section MatcherExamples.
Import statistics IoU_view.

Lemma matcher_counts_witness :
  exists stats best_human_fit best_automated_fit,
    matrix_IoU_Scores
      {| Np.nrows := 2; Np.ncols := 1; Np.rows := [[1 # 10]; [7 # 10]] |}
      [IoU_examples.human_0_1; IoU_examples.human_5_6] (1 # 2) = Ok stats /\
    best_human_fit = [1 # 10; 7 # 10] /\
    best_automated_fit = [7 # 10] /\
    TRUE_POSITIVE stats = 1 /\ FALSE_NEGATIVE stats = 1 /\
    FALSE_POSITIVE stats = 0.
Proof.
  destruct (matcher_counts
              {| Np.nrows := 2; Np.ncols := 1;
                 Np.rows := [[1 # 10]; [7 # 10]] |}
              [IoU_examples.human_0_1; IoU_examples.human_5_6] (1 # 2))
    as [stats [bh [ba [H1 [H2 [H3 [_ [_ [_ [_ [H4 [H5 H6]]]]]]]]]]]].
  - split; [reflexivity|]. repeat constructor.
  - simpl. lia.
  - simpl. lia.
  - discriminate.
  - split; reflexivity.
  - injection H2 as <-. injection H3 as <-.
    exists stats. do 2 eexists. split; [exact H1|].
    split; [reflexivity|]. split; [reflexivity|].
    rewrite H4, H5, H6. repeat split.
Defined.

Lemma matcher_rows_counted_once_witness :
  exists stats,
    matrix_IoU_Scores
      {| Np.nrows := 2; Np.ncols := 1; Np.rows := [[1 # 10]; [7 # 10]] |}
      [IoU_examples.human_0_1; IoU_examples.human_5_6] (1 # 2) = Ok stats /\
    TRUE_POSITIVE stats + FALSE_NEGATIVE stats = 2.
Proof.
  apply (matcher_rows_counted_once
           {| Np.nrows := 2; Np.ncols := 1;
              Np.rows := [[1 # 10]; [7 # 10]] |}
           [IoU_examples.human_0_1; IoU_examples.human_5_6] (1 # 2)).
  - split; [reflexivity|]. repeat constructor.
  - simpl. lia.
  - simpl. lia.
  - discriminate.
  - split; reflexivity.
Defined.

(** C4 as stated fails on the matrices without a row or without a column.
    A clip with automated labels and no human label has a 0 x 1 IoU matrix,
    on which the matcher raises when it reads the first human row; on a
    matrix without columns the row maxima raise. *)
Lemma matcher_empty_matrix :
  clip_IoU [IoU_examples.automated_0_10] [] =
    Ok {| Np.nrows := 0; Np.ncols := 1; Np.rows := [] |} /\
  matrix_IoU_Scores {| Np.nrows := 0; Np.ncols := 1; Np.rows := [] |} []
                    (1 # 2) = Raise KeyError /\
  matrix_IoU_Scores {| Np.nrows := 1; Np.ncols := 0; Np.rows := [[]] |}
                    [IoU_examples.human_0_1] (1 # 2) = Raise ValueError.
Proof. repeat split. Qed.

End MatcherExamples.

(** ** Claims on the aggregation *)

Section Aggregation.
Import statistics.

Lemma fdiv_fin (a b : Q) :
  ~ (b == 0)%Q -> Np.fdiv (Np.Fin a) (Np.Fin b) = Np.Fin (a / b).
Proof.
  intros H. unfold Np.fdiv.
  destruct (Qeq_bool b 0) eqn:E; [|reflexivity].
  apply Qeq_bool_eq in E. contradiction.
Qed.


Lemma round_comp (x y : Q) (n : nat) :
  (x == y)%Q -> Py.round x n = Py.round y n.
Proof.
  intros E. unfold Py.round. do 3 f_equal.
  apply int_round_comp. now rewrite E.
Qed.






(** A value rounded to [n] digits is within half a unit of the last digit
    of the value. *)
Lemma round_half_unit (x : Q) (n : nat) :
  (x - (1 # 2) / inject_Z (10 ^ Z.of_nat n) <= Py.round x n
   <= x + (1 # 2) / inject_Z (10 ^ Z.of_nat n))%Q.
Proof.
  unfold Py.round. rewrite Qred_correct.
  set (p := (10 ^ Z.of_nat n)%Z).
  assert (Hp : (0 < p)%Z) by (apply Z.pow_pos_nonneg; lia).
  assert (HpQ : (0 < inject_Z p)%Q) by (rewrite <- (Zlt_Qlt 0); assumption).
  destruct (int_round_bounds (x * inject_Z p)) as [Hlo Hhi].
  set (k := inject_Z (Py.int_round (x * inject_Z p))) in *.
  split.
  - apply Qle_shift_div_l; [assumption|].
    setoid_replace ((x - (1 # 2) / inject_Z p) * inject_Z p)%Q
      with (x * inject_Z p - (1 # 2))%Q by (field; lra).
    lra.
  - apply Qle_shift_div_r; [assumption|].
    setoid_replace ((x + (1 # 2) / inject_Z p) * inject_Z p)%Q
      with (x * inject_Z p + (1 # 2))%Q by (field; lra).
    lra.
Qed.

Lemma round_within_4 (x : Q) : within (1 # 10000) (Py.round x 4) x.
Proof.
  pose proof (round_half_unit x 4) as H.
  change (inject_Z (10 ^ Z.of_nat 4)) with (inject_Z 10000) in H.
  unfold within.
  setoid_replace ((1 # 2) / inject_Z 10000)%Q with (1 # 20000)%Q in H
    by reflexivity.
  lra.
Qed.

Lemma round_within_6 (x : Q) : within (1 # 1000000) (Py.round x 6) x.
Proof.
  pose proof (round_half_unit x 6) as H.
  change (inject_Z (10 ^ Z.of_nat 6)) with (inject_Z 1000000) in H.
  unfold within.
  setoid_replace ((1 # 2) / inject_Z 1000000)%Q with (1 # 2000000)%Q in H
    by reflexivity.
  lra.
Qed.

End Aggregation.

Section AggregationClaims.
Import statistics.
Local Open Scope Q_scope.

Lemma filter_map_comm {A B} (f : A -> B) (p : B -> bool) (l : list A) :
  filter p (map f l) = map f (filter (fun x => p (f x)) l).
Proof.
  induction l as [|x l IH]; simpl; [reflexivity|].
  destruct (p (f x)); simpl; now rewrite IH.
Qed.

Lemma count_columns_ok (df : stats_table) :
  df <> [] -> count_columns df = Ok (map counts_of df).
Proof. destruct df; [congruence|reflexivity]. Qed.




End AggregationClaims.

(** ** Claims on the pairing of clips *)

Section Pairing.
Import statistics.
Local Open Scope string_scope.

Lemma split_nonempty (sep : ascii) (s : string) : Py.split sep s <> [].
Proof.
  destruct s as [|c s]; simpl; [discriminate|].
  destruct (Ascii.eqb c sep); [discriminate|].
  destruct (Py.split sep s); discriminate.
Qed.

Lemma split_no_sep (sep : ascii) (s : string) :
  occurs sep s = false -> Py.split sep s = [s].
Proof.
  induction s as [|c s IH]; simpl; [reflexivity|].
  intros H. apply orb_false_iff in H. destruct H as [Hc Hs].
  rewrite Hc, (IH Hs). reflexivity.
Qed.

Lemma split_append (sep : ascii) (a b : string) :
  Py.split sep (a ++ String sep b) = (Py.split sep a ++ Py.split sep b)%list.
Proof.
  induction a as [|c a IH]; simpl.
  - now rewrite Ascii.eqb_refl.
  - destruct (Ascii.eqb c sep); rewrite IH; [reflexivity|].
    pose proof (split_nonempty sep a) as Hne.
    destruct (Py.split sep a); [congruence|reflexivity].
Qed.

Lemma join_split (sep : ascii) (s : string) :
  Py.join (String sep EmptyString) (Py.split sep s) = s.
Proof.
  induction s as [|c s IH]; [reflexivity|].
  pose proof (split_nonempty sep s) as Hne.
  cbn [Py.split]. destruct (Ascii.eqb_spec c sep) as [->|N].
  - destruct (Py.split sep s) as [|p ps] eqn:E; [congruence|].
    cbn [Py.join]. cbn [Py.join] in IH. now rewrite IH.
  - destruct (Py.split sep s) as [|p ps] eqn:E; [congruence|].
    cbn [Py.join] in *. destruct ps; simpl in *; now rewrite IH.
Qed.

(** The stem is the text before the last '.', and is empty when there is
    no '.'. *)
Lemma stem_before_last_dot (name ext : string) :
  occurs "." ext = false -> stem (name ++ "." ++ ext) = name.
Proof.
  intros H. unfold stem, Py.droplast.
  change (name ++ "." ++ ext) with (name ++ String "." ext).
  rewrite split_append, (split_no_sep _ _ H), removelast_last.
  apply join_split.
Qed.

Lemma stem_without_dot (clip : string) :
  occurs "." clip = false -> stem clip = EmptyString.
Proof.
  intros H. unfold stem. now rewrite (split_no_sep _ _ H).
Qed.

Lemma last_dot (s : string) :
  occurs "." s = true ->
  exists name ext, s = name ++ "." ++ ext /\ occurs "." ext = false.
Proof.
  induction s as [|c s IH]; simpl; [discriminate|].
  destruct (occurs "." s) eqn:E.
  - intros _. destruct (IH eq_refl) as [name [ext [-> Hext]]].
    exists (String c name), ext. split; [reflexivity|assumption].
  - rewrite orb_false_r. intros Hc. apply Ascii.eqb_eq in Hc. subst c.
    exists EmptyString, s. split; [reflexivity|assumption].
Qed.

Lemma prefix_empty (s : string) : String.prefix EmptyString s = true.
Proof. destruct s; reflexivity. Qed.

Lemma prefix_append (a b : string) : String.prefix a (a ++ b) = true.
Proof.
  induction a as [|c a IH]; simpl; [apply prefix_empty|].
  destruct (ascii_dec c c); [assumption|congruence].
Qed.

Lemma stem_prefix (clip : string) : String.prefix (stem clip) clip = true.
Proof.
  destruct (occurs "." clip) eqn:E.
  - destruct (last_dot clip E) as [name [ext [-> Hext]]].
    rewrite (stem_before_last_dot name ext Hext). apply prefix_append.
  - rewrite (stem_without_dot clip E). apply prefix_empty.
Qed.

(** C9, what the code does: the manual rows selected for a clip are the
    rows whose file name starts with the clip's stem, the text before the
    clip's last '.'.  A row whose file name equals the clip name, or
    differs from it only in the extension after the last '.', is selected,
    as the claim asks.  But the test is a prefix test, made whether or not
    a row matches the clip name exactly, where the comment on that line of
    the source says to check the name before the extension: a row of
    another file whose name only begins with the clip's stem is selected
    as well, and a clip name without '.' has the empty stem and selects
    every row. *)
Theorem clip_pairing_by_stem_prefix (manual_df : DataFrame) (clip : string) :
  (forall r,
      In r (clip_manual manual_df clip) <->
      In r manual_df /\ String.prefix (stem clip) (IN_FILE r) = true) /\
  (forall name ext,
      occurs "." ext = false -> clip = name ++ "." ++ ext ->
      stem clip = name) /\
  (occurs "." clip = false -> stem clip = EmptyString) /\
  (forall r, In r manual_df -> IN_FILE r = clip ->
             In r (clip_manual manual_df clip)) /\
  (forall r name ext ext',
      In r manual_df -> occurs "." ext = false ->
      clip = name ++ "." ++ ext -> IN_FILE r = name ++ "." ++ ext' ->
      In r (clip_manual manual_df clip)) /\
  (forall r name ext tail,
      In r manual_df -> occurs "." ext = false ->
      clip = name ++ "." ++ ext -> IN_FILE r = name ++ tail ->
      In r (clip_manual manual_df clip)) /\
  (occurs "." clip = false -> clip_manual manual_df clip = manual_df).
Proof.
  split; [|split; [|split; [|split; [|split; [|split]]]]].
  - intros r. unfold clip_manual. now rewrite filter_In.
  - intros name ext Hext ->. now apply stem_before_last_dot.
  - apply stem_without_dot.
  - intros r Hin Hfile. apply filter_In. split; [assumption|].
    rewrite Hfile. apply stem_prefix.
  - intros r name ext ext' Hin Hext -> Hfile. apply filter_In.
    split; [assumption|].
    rewrite Hfile, (stem_before_last_dot name ext Hext). apply prefix_append.
  - intros r name ext tail Hin Hext -> Hfile. apply filter_In.
    split; [assumption|].
    rewrite Hfile, (stem_before_last_dot name ext Hext). apply prefix_append.
  - intros Hdot. unfold clip_manual. rewrite (stem_without_dot _ Hdot).
    induction manual_df as [|r df IH]; [reflexivity|].
    cbn [filter]. rewrite prefix_empty. now rewrite IH.
Qed.

(** The failing input: for the clip a.wav and a manual table with rows of
    a.wav, ab.wav and a.mp3, the rows of all three files are selected,
    the recording ab.wav among them, whose stem is not the clip's. *)
Lemma clip_pairing_by_stem_prefix_witness :
  stem "a.wav" = "a" /\
  stem "ab.wav" <> stem "a.wav" /\
  In (pairing_examples.manual_row "ab.wav")
     (clip_manual pairing_examples.manual_table "a.wav") /\
  In (pairing_examples.manual_row "a.mp3")
     (clip_manual pairing_examples.manual_table "a.wav").
Proof.
  pose proof (clip_pairing_by_stem_prefix pairing_examples.manual_table
                "a.wav") as [_ [H2 [_ [_ [H5 [H6 _]]]]]].
  split; [|split; [|split]].
  - apply (H2 "a" "wav"); reflexivity.
  - discriminate.
  - apply (H6 (pairing_examples.manual_row "ab.wav") "a" "wav" "b.wav");
      try reflexivity.
    simpl. auto.
  - apply (H5 (pairing_examples.manual_row "a.mp3") "a" "wav" "mp3");
      try reflexivity.
    simpl. auto.
Defined.

(** The selection at the failing input against the pairing by stems: the
    code selects three rows where the pairing by stems has the exact match
    only; and the clip name notes, without '.', selects the whole table. *)
Lemma clip_pairing_not_by_stem :
  map IN_FILE (clip_manual pairing_examples.manual_table "a.wav")
    = ["a.wav"; "ab.wav"; "a.mp3"] /\
  map IN_FILE (pairing_spec.paired pairing_examples.manual_table "a.wav")
    = ["a.wav"] /\
  clip_manual pairing_examples.manual_table "a.wav"
    <> pairing_spec.paired pairing_examples.manual_table "a.wav" /\
  stem "ab.wav" <> stem "a.wav" /\
  clip_manual pairing_examples.manual_table "notes"
    = pairing_examples.manual_table.
Proof. repeat split; discriminate. Qed.

End Pairing.

(** ** Claims on the run over the clips *)

Section Run.
Import statistics run_view.

Variables (automated_df manual_df : DataFrame).
Variables (stats_type : string) (threshold : Q).

Lemma append_stats_app (df : stats_table) (row : stats_row) :
  append_stats df row = df ++ [row].
Proof. destruct df; reflexivity. Qed.

(** The table built so far plays no part in whether a clip fails. *)
Lemma clip_stats_from_empty (ca cm : DataFrame) (df : stats_table) :
  clip_stats stats_type threshold ca cm df =
  match clip_stats stats_type threshold ca cm [] with
  | Ok rows => Ok (df ++ rows)
  | Raise e => Raise e
  end.
Proof.
  unfold clip_stats.
  destruct (String.eqb stats_type "general").
  - destruct (clip_general ca cm); cbn [bind]; [|reflexivity].
    now rewrite append_stats_app.
  - destruct (String.eqb stats_type "IoU").
    + destruct (clip_IoU ca cm); cbn [bind]; [|reflexivity].
      destruct (matrix_IoU_Scores _ _ _); cbn [bind]; [|reflexivity].
      now rewrite append_stats_app.
    + now rewrite app_nil_r.
Qed.

(** One turn of the loop never raises: the clip is counted as processed,
    and as an error when its statistics raise. *)
Lemma clip_step_total (clip : string) (s : run_state) :
  exists s',
    clip_step automated_df manual_df stats_type threshold clip s = Ok s' /\
    num_processed s' = num_processed s + 1 /\
    num_errors s' =
      num_errors s +
      (if clip_fails automated_df manual_df stats_type threshold clip
       then 1 else 0) /\
    (clip_fails automated_df manual_df stats_type threshold clip = true ->
     statistics_df s' = statistics_df s).
Proof.
  unfold clip_step, clip_fails. rewrite clip_stats_from_empty.
  destruct (clip_stats stats_type threshold _ _ []) as [rows|e];
    cbn [bind try_except BaseException]; eexists;
    (split; [reflexivity|]); cbn [num_processed num_errors statistics_df];
    repeat split; try lia; discriminate.
Qed.

Lemma run_total (clips : list string) (s : run_state) :
  exists s',
    for_each clips
      (clip_step automated_df manual_df stats_type threshold) s = Ok s' /\
    num_processed s' = num_processed s + Z.of_nat (List.length clips) /\
    num_errors s' =
      num_errors s +
      Z.of_nat (List.length
                  (filter (clip_fails automated_df manual_df stats_type
                                      threshold) clips)).
Proof.
  revert s. induction clips as [|clip clips IH]; intros s.
  - exists s. cbn. repeat split; lia.
  - destruct (clip_step_total clip s) as [s1 [E1 [P1 [N1 _]]]].
    destruct (IH s1) as [s2 [E2 [P2 N2]]].
    exists s2. cbn [for_each]. rewrite E1. cbn [bind].
    split; [assumption|]. rewrite P2, N2, P1, N1. cbn [filter List.length].
    destruct (clip_fails _ _ _ _ clip); cbn [List.length]; split; lia.
Qed.

End Run.

Section RunClaims.
Import statistics run_view.

(** C1, what the code does: a failure in one clip's statistics is caught
    at the clip boundary, the clip is skipped and counted in [num_errors],
    and the loop goes on to the last clip; but once a clip has failed the
    run does not complete: building the end-of-run message adds the integer
    [num_errors] to a string, which raises TypeError, whatever [verbose]
    is.  Without a failed clip the run returns its table and reports
    nothing. *)
Theorem run_aborts_after_failed_clip (automated_df manual_df : DataFrame)
    (stats_type : string) (threshold : Q) (verbose : bool) :
  let clips := Py.unique (map IN_FILE automated_df) in
  let failed :=
    filter (clip_fails automated_df manual_df stats_type threshold) clips in
  In stats_type ["IoU"; "general"]%string ->
  (0 < threshold < 1)%Q ->
  exists s,
    run_clips automated_df manual_df stats_type threshold clips = Ok s /\
    num_processed s = Z.of_nat (List.length clips) /\
    num_errors s = Z.of_nat (List.length failed) /\
    (failed <> [] ->
     automated_labeling_statistics automated_df manual_df stats_type
       threshold verbose = Raise TypeError) /\
    (failed = [] ->
     automated_labeling_statistics automated_df manual_df stats_type
       threshold verbose = Ok (statistics_df s)).
Proof.
  intros clips failed Hst Ht.
  destruct (run_total automated_df manual_df stats_type threshold clips
              (mkState [] 0 0)) as [s [Hrun [Hp He]]].
  cbn [num_processed num_errors] in Hp, He.
  exists s. unfold run_clips. split; [assumption|].
  split; [lia|]. split; [exact He|].
  assert (A1 : existsb (String.eqb stats_type) ["IoU"; "general"]%string
               = true).
  { apply existsb_exists. exists stats_type. split; [assumption|].
    apply String.eqb_refl. }
  assert (A2 : Qlt_bool 0 threshold && Qlt_bool threshold 1 = true).
  { unfold Qlt_bool. apply andb_true_iff.
    split; apply negb_true_iff, Qle_bool_false; apply Ht. }
  unfold automated_labeling_statistics. rewrite A1, A2. cbn [assert bind].
  fold clips. unfold run_clips. rewrite Hrun. cbn [bind]. fold failed in He.
  split; intros Hf.
  - assert (Hpos : (0 <? num_errors s) = true).
    { apply Z.ltb_lt. rewrite He. destruct failed; [congruence|simpl; lia]. }
    rewrite Hpos. reflexivity.
  - rewrite He, Hf. reflexivity.
Qed.

(** The failing run: one automated clip, a.wav, and a manual table that
    has rows for another file only.  The statistics of the clip raise, the
    error is counted, and the run ends in TypeError. *)
Lemma run_aborts_after_failed_clip_witness :
  exists s,
    run_clips [IoU_examples.automated_0_10]
              [pairing_examples.manual_row "z.wav"] "IoU" (1 # 2)
              ["a.wav"%string]
    = Ok s /\
    num_processed s = 1 /\ num_errors s = 1 /\
    automated_labeling_statistics [IoU_examples.automated_0_10]
      [pairing_examples.manual_row "z.wav"] "IoU" (1 # 2) true
    = Raise TypeError.
Proof.
  destruct (run_aborts_after_failed_clip [IoU_examples.automated_0_10]
              [pairing_examples.manual_row "z.wav"]
              "IoU" (1 # 2) true) as [s [H1 [H2 [H3 [H4 _]]]]].
  - simpl. auto.
  - split; reflexivity.
  - exists s. split; [exact H1|]. split; [exact H2|]. split; [exact H3|].
    apply H4. vm_compute. discriminate.
Defined.

End RunClaims.

(** ** Claims on the ROC alignment *)

Section RocAlignment.
Import annotation_post_processing.

Lemma for_each_break_app {X S} (body : X -> S -> result (flow S))
    (pre : list X) (x : X) (post : list X) (s0 s : S) :
  for_each_break pre body s0 = Ok (Continue s) ->
  for_each_break (pre ++ x :: post) body s0 =
  (f <- body x s ;;
   match f with
   | Continue s' => for_each_break post body s'
   | Break s' => Ok (Break s')
   end).
Proof.
  revert s0. induction pre as [|y pre IH]; intros s0; cbn [for_each_break app].
  - now intros [= ->].
  - destruct (body y s0) as [[s1|s1]|e]; cbn [bind]; try discriminate.
    apply IH.
Qed.

(** The target path records, for every clip in turn, the count
    floor(duration / chunk_size). *)
Lemma target_counts (df : DataFrame) (chunk_size : Q) (items : list item)
    (t0 : list Z) (c0 : list chunk_size_entry) (t : list Z)
    (c : list chunk_size_entry) :
  for_each items (target_step df chunk_size) (t0, c0) = Ok (t, c) ->
  exists c',
    c = c0 ++ c' /\
    Forall2 (fun it entry =>
               exists duration,
                 iloc0 CLIP_LENGTH (clip_rows df it) = Ok duration /\
                 Np.floor (Np.fdiv (Np.Fin duration) (Np.Fin chunk_size))
                 = Ok (fst (fst entry)))
            items c'.
Proof.
  revert t0 c0 t c. induction items as [|it items IH]; intros t0 c0 t c;
    cbn [for_each].
  - intros [= <- <-]. exists []. split; [now rewrite app_nil_r|constructor].
  - unfold target_step at 1.
    destruct (iloc0 CLIP_LENGTH (clip_rows df it)) as [duration|e] eqn:Hd;
      cbn [bind]; [|discriminate].
    destruct (Np.floor _) as [n|e] eqn:Hn; cbn [bind]; [|discriminate].
    destruct (convert_label_to_local_score _ _) as [tc|e]; cbn [bind];
      [|discriminate].
    intros H. destruct (IH _ _ _ _ H) as [c' [Hc HF]].
    exists ((n, duration, snd it) :: c'). split.
    + rewrite Hc, <- app_assoc. reflexivity.
    + constructor; [|assumption].
      exists duration. split; [exact Hd|exact Hn].
Qed.

Lemma range_length (n : Z) : List.length (Py.range n) = Z.to_nat n.
Proof. unfold Py.range. now rewrite length_map, length_seq. Qed.

(** [range(0, n * c, c)] has [n] elements for every step [c] but 0. *)
Lemma range_step_length (n c : Z) (indexes : list Z) :
  Py.range_step (n * c) c = Ok indexes ->
  List.length indexes = Z.to_nat n.
Proof.
  unfold Py.range_step. destruct (c =? 0) eqn:E0; [discriminate|].
  apply Z.eqb_neq in E0. intros [= <-].
  rewrite length_map, range_length. f_equal.
  destruct (0 <? c) eqn:Ec.
  - apply Z.ltb_lt in Ec.
    replace (n * c + c - 1) with (n * c + (c - 1)) by lia.
    rewrite Z.div_add_l by lia. rewrite Z.div_small by lia. lia.
  - apply Z.ltb_ge in Ec.
    replace (- (n * c) - c - 1) with (n * (- c) + (- c - 1)) by lia.
    rewrite Z.div_add_l by lia. rewrite Z.div_small by lia. lia.
Qed.

Lemma convert_length (manual_df : DataFrame) (size : Z) (l : list Z) :
  convert_label_to_local_score manual_df size = Ok l ->
  List.length l = Z.to_nat size.
Proof.
  unfold convert_label_to_local_score.
  destruct (iloc0 CLIP_LENGTH manual_df); cbn [bind]; [|discriminate].
  destruct (Np.zeros size); cbn [bind]; [|discriminate].
  intros [= <-]. now rewrite length_map, range_length.
Qed.

Lemma target_length (df : DataFrame) (chunk_size : Q) (items : list item)
    (t0 : list Z) (c0 : list chunk_size_entry) (t : list Z)
    (c : list chunk_size_entry) :
  for_each items (target_step df chunk_size) (t0, c0) = Ok (t, c) ->
  exists c',
    c = c0 ++ c' /\
    List.length t = (List.length t0 + roc_view.recorded_chunks c')%nat.
Proof.
  revert t0 c0 t c. induction items as [|it items IH]; intros t0 c0 t c;
    cbn [for_each].
  - intros [= <- <-]. exists []. split; [now rewrite app_nil_r|simpl; lia].
  - unfold target_step at 1.
    destruct (iloc0 CLIP_LENGTH (clip_rows df it)) as [duration|e];
      cbn [bind]; [|discriminate].
    destruct (Np.floor _) as [n|e]; cbn [bind]; [|discriminate].
    destruct (convert_label_to_local_score _ _) as [tc|e] eqn:Hc;
      cbn [bind]; [|discriminate].
    intros H. destruct (IH _ _ _ _ H) as [c' [Hcc Hlen]].
    exists ((n, duration, snd it) :: c'). split.
    + rewrite Hcc, <- app_assoc. reflexivity.
    + rewrite Hlen, length_app, (convert_length _ _ _ Hc). simpl. lia.
Qed.

Lemma chunk_scores_length (clip_df : DataFrame) (scores : list Q)
    (chunk_length : Z) (indexes : list Z) (s s' : confidence_state) :
  for_each indexes (chunk_score_step clip_df scores chunk_length) s = Ok s' ->
  List.length (array_of_max_scores s')
    = (List.length (array_of_max_scores s) + List.length indexes)%nat /\
  k s' = k s.
Proof.
  revert s. induction indexes as [|index indexes IH]; intros s;
    cbn [for_each].
  - intros [= <-]. split; [simpl; lia|reflexivity].
  - unfold chunk_score_step at 1.
    destruct (iloc0 CLIP_LENGTH clip_df); cbn [bind]; [|discriminate].
    destruct (Np.floor _); cbn [bind]; [|discriminate].
    destruct (Np.floor _); cbn [bind]; [|discriminate].
    destruct (for_each _ _ _); cbn [bind]; [|discriminate].
    intros H. destruct (IH _ H) as [Hlen Hk].
    cbn [array_of_max_scores k] in Hlen, Hk.
    rewrite length_app in Hlen. simpl in *. split; [lia|assumption].
Qed.

Lemma getitem_middle {A} (pre : list A) (x : A) (post : list A) :
  Py.getitem (pre ++ x :: post) (Z.of_nat (List.length pre)) = Ok x.
Proof.
  unfold Py.getitem. rewrite length_app. cbn [List.length].
  set (n := List.length pre). set (m := List.length post).
  assert (E1 : (Z.of_nat n <? 0) = false) by (apply Z.ltb_ge; lia).
  rewrite E1.
  assert (E2 : (Z.of_nat n <? 0) || (Z.of_nat (n + S m) <=? Z.of_nat n)
               = false).
  { rewrite E1. apply Z.leb_gt. lia. }
  rewrite E2, Nat2Z.id. unfold n.
  rewrite nth_error_app2 by lia. now rewrite Nat.sub_diag.
Qed.

(** While the counts agree the loop over the clips runs to its end and
    adds one score for every recorded chunk. *)
Lemma confidence_loop_agreeing (ls : list (string * list Q)) (df : DataFrame)
    (items : list item) (c0 c' : list chunk_size_entry)
    (s : confidence_state) (f : flow confidence_state) :
  Forall2 (fun it entry =>
             exists duration,
               iloc0 CLIP_LENGTH (clip_rows df it) = Ok duration /\
               Np.floor (Np.fdiv (Np.Fin duration) (Np.Fin 3))
               = Ok (fst (fst entry)))
          items c' ->
  k s = Z.of_nat (List.length c0) ->
  confidence_loop ls df (c0 ++ c') items s = Ok f ->
  exists s',
    f = Continue s' /\
    List.length (array_of_max_scores s')
      = (List.length (array_of_max_scores s) + roc_view.recorded_chunks c')%nat.
Proof.
  intros HF. revert c0 s. induction HF as [|it entry items c' Hit HF IH];
    intros c0 s Hk; unfold confidence_loop; cbn [for_each_break].
  - intros [= <-]. exists s. split; [reflexivity|simpl; lia].
  - destruct Hit as [duration [Hd Hn]].
    unfold confidence_step at 1.
    destruct (lookup ls (snd it)) as [scores|e]; cbn [bind]; [|discriminate].
    rewrite Hd. cbn [bind]. rewrite Hn. cbn [bind].
    rewrite Hk, getitem_middle. cbn [bind].
    rewrite Z.eqb_refl. cbn [negb].
    destruct (iloc0 DURATION (clip_rows df it)) as [d|e]; cbn [bind];
      [|discriminate].
    destruct (Py.range_step _ _) as [indexes|e] eqn:Hr; cbn [bind];
      [|discriminate].
    destruct (for_each indexes _ _) as [s1|e] eqn:Hs; cbn [bind];
      [|discriminate].
    destruct (chunk_scores_length _ _ _ _ _ _ Hs) as [Hlen Hk1].
    cbn [array_of_max_scores k] in Hlen, Hk1.
    intros H.
    replace (c0 ++ entry :: c') with ((c0 ++ [entry]) ++ c') in H
      by now rewrite <- app_assoc.
    destruct (IH (c0 ++ [entry]) s1) as [s' [-> Hlen']].
    + rewrite Hk1, length_app. simpl. lia.
    + exact H.
    + exists s'. split; [reflexivity|].
      rewrite Hlen', Hlen, (range_step_length _ _ _ Hr). simpl. lia.
Qed.


(** A mismatch at a clip: the diagnostic is built, reading the list at the
    index of the chunk scored last, and the loop stops. *)
Lemma mismatch_stops (ls : list (string * list Q)) (df : DataFrame)
    (entries : list chunk_size_entry) (pre post : list item) (it : item)
    (s : confidence_state) (scores : list Q) (duration : Q)
    (num_chunks : Z) (target : chunk_size_entry) :
  np_unique_index df = pre ++ it :: post ->
  confidence_loop ls df entries pre (mkConfidence [] 0 None)
    = Ok (Continue s) ->
  lookup ls (snd it) = Ok scores ->
  iloc0 CLIP_LENGTH (clip_rows df it) = Ok duration ->
  Np.floor (Np.fdiv (Np.Fin duration) (Np.Fin 3)) = Ok num_chunks ->
  Py.getitem entries (k s) = Ok target ->
  num_chunks <> fst (fst target) ->
  get_confidence_array ls df entries =
  match i s with
  | None => Raise UnboundLocalError
  | Some index =>
      match Py.getitem entries index with
      | Ok _ => Ok (array_of_max_scores s)
      | Raise e => Raise e
      end
  end.
Proof.
  intros Hitems Hpre Hscores Hduration Hcount Htarget Hdiff.
  unfold get_confidence_array, confidence_loop. rewrite Hitems.
  unfold confidence_loop in Hpre.
  rewrite (for_each_break_app _ pre it post _ s Hpre).
  unfold confidence_step at 1.
  rewrite Hscores, Hduration. cbn [bind]. rewrite Hcount. cbn [bind].
  rewrite Htarget. cbn [bind].
  assert (E : (num_chunks =? fst (fst target)) = false)
    by now apply Z.eqb_neq.
  rewrite E. cbn [negb]. unfold report_mismatch.
  rewrite Htarget. cbn [bind].
  destruct (i s) as [index|]; cbn [bind]; [|reflexivity].
  destruct (Py.getitem entries index); reflexivity.
Qed.

End RocAlignment.

Section RocClaims.
Import annotation_post_processing.

(** C2, as amended: the confidence path compares its chunk count for each
    clip with the count the target path recorded for it.  When the target
    path chunked by 3 s the two counts agree for every clip, and the
    confidence array that comes back has one score for every chunk, as many
    entries as the target array.  Where the counts differ at a clip and the
    diagnostic can be printed (a chunk has been scored before, and the
    index of the chunk scored last is a position of the recorded list), no
    alignment error is raised: the loop over the clips stops at that clip,
    and the call returns the scores of the clips before it only, a
    shortened array. *)
Theorem confidence_mismatch_truncates
    (local_scores_array : list (string * list Q)) (chunked_df : DataFrame)
    (chunk_size_list : list chunk_size_entry) :
  (forall target_array,
      get_target_annotations chunked_df 3
        = Ok (target_array, chunk_size_list) ->
      Forall2 (fun it entry =>
                 exists duration,
                   iloc0 CLIP_LENGTH (clip_rows chunked_df it) = Ok duration /\
                   Np.floor (Np.fdiv (Np.Fin duration) (Np.Fin 3))
                   = Ok (fst (fst entry)))
              (np_unique_index chunked_df) chunk_size_list) /\
  (forall target_array confidence_scores_array,
      roc_arrays local_scores_array chunked_df 3
        = Ok (target_array, confidence_scores_array) ->
      List.length confidence_scores_array = List.length target_array) /\
  (forall (pre post : list item) (it : item) (s : confidence_state)
          (scores : list Q) (duration : Q) (num_chunks : Z)
          (target : chunk_size_entry) (index : Z)
          (entry : chunk_size_entry),
      np_unique_index chunked_df = pre ++ it :: post ->
      confidence_loop local_scores_array chunked_df chunk_size_list pre
        (mkConfidence [] 0 None) = Ok (Continue s) ->
      lookup local_scores_array (snd it) = Ok scores ->
      iloc0 CLIP_LENGTH (clip_rows chunked_df it) = Ok duration ->
      Np.floor (Np.fdiv (Np.Fin duration) (Np.Fin 3)) = Ok num_chunks ->
      Py.getitem chunk_size_list (k s) = Ok target ->
      num_chunks <> fst (fst target) ->
      i s = Some index ->
      Py.getitem chunk_size_list index = Ok entry ->
      get_confidence_array local_scores_array chunked_df chunk_size_list
      = Ok (array_of_max_scores s)).
Proof.
  split; [|split].
  - intros target_array H. unfold get_target_annotations in H.
    destruct (target_counts _ _ _ _ _ _ _ H) as [c' [-> HF]]. exact HF.
  - intros target_array conf. unfold roc_arrays.
    destruct (get_target_annotations chunked_df 3) as [[t c]|e] eqn:Ht;
      cbn [bind]; [|discriminate].
    unfold get_target_annotations in Ht.
    destruct (target_counts _ _ _ _ _ _ _ Ht) as [c' [Hc HF]].
    destruct (target_length _ _ _ _ _ _ _ Ht) as [c'' [Hc2 Hlen]].
    cbn [app] in Hc, Hc2. subst c' c''.
    unfold get_confidence_array.
    destruct (confidence_loop _ _ _ _ _) as [f|e] eqn:Hloop; cbn [bind];
      [|discriminate].
    destruct (confidence_loop_agreeing local_scores_array chunked_df
                (np_unique_index chunked_df) [] c
                (mkConfidence [] 0 None) f HF eq_refl Hloop)
      as [s' [-> Hlen']].
    intros [= <- <-]. rewrite Hlen', Hlen. reflexivity.
  - intros pre post it s scores duration num_chunks target index entry
           Hitems Hpre Hscores Hduration Hcount Htarget Hdiff Hi Hentry.
    rewrite (mismatch_stops local_scores_array chunked_df chunk_size_list
               pre post it s scores duration num_chunks target
               Hitems Hpre Hscores Hduration Hcount Htarget Hdiff).
    now rewrite Hi, Hentry.
Qed.

(** With chunk length 2 s the 3 s clip agrees by chance (one chunk either
    way) and the 10 s clip does not (five chunks against three): the call
    returns one score where the target array has six entries.  With chunk
    length 3 s both arrays have four entries. *)
Lemma confidence_mismatch_truncates_witness :
  get_confidence_array roc_examples.score_curves roc_examples.chunked_2s
    [(1, 3%Q, "a.wav"%string); (5, 10%Q, "b.wav"%string)]
  = Ok [9 # 10] /\
  exists target_array confidence_scores_array,
    roc_arrays roc_examples.score_curves roc_examples.chunked_3s 3
      = Ok (target_array, confidence_scores_array) /\
    List.length target_array = 4%nat /\
    List.length confidence_scores_array = List.length target_array.
Proof.
  split.
  - apply (proj2 (proj2 (confidence_mismatch_truncates
                           roc_examples.score_curves roc_examples.chunked_2s
                           [(1, 3%Q, "a.wav"%string);
                            (5, 10%Q, "b.wav"%string)]))
             [("d/", "a.wav")]%string []
             ("d/", "b.wav")%string
             (mkConfidence [9 # 10] 1 (Some 0))
             [1 # 10; 2 # 10; 3 # 10; 4 # 10; 5 # 10;
              6 # 10; 7 # 10; 8 # 10; 9 # 10; 1 # 10]
             10%Q 3 (5, 10%Q, "b.wav"%string) 0
             (1, 3%Q, "a.wav"%string));
      try reflexivity. discriminate.
  - eexists. eexists. split; [vm_compute; reflexivity|].
    split; [reflexivity|].
    apply (proj1 (proj2 (confidence_mismatch_truncates
                           roc_examples.score_curves roc_examples.chunked_3s
                           []))).
    vm_compute. reflexivity.
Defined.

(** C2 as stated fails: on a chunked table with chunk length 2 s the two
    paths derive different counts for the 10 s clip (five and three), no
    error is raised, and the confidence array that comes back has one
    entry while the target array has six. *)
Lemma roc_arrays_silently_truncated :
  exists target_array confidence_scores_array,
    roc_arrays roc_examples.score_curves roc_examples.chunked_2s 2
      = Ok (target_array, confidence_scores_array) /\
    List.length target_array = 6%nat /\
    List.length confidence_scores_array = 1%nat.
Proof.
  eexists. eexists. split; [vm_compute; reflexivity|]. split; reflexivity.
Qed.

End RocClaims.

(** * Further properties of the code *)

(** ** The IoU matrix: roles and closed form *)

Section IoUSymmetry.
Import statistics IoU_view.

Lemma dot_comm (u v : list Z) : Np.dot u v = Np.dot v u.
Proof.
  revert v. induction u as [|x u IH]; intros [|y v]; simpl; try reflexivity.
  rewrite IH. lia.
Qed.

Lemma sum_logical_or_comm (u v : list Z) :
  Np.sum_logical_or u v = Np.sum_logical_or v u.
Proof.
  revert v. induction u as [|x u IH]; intros [|y v]; simpl; try reflexivity.
  rewrite IH, orb_comm. reflexivity.
Qed.

Lemma IoU_entry_comm (u v : list Z) : IoU_entry u v = IoU_entry v u.
Proof.
  unfold IoU_entry. now rewrite dot_comm, sum_logical_or_comm.
Qed.

Lemma entry_of_rows {A B} (f : A -> B -> Q) (hs : list A) (bs : list B)
    (r c : nat) (i j : nat) :
  entry {| Np.nrows := r; Np.ncols := c;
           Np.rows := map (fun h => map (fun b => f h b) bs) hs |} i j
  = match nth_error hs i, nth_error bs j with
    | Some h, Some b => f h b
    | _, _ => 0%Q
    end.
Proof.
  unfold entry. cbn [Np.rows].
  destruct (nth_error hs i) as [h|] eqn:Hi.
  - rewrite (nth_map_some _ _ _ h) by assumption.
    destruct (nth_error bs j) as [b|] eqn:Hj.
    + now rewrite (nth_map_some _ _ _ b).
    + apply nth_overflow. rewrite length_map. now apply nth_error_None.
  - rewrite (nth_overflow (map _ hs)).
    + now destruct j.
    + rewrite length_map. now apply nth_error_None.
Qed.

(** X1: swapping the roles of the two tables of a clip transposes the IoU
    matrix. *)
Theorem clip_IoU_transpose (automated_df manual_df : DataFrame)
    (ra rm : Annotation) (rest_a rest_m : DataFrame) :
  automated_df = ra :: rest_a -> manual_df = rm :: rest_m ->
  CLIP_LENGTH ra = CLIP_LENGTH rm -> SAMPLE_RATE ra = SAMPLE_RATE rm ->
  0 <= Py.int (CLIP_LENGTH ra * inject_Z (SAMPLE_RATE ra)) ->
  exists m m',
    clip_IoU automated_df manual_df = Ok m /\
    clip_IoU manual_df automated_df = Ok m' /\
    Np.nrows m = Np.ncols m' /\ Np.ncols m = Np.nrows m' /\
    forall i j, entry m i j = entry m' j i.
Proof.
  intros Ha Hm Hc Hs Hn.
  pose proof (clip_IoU_rows automated_df manual_df ra rest_a Ha Hn) as E1.
  assert (Hn' : 0 <= Py.int (CLIP_LENGTH rm * inject_Z (SAMPLE_RATE rm)))
    by now rewrite <- Hc, <- Hs.
  pose proof (clip_IoU_rows manual_df automated_df rm rest_m Hm Hn') as E2.
  cbv zeta in E1, E2. rewrite <- Hc, <- Hs in E2.
  eexists. eexists. split; [exact E1|]. split; [exact E2|].
  cbn [Np.nrows Np.ncols]. split; [reflexivity|]. split; [reflexivity|].
  intros i j. rewrite !entry_of_rows.
  destruct (nth_error manual_df i), (nth_error automated_df j);
    try reflexivity.
  apply IoU_entry_comm.
Qed.

Lemma clip_IoU_transpose_witness :
  exists m m',
    clip_IoU [IoU_examples.automated_0_10]
             [IoU_examples.human_0_1; IoU_examples.human_5_6] = Ok m /\
    clip_IoU [IoU_examples.human_0_1; IoU_examples.human_5_6]
             [IoU_examples.automated_0_10] = Ok m' /\
    entry m 1 0 = entry m' 0 1.
Proof.
  destruct (clip_IoU_transpose [IoU_examples.automated_0_10]
              [IoU_examples.human_0_1; IoU_examples.human_5_6]
              IoU_examples.automated_0_10 IoU_examples.human_0_1
              [] [IoU_examples.human_5_6] eq_refl eq_refl eq_refl eq_refl)
    as [m [m' [H1 [H2 [_ [_ H3]]]]]].
  - vm_compute. discriminate.
  - exists m, m'. split; [exact H1|]. split; [exact H2|]. apply H3.
Defined.

(** X2: an entry of the IoU matrix is the Jaccard index of the two labels
    as intervals of samples, where the array length and the ends of the
    two labels are computed without rounding error: it is 0 when no sample
    is shared, and otherwise lies within one unit of the fourth digit of
    the number of shared samples over the number of samples of either. *)
Theorem clip_IoU_jaccard (automated_df manual_df : DataFrame)
    (r0 : Annotation) (rest : DataFrame) :
  automated_df = r0 :: rest ->
  let sr := SAMPLE_RATE r0 in
  let n := Py.int (CLIP_LENGTH r0 * inject_Z sr) in
  0 <= n ->
  exists m,
    clip_IoU automated_df manual_df = Ok m /\
    forall i j h a,
      nth_error manual_df i = Some h ->
      nth_error automated_df j = Some a ->
      exact_length (inject_Z sr) (CLIP_LENGTH r0) = true ->
      exact_label (inject_Z sr) h = true ->
      exact_label (inject_Z sr) a = true ->
      let shared := span (Z.max (label_lo sr n h) (label_lo sr n a))
                         (Z.min (label_hi sr n h) (label_hi sr n a)) in
      let either := span (label_lo sr n h) (label_hi sr n h)
                    + span (label_lo sr n a) (label_hi sr n a) - shared in
      (shared = 0 -> entry m i j = 0%Q) /\
      (shared <> 0 ->
       within (1 # 10000) (entry m i j) (inject_Z shared / inject_Z either)).
Proof.
  intros Ha sr n Hn. eexists. split.
  { apply (clip_IoU_rows automated_df manual_df r0 rest Ha Hn). }
  intros i j h a Hh Hj _ _ _ shared either. fold sr n.
  rewrite entry_of_rows, Hh, Hj.
  rewrite (IoU_entry_ratio sr n Hn). cbv zeta.
  rewrite (shared_samples sr n Hn), (union_samples sr n Hn).
  fold shared. fold either. split.
  - intros ->. reflexivity.
  - intros Hs. apply Z.eqb_neq in Hs. rewrite Hs. apply round_within_4.
Qed.

(** Human label over [0,4] s and automated label over [2,10] s at 100 Hz:
    200 shared samples out of 1000. *)
Lemma clip_IoU_jaccard_witness :
  exists m,
    clip_IoU [mkAnnotation "d/" "a.wav" 10 0 2 8 100 "bird"]
             [mkAnnotation "d/" "a.wav" 10 0 0 4 100 "bird"] = Ok m /\
    within (1 # 10000) (entry m 0 0) (1 # 5).
Proof.
  destruct (clip_IoU_jaccard
              [mkAnnotation "d/" "a.wav" 10 0 2 8 100 "bird"]
              [mkAnnotation "d/" "a.wav" 10 0 0 4 100 "bird"]
              (mkAnnotation "d/" "a.wav" 10 0 2 8 100 "bird") [] eq_refl)
    as [m [H1 H2]].
  - vm_compute. discriminate.
  - exists m. split; [exact H1|].
    destruct (H2 0%nat 0%nat _ _ eq_refl eq_refl eq_refl eq_refl eq_refl)
      as [_ Hw].
    unfold within in *.
    setoid_replace (1 # 5)%Q with (inject_Z 200 / inject_Z 1000)%Q
      by reflexivity.
    apply Hw. vm_compute. discriminate.
Defined.

End IoUSymmetry.

(** ** The matcher: thresholds and metrics *)

Section MatcherMore.
Import statistics IoU_view.
Local Open Scope Q_scope.

Lemma filter_length_le {A} (p q : A -> bool) (l : list A) :
  (forall x, p x = true -> q x = true) ->
  (List.length (filter p l) <= List.length (filter q l))%nat.
Proof.
  intros H. induction l as [|x l IH]; simpl; [lia|].
  destruct (p x) eqn:Ep.
  - rewrite (H x Ep). simpl. lia.
  - destruct (q x); simpl; lia.
Qed.

Lemma filter_length_bound {A} (p : A -> bool) (l : list A) :
  (List.length (filter p l) <= List.length l)%nat.
Proof.
  induction l as [|x l IH]; simpl; [lia|]. destruct (p x); simpl; lia.
Qed.

Lemma Qlt_bool_iff (x y : Q) : Qlt_bool x y = true <-> x < y.
Proof.
  unfold Qlt_bool. rewrite negb_true_iff. apply Qle_bool_false.
Qed.

(** X3: raising the threshold never adds a true positive and never removes
    a false negative or a false positive. *)
Theorem matcher_threshold_monotone (m : Np.matrix) (manual_df : DataFrame)
    (t t' : Q) :
  well_shaped m -> (1 <= Np.nrows m)%nat -> (1 <= Np.ncols m)%nat ->
  manual_df <> [] -> 0 < t -> t <= t' -> t' < 1 ->
  exists s s',
    matrix_IoU_Scores m manual_df t = Ok s /\
    matrix_IoU_Scores m manual_df t' = Ok s' /\
    (TRUE_POSITIVE s' <= TRUE_POSITIVE s)%Z /\
    (FALSE_NEGATIVE s <= FALSE_NEGATIVE s')%Z /\
    (FALSE_POSITIVE s <= FALSE_POSITIVE s')%Z.
Proof.
  intros Hs Hr Hc Hne H0 Hle H1.
  destruct (matrix_IoU_Scores_ok m Hs Hr Hc manual_df t) as
    [s [bh [ba [E [B1 [B0 [TP [FN FP]]]]]]]]; [split; lra|assumption|].
  destruct (matrix_IoU_Scores_ok m Hs Hr Hc manual_df t') as
    [s' [bh' [ba' [E' [B1' [B0' [TP' [FN' FP']]]]]]]];
    [split; lra|assumption|].
  rewrite B1 in B1'. injection B1' as <-.
  rewrite B0 in B0'. injection B0' as <-.
  exists s, s'. split; [assumption|]. split; [assumption|].
  rewrite TP, TP', FN, FN', FP, FP'. unfold count_if.
  repeat split; apply inj_le; apply filter_length_le; intros x Hx.
  - apply Qle_bool_iff. apply Qle_bool_iff in Hx. lra.
  - apply Qlt_bool_iff. apply Qlt_bool_iff in Hx. lra.
  - apply Qlt_bool_iff. apply Qlt_bool_iff in Hx. lra.
Qed.

Lemma matcher_threshold_monotone_witness :
  exists s s',
    matrix_IoU_Scores
      {| Np.nrows := 2; Np.ncols := 1; Np.rows := [[1 # 10]; [7 # 10]] |}
      [IoU_examples.human_0_1; IoU_examples.human_5_6] (1 # 2) = Ok s /\
    matrix_IoU_Scores
      {| Np.nrows := 2; Np.ncols := 1; Np.rows := [[1 # 10]; [7 # 10]] |}
      [IoU_examples.human_0_1; IoU_examples.human_5_6] (4 # 5) = Ok s' /\
    (TRUE_POSITIVE s' <= TRUE_POSITIVE s)%Z /\
    (FALSE_NEGATIVE s <= FALSE_NEGATIVE s')%Z /\
    (FALSE_POSITIVE s <= FALSE_POSITIVE s')%Z.
Proof.
  apply matcher_threshold_monotone.
  - split; [reflexivity|]. repeat constructor.
  - simpl. lia.
  - simpl. lia.
  - discriminate.
  - reflexivity.
  - discriminate.
  - reflexivity.
Defined.

(** The block that computes recall, precision and F1 from the counts. *)
Lemma metrics_from_counts (tp fn fp : Z) :
  (0 <= tp)%Z -> (0 <= fn)%Z -> (0 <= fp)%Z ->
  exists recall precision f1,
    try_except
      (recall <- Py.truediv (inject_Z tp) (inject_Z (tp + fn)) ;;
       let recall := Py.round recall 4 in
       precision <- Py.truediv (inject_Z tp) (inject_Z (tp + fp)) ;;
       let precision := Py.round precision 4 in
       f1 <- Py.truediv (2 * (recall * precision)) (recall + precision) ;;
       Ok (recall, precision, Py.round f1 4))
      is_ZeroDivisionError (Ok (0, 0, 0))
    = Ok (recall, precision, f1) /\
    0 <= recall <= 1 /\ 0 <= precision <= 1 /\ 0 <= f1 <= 1 /\
    (tp = 0%Z -> recall == 0 /\ precision == 0 /\ f1 == 0).
Proof.
  intros Htp Hfn Hfp.
  assert (Z0 : 0 <= 0 <= 1) by (split; discriminate).
  assert (ratio : forall d : Z, (0 < tp + d)%Z -> (0 <= d)%Z ->
            0 <= inject_Z tp / inject_Z (tp + d) <= 1).
  { intros d Hd Hd0.
    assert (HD : 0 < inject_Z (tp + d)) by (rewrite <- (Zlt_Qlt 0); lia).
    split.
    - apply Qle_shift_div_l; [assumption|]. rewrite Qmult_0_l.
      rewrite <- (Zle_Qle 0). assumption.
    - apply Qle_shift_div_r; [assumption|]. rewrite Qmult_1_l.
      rewrite <- Zle_Qle. lia. }
  assert (zero : forall d : Z, tp = 0%Z ->
            Py.round (inject_Z tp / inject_Z (tp + d)) 4 == 0).
  { intros d ->. unfold Py.round. rewrite Qred_correct.
    rewrite (int_round_of_integer _ 0).
    - reflexivity.
    - unfold Qdiv. rewrite Qmult_0_l. reflexivity. }
  unfold Py.truediv.
  destruct (Qeq_bool (inject_Z (tp + fn)) 0) eqn:E1.
  { cbn. exists 0, 0, 0. repeat split; try discriminate; reflexivity. }
  cbn [bind].
  destruct (Qeq_bool (inject_Z (tp + fp)) 0) eqn:E2.
  { cbn. exists 0, 0, 0. repeat split; try discriminate; reflexivity. }
  cbn [bind].
  apply Qeq_bool_neq in E1. apply Qeq_bool_neq in E2.
  assert (D1 : (0 < tp + fn)%Z).
  { destruct (Z.eq_dec (tp + fn) 0) as [E|E]; [|lia].
    exfalso. apply E1. now rewrite E. }
  assert (D2 : (0 < tp + fp)%Z).
  { destruct (Z.eq_dec (tp + fp) 0) as [E|E]; [|lia].
    exfalso. apply E2. now rewrite E. }
  set (r := Py.round (inject_Z tp / inject_Z (tp + fn)) 4).
  set (p := Py.round (inject_Z tp / inject_Z (tp + fp)) 4).
  assert (Hr : 0 <= r <= 1) by (apply round_unit_interval, ratio; lia).
  assert (Hp : 0 <= p <= 1) by (apply round_unit_interval, ratio; lia).
  destruct (Qeq_bool (r + p) 0) eqn:E3.
  { cbn. exists 0, 0, 0. repeat split; try discriminate; reflexivity. }
  cbn [bind try_except]. apply Qeq_bool_neq in E3.
  exists r, p, (Py.round (2 * (r * p) / (r + p)) 4).
  split; [reflexivity|]. split; [assumption|]. split; [assumption|].
  assert (Hrp : 0 < r + p).
  { destruct (Qlt_le_dec 0 (r + p)) as [H|H]; [assumption|].
    exfalso. apply E3. lra. }
  split.
  - apply round_unit_interval. split.
    + apply Qle_shift_div_l; [assumption|]. rewrite Qmult_0_l.
      apply Qmult_le_0_compat; [discriminate|].
      apply Qmult_le_0_compat; lra.
    + apply Qle_shift_div_r; [assumption|]. rewrite Qmult_1_l.
      assert (A : 0 <= r * (1 - p)) by (apply Qmult_le_0_compat; lra).
      assert (B : 0 <= p * (1 - r)) by (apply Qmult_le_0_compat; lra).
      setoid_replace (r + p) with (2 * (r * p) + r * (1 - p) + p * (1 - r))
        by ring.
      lra.
  - intros T. exfalso. apply E3.
    unfold r, p. rewrite (zero fn T), (zero fp T). reflexivity.
Qed.

(** X4: on a matrix with a row and a column the matcher's counts are
    bounded by the shape of the matrix: true positives and false negatives
    add up to the number of rows, and the false positives are at most the
    number of columns; precision, recall and F1 lie in [0,1], and without
    a true positive all three are 0: the zero denominators are absorbed,
    not raised. *)
Theorem matcher_metrics_bounded (m : Np.matrix) (manual_df : DataFrame)
    (threshold : Q) :
  well_shaped m -> (1 <= Np.nrows m)%nat -> (1 <= Np.ncols m)%nat ->
  manual_df <> [] -> 0 < threshold < 1 ->
  exists s,
    matrix_IoU_Scores m manual_df threshold = Ok s /\
    (0 <= TRUE_POSITIVE s <= Z.of_nat (Np.nrows m))%Z /\
    (0 <= FALSE_NEGATIVE s <= Z.of_nat (Np.nrows m))%Z /\
    (0 <= FALSE_POSITIVE s <= Z.of_nat (Np.ncols m))%Z /\
    (TRUE_POSITIVE s + FALSE_NEGATIVE s = Z.of_nat (Np.nrows m))%Z /\
    0 <= PRECISION s <= 1 /\ 0 <= RECALL s <= 1 /\ 0 <= F1 s <= 1 /\
    (TRUE_POSITIVE s = 0%Z ->
     PRECISION s == 0 /\ RECALL s == 0 /\ F1 s == 0).
Proof.
  intros Hs Hr Hc Hne [Ht0 Ht1].
  destruct (max_axis1_rows m Hs Hr Hc) as [bh [Hbh [Lh _]]].
  destruct (max_axis0_columns m Hs Hr Hc) as [ba [Hba [La _]]].
  unfold matrix_IoU_Scores.
  assert (Ha : Qlt_bool 0 threshold && Qlt_bool threshold 1 = true).
  { apply andb_true_iff. split; now apply Qlt_bool_iff. }
  rewrite Ha. cbn [assert bind].
  destruct manual_df as [|r0 rest]; [congruence|]. cbn [at0 bind].
  rewrite Hbh, Hba. cbn [bind].
  set (tp := Z.of_nat (List.length (filter _ bh))).
  set (fn := Z.of_nat (List.length (filter _ bh))).
  set (fp := Z.of_nat (List.length (filter _ ba))).
  destruct (metrics_from_counts tp fn fp) as
    [recall [precision [f1 [E [B1 [B2 [B3 Z0]]]]]]];
    try (unfold tp, fn, fp; lia).
  cbv zeta in E. eexists. split; [rewrite E; cbn [bind]; reflexivity|].
  cbn [TRUE_POSITIVE FALSE_NEGATIVE FALSE_POSITIVE PRECISION RECALL F1].
  pose proof (filter_length_bound (fun x => Qle_bool threshold x) bh).
  pose proof (filter_length_bound (fun x => Qlt_bool x threshold) bh).
  pose proof (filter_length_bound (fun x => Qlt_bool x threshold) ba).
  pose proof (filter_partition_length (fun x => Qle_bool threshold x) bh)
    as Hpart.
  cbv beta in Hpart.
  split; [unfold tp; lia|]. split; [unfold fn; lia|].
  split; [unfold fp; lia|].
  split; [unfold tp, fn, Qlt_bool; lia|].
  split; [exact B2|]. split; [exact B1|]. split; [exact B3|].
  intros T. destruct (Z0 T) as [Z1 [Z2 Z3]]. auto.
Qed.

Lemma matcher_metrics_bounded_witness :
  exists s,
    matrix_IoU_Scores
      {| Np.nrows := 2; Np.ncols := 1; Np.rows := [[1 # 10]; [1 # 10]] |}
      [IoU_examples.human_0_1; IoU_examples.human_5_6] (1 # 2) = Ok s /\
    TRUE_POSITIVE s = 0%Z /\
    PRECISION s == 0 /\ RECALL s == 0 /\ F1 s == 0.
Proof.
  destruct (matcher_metrics_bounded
              {| Np.nrows := 2; Np.ncols := 1;
                 Np.rows := [[1 # 10]; [1 # 10]] |}
              [IoU_examples.human_0_1; IoU_examples.human_5_6] (1 # 2))
    as [s [E [_ [_ [_ [_ [_ [_ [_ Z0]]]]]]]]].
  - split; [reflexivity|]. repeat constructor.
  - simpl. lia.
  - simpl. lia.
  - discriminate.
  - split; reflexivity.
  - exists s. split; [exact E|].
    assert (T : TRUE_POSITIVE s = 0%Z).
    { vm_compute in E. injection E as <-. reflexivity. }
    split; [exact T|]. apply (Z0 T).
Defined.

End MatcherMore.

(** ** The general statistics of a clip *)

Section GeneralCounts.
Import statistics.

Lemma count_eq_cons (x v : Z) (l : list Z) :
  Np.count_eq (x :: l) v = (if x =? v then 1 else 0) + Np.count_eq l v.
Proof.
  unfold Np.count_eq. cbn [filter]. destruct (x =? v); cbn [List.length]; lia.
Qed.

Lemma count_eq_nonneg (l : list Z) (v : Z) : 0 <= Np.count_eq l v.
Proof. unfold Np.count_eq. lia. Qed.

Lemma setslice_binary (a : list Z) (i j : Z) :
  binary a -> binary (Np.setslice a i j 1).
Proof.
  intros H. unfold Np.setslice. destruct (_ <? _); [|assumption].
  assert (parts : forall k, binary (firstn k a) /\ binary (skipn k a)).
  { intros k. apply Forall_app. now rewrite firstn_skipn. }
  apply Forall_app. split; [apply parts|].
  apply Forall_app. split; [|apply parts].
  apply Forall_forall. intros x Hx. apply repeat_spec in Hx. now right.
Qed.

Lemma zeros_binary (n : nat) : binary (repeat 0 n).
Proof. apply Forall_forall. intros x Hx. apply repeat_spec in Hx. now left. Qed.

Lemma place_labels_binary (scale : Q) (df : DataFrame) (arr : list Z) :
  binary arr -> binary (place_labels scale df arr).
Proof.
  revert arr. induction df as [|r df IH]; intros arr H; [assumption|].
  change (place_labels scale (r :: df) arr)
    with (place_labels scale df (place_label scale arr r)).
  apply IH. unfold place_label. destruct (label_bounds scale r).
  now apply setslice_binary.
Qed.

(** Every sample is a true positive, a false negative, a false positive or
    a true negative, and the union holds the first three. *)
Lemma confusion_counts (h b : list Z) :
  binary h -> binary b -> List.length h = List.length b ->
  let flip := map (fun x => 1 - x) in
  let tp := Np.count_eq (multiply h b) 1 in
  let fn := Np.count_eq (multiply h (flip b)) 1 in
  let fp := Np.count_eq (multiply (flip h) b) 1 in
  let tn := Np.count_eq (multiply (flip h) (flip b)) 1 in
  let union :=
    Np.count_eq
      (map (fun p => let s := fst p + snd p in if s =? 2 then 1 else s)
           (combine h b)) 1 in
  tp + fn + fp + tn = Z.of_nat (List.length h) /\ union = tp + fn + fp.
Proof.
  intros Hh. revert b. induction Hh as [|x h Hx Hh IH]; intros b Hb Hlen.
  - destruct b; [|discriminate]. cbn. split; reflexivity.
  - destruct b as [|y b]; [discriminate|].
    inversion Hb as [|? ? Hy Hb']; subst.
    injection Hlen as Hlen.
    destruct (IH b Hb' Hlen) as [E1 E2]. cbv zeta in *.
    cbn [List.length]. rewrite Nat2Z.inj_succ.
    unfold multiply in *. cbn [map combine]. rewrite !count_eq_cons.
    set (c5 := Np.count_eq (map (fun p => if _ =? 2 then 1 else _) _) 1) in *.
    set (c1 := Np.count_eq (map _ (combine h b)) 1) in *.
    set (c2 := Np.count_eq (map _ (combine h (map _ b))) 1) in *.
    set (c3 := Np.count_eq (map _ (combine (map _ h) b)) 1) in *.
    set (c4 := Np.count_eq (map _ (combine (map _ h) (map _ b))) 1) in *.
    clearbody c1 c2 c3 c4 c5. clear IH.
    destruct Hx as [-> | ->], Hy as [-> | ->]; cbn [fst snd];
      repeat match goal with
             | |- context [if ?c then _ else _] =>
                 let v := eval vm_compute in c in change c with v; cbv iota
             end; lia.
Qed.

(** The block that computes precision, recall, F1 and IoU from the four
    durations. *)
Lemma general_metrics (tp fp fn un : Q) :
  (0 <= tp)%Q -> (0 <= fp)%Q -> (0 <= fn)%Q -> (un == tp + fn + fp)%Q ->
  exists f1 precision recall IoU,
    try_except
      (precision <- Py.truediv tp (tp + fp) ;;
       recall <- Py.truediv tp (tp + fn) ;;
       f1 <- Py.truediv (2 * (recall * precision)) (recall + precision) ;;
       IoU <- Py.truediv tp un ;;
       Ok (f1, precision, recall, IoU))
      BaseException (Ok (0, 0, 0, 0)%Q)
    = Ok (f1, precision, recall, IoU) /\
    (0 <= f1 <= 1)%Q /\ (0 <= precision <= 1)%Q /\ (0 <= recall <= 1)%Q /\
    (0 <= IoU <= 1)%Q /\
    ((tp == 0)%Q ->
     f1 = 0%Q /\ precision = 0%Q /\ recall = 0%Q /\ IoU = 0%Q).
Proof.
  intros Htp Hfp Hfn Hun.
  assert (zeros : exists f1 precision recall IoU : Q,
            Ok (0, 0, 0, 0)%Q = Ok (f1, precision, recall, IoU) /\
            (0 <= f1 <= 1)%Q /\ (0 <= precision <= 1)%Q /\
            (0 <= recall <= 1)%Q /\ (0 <= IoU <= 1)%Q /\
            ((tp == 0)%Q ->
             f1 = 0%Q /\ precision = 0%Q /\ recall = 0%Q /\ IoU = 0%Q)).
  { exists 0%Q, 0%Q, 0%Q, 0%Q. repeat split; discriminate. }
  assert (ratio : forall d : Q, (0 <= d)%Q -> ~ (tp + d == 0)%Q ->
            (0 <= tp / (tp + d) <= 1)%Q /\
            ((tp == 0)%Q -> (tp / (tp + d) == 0)%Q)).
  { intros d Hd Hne.
    assert (HD : (0 < tp + d)%Q).
    { destruct (Qlt_le_dec 0 (tp + d)); [assumption|]. exfalso. apply Hne. lra. }
    split; [split|].
    - apply Qle_shift_div_l; [assumption|]. lra.
    - apply Qle_shift_div_r; [assumption|]. lra.
    - intros T. rewrite T. unfold Qdiv. apply Qmult_0_l. }
  unfold Py.truediv.
  destruct (Qeq_bool (tp + fp) 0) eqn:E1; [exact zeros|].
  cbn [bind].
  destruct (Qeq_bool (tp + fn) 0) eqn:E2; [exact zeros|].
  cbn [bind].
  apply Qeq_bool_neq in E1. apply Qeq_bool_neq in E2.
  destruct (ratio fp Hfp E1) as [Hp Zp].
  destruct (ratio fn Hfn E2) as [Hr Zr].
  set (p := (tp / (tp + fp))%Q) in *. set (r := (tp / (tp + fn))%Q) in *.
  destruct (Qeq_bool (r + p) 0) eqn:E3; [exact zeros|].
  cbn [bind]. apply Qeq_bool_neq in E3.
  destruct (Qeq_bool un 0) eqn:E4; [exact zeros|].
  cbn [bind try_except]. apply Qeq_bool_neq in E4.
  assert (Hrp : (0 < r + p)%Q).
  { destruct (Qlt_le_dec 0 (r + p)) as [H|H]; [assumption|].
    exfalso. apply E3. lra. }
  assert (HU : (0 < un)%Q).
  { destruct (Qlt_le_dec 0 un) as [H|H]; [assumption|].
    exfalso. apply E4. lra. }
  do 4 eexists. split; [reflexivity|].
  split; [|split; [assumption|split; [assumption|split]]].
  - split.
    + apply Qle_shift_div_l; [assumption|]. rewrite Qmult_0_l.
      apply Qmult_le_0_compat; [discriminate|].
      apply Qmult_le_0_compat; lra.
    + apply Qle_shift_div_r; [assumption|]. rewrite Qmult_1_l.
      assert (A : (0 <= r * (1 - p))%Q) by (apply Qmult_le_0_compat; lra).
      assert (B : (0 <= p * (1 - r))%Q) by (apply Qmult_le_0_compat; lra).
      setoid_replace (r + p)%Q
        with (2 * (r * p) + r * (1 - p) + p * (1 - r))%Q by ring.
      lra.
  - split.
    + apply Qle_shift_div_l; [assumption|]. lra.
    + apply Qle_shift_div_r; [assumption|]. lra.
  - intros T. exfalso. apply E3. rewrite (Zp T), (Zr T). reflexivity.
Qed.

Lemma truediv_count (c sr : Z) :
  0 < sr ->
  Py.truediv (inject_Z c) (inject_Z sr) = Ok (inject_Z c / inject_Z sr)%Q.
Proof.
  intros H. unfold Py.truediv.
  destruct (Qeq_bool (inject_Z sr) 0) eqn:E; [|reflexivity].
  apply Qeq_bool_iff in E. unfold Qeq in E. cbn in E. lia.
Qed.

Lemma seconds_nonneg (c sr : Z) :
  0 <= c -> 0 < sr -> (0 <= inject_Z c / inject_Z sr)%Q.
Proof.
  intros Hc Hs. apply Qle_shift_div_l.
  - change 0%Q with (inject_Z 0). rewrite <- Zlt_Qlt. assumption.
  - rewrite Qmult_0_l. change 0%Q with (inject_Z 0). rewrite <- Zle_Qle.
    assumption.
Qed.

Lemma clip_general_view (automated_df human_df : DataFrame)
    (r0 : Annotation) (rest : DataFrame) :
  automated_df = r0 :: rest ->
  human_df <> [] ->
  0 < SAMPLE_RATE r0 ->
  0 <= Py.int (inject_Z (SAMPLE_RATE r0) * CLIP_LENGTH r0) ->
  exists s,
    clip_general automated_df human_df = Ok s /\
    (gen_TRUE_POSITIVE s + gen_FALSE_NEGATIVE s + gen_FALSE_POSITIVE s
       + gen_TRUE_NEGATIVE s
     == inject_Z (Py.int (inject_Z (SAMPLE_RATE r0) * CLIP_LENGTH r0))
        / inject_Z (SAMPLE_RATE r0))%Q /\
    (gen_UNION s
     == gen_TRUE_POSITIVE s + gen_FALSE_NEGATIVE s + gen_FALSE_POSITIVE s)%Q /\
    (0 <= gen_TRUE_POSITIVE s)%Q /\ (0 <= gen_FALSE_NEGATIVE s)%Q /\
    (0 <= gen_FALSE_POSITIVE s)%Q /\ (0 <= gen_TRUE_NEGATIVE s)%Q /\
    (0 <= gen_F1 s <= 1)%Q /\ (0 <= gen_PRECISION s <= 1)%Q /\
    (0 <= gen_RECALL s <= 1)%Q /\ (0 <= gen_Global_IoU s <= 1)%Q /\
    ((gen_TRUE_POSITIVE s == 0)%Q ->
     gen_F1 s = 0%Q /\ gen_PRECISION s = 0%Q /\ gen_RECALL s = 0%Q /\
     gen_Global_IoU s = 0%Q).
Proof.
  intros -> Hh Hsr Hn.
  destruct human_df as [|h0 hrest]; [contradiction|]. clear Hh.
  set (sr := SAMPLE_RATE r0) in *.
  set (n := Py.int (inject_Z sr * CLIP_LENGTH r0)) in *.
  unfold clip_general. cbn [map Py.unique bind first_value].
  fold sr. fold n. unfold Np.zeros.
  destruct (n <? 0) eqn:En; [lia|]. cbn [bind]. cbv zeta.
  set (H := place_labels (inject_Z sr) (h0 :: hrest) (repeat 0 (Z.to_nat n))).
  set (B := place_labels (inject_Z sr) (r0 :: rest) (repeat 0 (Z.to_nat n))).
  assert (bH : binary H) by apply place_labels_binary, zeros_binary.
  assert (bB : binary B) by apply place_labels_binary, zeros_binary.
  assert (lH : List.length H = Z.to_nat n)
    by (unfold H; rewrite place_labels_length; apply repeat_length).
  assert (lB : List.length B = Z.to_nat n)
    by (unfold B; rewrite place_labels_length; apply repeat_length).
  destruct (confusion_counts H B bH bB) as [E1 E2]; [congruence|].
  cbv zeta in E1, E2. unfold multiply in E1, E2.
  rewrite lH, Z2Nat.id in E1 by assumption.
  pose proof (count_eq_nonneg
                (map (fun p : Z * Z => fst p * snd p) (combine H B)) 1) as P1.
  pose proof (count_eq_nonneg
                (map (fun p : Z * Z => fst p * snd p)
                     (combine H (map (fun x : Z => 1 - x) B))) 1) as P2.
  pose proof (count_eq_nonneg
                (map (fun p : Z * Z => fst p * snd p)
                     (combine (map (fun x : Z => 1 - x) H) B)) 1) as P3.
  pose proof (count_eq_nonneg
                (map (fun p : Z * Z => fst p * snd p)
                     (combine (map (fun x : Z => 1 - x) H)
                              (map (fun x : Z => 1 - x) B))) 1) as P4.
  set (c5 := Np.count_eq (map (fun p => if _ =? 2 then 1 else _) _) 1) in *.
  set (c1 := Np.count_eq (map _ (combine H B)) 1) in *.
  set (c2 := Np.count_eq (map _ (combine H (map _ B))) 1) in *.
  set (c3 := Np.count_eq (map _ (combine (map _ H) B)) 1) in *.
  set (c4 := Np.count_eq (map _ (combine (map _ H) (map _ B))) 1) in *.
  clearbody c1 c2 c3 c4 c5.
  rewrite !truediv_count by assumption. cbn [bind].
  assert (Q1 : (inject_Z c1 / inject_Z sr + inject_Z c2 / inject_Z sr
                + inject_Z c3 / inject_Z sr + inject_Z c4 / inject_Z sr
                == inject_Z n / inject_Z sr)%Q).
  { rewrite <- E1. rewrite !inject_Z_plus. unfold Qdiv. ring. }
  assert (Q2 : (inject_Z c5 / inject_Z sr
                == inject_Z c1 / inject_Z sr + inject_Z c2 / inject_Z sr
                   + inject_Z c3 / inject_Z sr)%Q).
  { rewrite E2. rewrite !inject_Z_plus. unfold Qdiv. ring. }
  pose proof (seconds_nonneg c1 sr P1 Hsr) as N1.
  pose proof (seconds_nonneg c2 sr P2 Hsr) as N2.
  pose proof (seconds_nonneg c3 sr P3 Hsr) as N3.
  pose proof (seconds_nonneg c4 sr P4 Hsr) as N4.
  destruct (general_metrics _ _ _ _ N1 N3 N2 Q2)
    as (f1 & p & r & iou & Em & B1 & B2 & B3 & B4 & Z0).
  rewrite Em. cbn [bind].
  eexists. split; [reflexivity|].
  cbn [gen_TRUE_POSITIVE gen_FALSE_NEGATIVE gen_FALSE_POSITIVE
       gen_TRUE_NEGATIVE gen_UNION gen_F1 gen_PRECISION gen_RECALL
       gen_Global_IoU].
  split; [exact Q1|]. split; [exact Q2|].
  split; [exact N1|]. split; [exact N2|]. split; [exact N3|].
  split; [exact N4|].
  split; [exact B1|]. split; [exact B2|]. split; [exact B3|].
  split; [exact B4|]. exact Z0.
Qed.


(** The durations of a clip as numbers of samples over the sample
    rate. *)
Lemma clip_general_counts (automated_df human_df : DataFrame)
    (r0 : Annotation) (rest : DataFrame) :
  automated_df = r0 :: rest ->
  human_df <> [] ->
  0 < SAMPLE_RATE r0 ->
  0 <= Py.int (inject_Z (SAMPLE_RATE r0) * CLIP_LENGTH r0) ->
  exists s (c_tp c_fn c_fp c_tn : Z),
    clip_general automated_df human_df = Ok s /\
    0 <= c_tp /\ 0 <= c_fn /\ 0 <= c_fp /\ 0 <= c_tn /\
    c_tp + c_fn + c_fp + c_tn
    = Py.int (inject_Z (SAMPLE_RATE r0) * CLIP_LENGTH r0) /\
    gen_TRUE_POSITIVE s = (inject_Z c_tp / inject_Z (SAMPLE_RATE r0))%Q /\
    gen_FALSE_NEGATIVE s = (inject_Z c_fn / inject_Z (SAMPLE_RATE r0))%Q /\
    gen_FALSE_POSITIVE s = (inject_Z c_fp / inject_Z (SAMPLE_RATE r0))%Q /\
    gen_TRUE_NEGATIVE s = (inject_Z c_tn / inject_Z (SAMPLE_RATE r0))%Q /\
    gen_UNION s
    = (inject_Z (c_tp + c_fn + c_fp) / inject_Z (SAMPLE_RATE r0))%Q.
Proof.
  intros -> Hh Hsr Hn.
  destruct human_df as [|h0 hrest]; [contradiction|]. clear Hh.
  set (sr := SAMPLE_RATE r0) in *.
  set (n := Py.int (inject_Z sr * CLIP_LENGTH r0)) in *.
  unfold clip_general. cbn [map Py.unique bind first_value].
  fold sr. fold n. unfold Np.zeros.
  destruct (n <? 0) eqn:En; [lia|]. cbn [bind]. cbv zeta.
  set (H := place_labels (inject_Z sr) (h0 :: hrest) (repeat 0 (Z.to_nat n))).
  set (B := place_labels (inject_Z sr) (r0 :: rest) (repeat 0 (Z.to_nat n))).
  assert (bH : binary H) by apply place_labels_binary, zeros_binary.
  assert (bB : binary B) by apply place_labels_binary, zeros_binary.
  assert (lH : List.length H = Z.to_nat n)
    by (unfold H; rewrite place_labels_length; apply repeat_length).
  assert (lB : List.length B = Z.to_nat n)
    by (unfold B; rewrite place_labels_length; apply repeat_length).
  destruct (confusion_counts H B bH bB) as [E1 E2]; [congruence|].
  cbv zeta in E1, E2. unfold multiply in E1, E2.
  rewrite lH, Z2Nat.id in E1 by assumption.
  pose proof (count_eq_nonneg
                (map (fun p : Z * Z => fst p * snd p) (combine H B)) 1) as P1.
  pose proof (count_eq_nonneg
                (map (fun p : Z * Z => fst p * snd p)
                     (combine H (map (fun x : Z => 1 - x) B))) 1) as P2.
  pose proof (count_eq_nonneg
                (map (fun p : Z * Z => fst p * snd p)
                     (combine (map (fun x : Z => 1 - x) H) B)) 1) as P3.
  pose proof (count_eq_nonneg
                (map (fun p : Z * Z => fst p * snd p)
                     (combine (map (fun x : Z => 1 - x) H)
                              (map (fun x : Z => 1 - x) B))) 1) as P4.
  set (c5 := Np.count_eq (map (fun p => if _ =? 2 then 1 else _) _) 1) in *.
  set (c1 := Np.count_eq (map _ (combine H B)) 1) in *.
  set (c2 := Np.count_eq (map _ (combine H (map _ B))) 1) in *.
  set (c3 := Np.count_eq (map _ (combine (map _ H) B)) 1) in *.
  set (c4 := Np.count_eq (map _ (combine (map _ H) (map _ B))) 1) in *.
  clearbody c1 c2 c3 c4 c5. subst c5.
  rewrite !truediv_count by assumption. cbn [bind].
  destruct (try_except _ _ _) as [[[[f1 p] r] iou]|e] eqn:Em.
  - cbn [bind]. eexists. exists c1, c2, c3, c4.
    split; [reflexivity|].
    cbn [gen_TRUE_POSITIVE gen_FALSE_NEGATIVE gen_FALSE_POSITIVE
         gen_TRUE_NEGATIVE gen_UNION].
    repeat split; assumption.
  - exfalso. revert Em. unfold try_except, BaseException.
    destruct (_ <- _ ;; _); discriminate.
Qed.

(** X5: on a clip with a positive sample rate whose array length is
    computed without rounding error, [clip_general] counts every sample
    of the array exactly once: the four durations it reports are numbers
    of samples over the sample rate, these numbers add up to the length
    int(rate * clip length) of the array, and the union is the number of
    true positives, false negatives and false positives together over the
    sample rate. *)
Theorem clip_general_accounting (automated_df human_df : DataFrame)
    (r0 : Annotation) (rest : DataFrame) :
  automated_df = r0 :: rest ->
  human_df <> [] ->
  0 < SAMPLE_RATE r0 ->
  0 <= Py.int (inject_Z (SAMPLE_RATE r0) * CLIP_LENGTH r0) ->
  exact_length (inject_Z (SAMPLE_RATE r0)) (CLIP_LENGTH r0) = true ->
  exists s (c_tp c_fn c_fp c_tn : Z),
    clip_general automated_df human_df = Ok s /\
    0 <= c_tp /\ 0 <= c_fn /\ 0 <= c_fp /\ 0 <= c_tn /\
    c_tp + c_fn + c_fp + c_tn
    = Py.int (inject_Z (SAMPLE_RATE r0) * CLIP_LENGTH r0) /\
    gen_TRUE_POSITIVE s = (inject_Z c_tp / inject_Z (SAMPLE_RATE r0))%Q /\
    gen_FALSE_NEGATIVE s = (inject_Z c_fn / inject_Z (SAMPLE_RATE r0))%Q /\
    gen_FALSE_POSITIVE s = (inject_Z c_fp / inject_Z (SAMPLE_RATE r0))%Q /\
    gen_TRUE_NEGATIVE s = (inject_Z c_tn / inject_Z (SAMPLE_RATE r0))%Q /\
    gen_UNION s
    = (inject_Z (c_tp + c_fn + c_fp) / inject_Z (SAMPLE_RATE r0))%Q.
Proof.
  intros Ha Hh Hsr Hn _.
  exact (clip_general_counts automated_df human_df r0 rest Ha Hh Hsr Hn).
Qed.

(** 100, 200, 300 and 400 samples, 1000 in all, on the ten-second clip
    at 100 Hz. *)
Lemma clip_general_accounting_witness :
  exists s (c_tp c_fn c_fp c_tn : Z),
    clip_general [general_examples.automated_0_4]
                 [general_examples.human_3_6] = Ok s /\
    c_tp + c_fn + c_fp + c_tn = 1000 /\
    gen_TRUE_POSITIVE s = (inject_Z c_tp / inject_Z 100)%Q /\
    gen_UNION s = (inject_Z (c_tp + c_fn + c_fp) / inject_Z 100)%Q.
Proof.
  destruct (clip_general_accounting
              [general_examples.automated_0_4] [general_examples.human_3_6]
              general_examples.automated_0_4 [] eq_refl)
    as (s & c1 & c2 & c3 & c4 & E & _ & _ & _ & _ & Hsum & Htp & _ & _ & _
        & Hu).
  - discriminate.
  - reflexivity.
  - vm_compute. discriminate.
  - reflexivity.
  - exists s, c1, c2, c3, c4. split; [exact E|]. split; [exact Hsum|].
    split; [exact Htp|exact Hu].
Defined.

(** X6: on a clip with a positive sample rate, the precision, recall, F1
    and global IoU that [clip_general] reports lie between 0 and 1, and all
    four are 0 when the clip has no true positive. *)
Theorem clip_general_metrics_bounded (automated_df human_df : DataFrame)
    (r0 : Annotation) (rest : DataFrame) :
  automated_df = r0 :: rest ->
  human_df <> [] ->
  0 < SAMPLE_RATE r0 ->
  0 <= Py.int (inject_Z (SAMPLE_RATE r0) * CLIP_LENGTH r0) ->
  exists s,
    clip_general automated_df human_df = Ok s /\
    (0 <= gen_F1 s <= 1)%Q /\ (0 <= gen_PRECISION s <= 1)%Q /\
    (0 <= gen_RECALL s <= 1)%Q /\ (0 <= gen_Global_IoU s <= 1)%Q /\
    ((gen_TRUE_POSITIVE s == 0)%Q ->
     gen_F1 s = 0%Q /\ gen_PRECISION s = 0%Q /\ gen_RECALL s = 0%Q /\
     gen_Global_IoU s = 0%Q).
Proof.
  intros Ha Hh Hsr Hn.
  destruct (clip_general_view automated_df human_df r0 rest Ha Hh Hsr Hn)
    as (s & E & _ & _ & _ & _ & _ & _ & B1 & B2 & B3 & B4 & Z0).
  exists s. repeat (split; [assumption|]). assumption.
Qed.

Lemma clip_general_metrics_bounded_witness :
  exists s,
    clip_general [general_examples.automated_0_4]
                 [general_examples.human_3_6] = Ok s /\
    (0 <= gen_PRECISION s <= 1)%Q /\ (0 <= gen_Global_IoU s <= 1)%Q.
Proof.
  destruct (clip_general_metrics_bounded
              [general_examples.automated_0_4] [general_examples.human_3_6]
              general_examples.automated_0_4 [] eq_refl)
    as (s & E & _ & B2 & _ & B4 & _).
  - discriminate.
  - reflexivity.
  - vm_compute. discriminate.
  - exists s. split; [exact E|]. split; assumption.
Defined.

End GeneralCounts.

(** ** The run over the clips: failures and rows *)

Section RunRows.
Import statistics run_view run_rows_view.

Variables (automated_df manual_df : DataFrame).
Variables (stats_type : string) (threshold : Q).

Lemma stats_type_cases :
  existsb (String.eqb stats_type) ["IoU"; "general"]%string = true ->
  stats_type = "IoU"%string \/ stats_type = "general"%string.
Proof.
  cbn [existsb]. rewrite !orb_true_iff.
  intros [H|[H|H]]; [left|right|discriminate]; now apply String.eqb_eq.
Qed.

(** Without manual rows the statistics of a clip raise in both modes. *)
Lemma clip_stats_without_manual (ca : DataFrame) (df : stats_table) :
  stats_type = "IoU"%string \/ stats_type = "general"%string ->
  exists e, clip_stats stats_type threshold ca [] df = Raise e.
Proof.
  intros [-> | ->]; unfold clip_stats; cbn [String.eqb Ascii.eqb Bool.eqb].
  - destruct (clip_IoU ca []) as [m|e]; cbn [bind]; [|now exists e].
    unfold matrix_IoU_Scores.
    destruct (assert _) as [u|e]; cbn [bind at0]; eexists; reflexivity.
  - exists IndexError. reflexivity.
Qed.

(** With one of the two modes, the statistics of a clip that do not raise
    are one row. *)
Lemma clip_stats_one_row (ca cm : DataFrame) (rows : stats_table) :
  stats_type = "IoU"%string \/ stats_type = "general"%string ->
  clip_stats stats_type threshold ca cm [] = Ok rows ->
  exists row, rows = [row] /\
              is_general row = String.eqb stats_type "general".
Proof.
  intros [-> | ->]; unfold clip_stats; cbn [String.eqb Ascii.eqb Bool.eqb].
  - destruct (clip_IoU ca cm) as [m|e]; cbn [bind]; [|discriminate].
    destruct (matrix_IoU_Scores _ _ _) as [r|e]; cbn [bind]; [|discriminate].
    intros [= <-]. eexists. split; reflexivity.
  - destruct (clip_general ca cm) as [r|e]; cbn [bind]; [|discriminate].
    intros [= <-]. eexists. split; reflexivity.
Qed.

Lemma error_report_raises (n : Z) (clips : list string) :
  error_report n clips = Raise TypeError.
Proof. reflexivity. Qed.

(** A run that counts no error adds the row of each clip, in order. *)
Lemma run_rows (clips : list string) (s s' : run_state) :
  stats_type = "IoU"%string \/ stats_type = "general"%string ->
  for_each clips (clip_step automated_df manual_df stats_type threshold) s
    = Ok s' ->
  num_errors s' = num_errors s ->
  exists rows,
    statistics_df s' = statistics_df s ++ rows /\
    Forall2 (row_of_clip automated_df manual_df stats_type threshold)
            clips rows.
Proof.
  intros Hst. revert s. induction clips as [|clip clips IH]; intros s Hrun He.
  - injection Hrun as <-. exists []. split; [now rewrite app_nil_r|constructor].
  - cbn [for_each] in Hrun.
    destruct (clip_step_total automated_df manual_df stats_type threshold
                clip s) as [s1 [E1 [_ [N1 _]]]].
    rewrite E1 in Hrun. cbn [bind] in Hrun.
    destruct (run_total automated_df manual_df stats_type threshold clips s1)
      as [s2 [E2 [_ N2]]].
    rewrite E2 in Hrun. injection Hrun as <-.
    assert (Hok : clip_fails automated_df manual_df stats_type threshold clip
                  = false).
    { destruct (clip_fails _ _ _ _ clip); [lia|reflexivity]. }
    rewrite Hok in N1.
    destruct (IH s1 E2 ltac:(lia)) as [rows [Hrows Hall]].
    unfold clip_fails in Hok. unfold clip_step in E1.
    rewrite clip_stats_from_empty in E1.
    destruct (clip_stats stats_type threshold _ _ []) as [r|e] eqn:Ec;
      [|discriminate].
    cbn [bind try_except] in E1. injection E1 as <-.
    destruct (clip_stats_one_row _ _ _ Hst Ec) as [row [-> _]].
    exists (row :: rows). split.
    + rewrite Hrows. cbn [statistics_df]. now rewrite <- app_assoc.
    + constructor; assumption.
Qed.

(** The table of a run that returns. *)
Lemma run_table_rows (verbose : bool) (table : stats_table) :
  automated_labeling_statistics automated_df manual_df stats_type threshold
    verbose = Ok table ->
  (stats_type = "IoU"%string \/ stats_type = "general"%string) /\
  Forall2 (row_of_clip automated_df manual_df stats_type threshold)
          (Py.unique (map IN_FILE automated_df)) table.
Proof.
  unfold automated_labeling_statistics.
  destruct (existsb _ _) eqn:A1; cbn [assert bind]; [|discriminate].
  destruct (_ && _); cbn [assert bind]; [|discriminate].
  unfold run_clips.
  destruct (run_total automated_df manual_df stats_type threshold
              (Py.unique (map IN_FILE automated_df)) (mkState [] 0 0))
    as [s [Hrun [_ He]]].
  rewrite Hrun. cbn [bind]. cbn [num_errors] in He.
  destruct (0 <? num_errors s) eqn:Hpos.
  - rewrite error_report_raises. discriminate.
  - cbn [bind]. intros [= <-]. apply Z.ltb_ge in Hpos.
    split; [exact (stats_type_cases A1)|].
    destruct (run_rows _ _ _ (stats_type_cases A1) Hrun)
      as [rows [Hrows Hall]].
    + cbn [num_errors]. lia.
    + cbn [statistics_df app] in Hrows. now rewrite Hrows.
Qed.

(** The rows of a table are of the kind the mode asks for. *)
Lemma rows_kind (clips : list string) (table : stats_table) :
  stats_type = "IoU"%string \/ stats_type = "general"%string ->
  Forall2 (row_of_clip automated_df manual_df stats_type threshold)
          clips table ->
  Forall (fun row => is_general row = String.eqb stats_type "general") table.
Proof.
  intros Hst Hall. induction Hall as [|clip row clips rows Hrow Hrest IH];
    constructor; [|exact IH].
  destruct (clip_stats_one_row _ _ _ Hst Hrow) as [row' [E Hk]].
  injection E as <-. exact Hk.
Qed.

End RunRows.

Section RunExtras.
Import statistics run_view run_rows_view.

(** X7: an automated clip for which the manual table has no row whose file
    name starts with the clip's stem makes the whole run end in TypeError,
    in both modes: the statistics of the clip raise, the error is counted,
    and the end-of-run message cannot be built. *)
Theorem unmatched_clip_aborts_run (automated_df manual_df : DataFrame)
    (stats_type : string) (threshold : Q) (verbose : bool) (clip : string) :
  In stats_type ["IoU"; "general"]%string ->
  (0 < threshold < 1)%Q ->
  In clip (map IN_FILE automated_df) ->
  clip_manual manual_df clip = [] ->
  automated_labeling_statistics automated_df manual_df stats_type threshold
    verbose = Raise TypeError.
Proof.
  intros Hst Ht Hclip Hnone.
  assert (A1 : existsb (String.eqb stats_type) ["IoU"; "general"]%string
               = true).
  { apply existsb_exists. exists stats_type. split; [assumption|].
    apply String.eqb_refl. }
  assert (A2 : Qlt_bool 0 threshold && Qlt_bool threshold 1 = true).
  { unfold Qlt_bool. apply andb_true_iff.
    split; apply negb_true_iff, Qle_bool_false; apply Ht. }
  unfold automated_labeling_statistics. rewrite A1, A2. cbn [assert bind].
  unfold run_clips.
  destruct (run_total automated_df manual_df stats_type threshold
              (Py.unique (map IN_FILE automated_df)) (mkState [] 0 0))
    as [s [Hrun [_ He]]].
  rewrite Hrun. cbn [bind]. cbn [num_errors] in He.
  assert (Hin : In clip
                  (filter (clip_fails automated_df manual_df stats_type
                             threshold)
                          (Py.unique (map IN_FILE automated_df)))).
  { apply filter_In. split; [now apply unique_In|].
    unfold clip_fails. rewrite Hnone.
    destruct (clip_stats_without_manual stats_type threshold
                (filter (fun r => String.eqb (IN_FILE r) clip) automated_df)
                [] (stats_type_cases stats_type A1)) as [e ->].
    reflexivity. }
  assert (Hpos : (0 <? num_errors s) = true).
  { apply Z.ltb_lt. rewrite He.
    destruct (filter _ _); [destruct Hin|cbn [List.length]; lia]. }
  rewrite Hpos. reflexivity.
Qed.

(** Two automated clips, manual rows for the first only. *)
Lemma unmatched_clip_aborts_run_witness :
  automated_labeling_statistics
    [IoU_examples.automated_0_10;
     mkAnnotation "d/" "b.wav" 10 0 0 10 100 "bird"]
    [IoU_examples.human_0_1] "general" (1 # 2) false
  = Raise TypeError.
Proof.
  apply (unmatched_clip_aborts_run _ _ _ _ _ "b.wav"%string).
  - simpl. auto.
  - split; reflexivity.
  - simpl. auto.
  - reflexivity.
Defined.

(** X8: a run that returns a table returns one row for each distinct file
    name of the automated table, in order of first occurrence, and the row
    is the one the statistics of that clip give on their own: the rows of
    the automated table with that file name against the manual rows paired
    with it. *)
Theorem run_rows_per_clip (automated_df manual_df : DataFrame)
    (stats_type : string) (threshold : Q) (verbose : bool)
    (table : stats_table) :
  automated_labeling_statistics automated_df manual_df stats_type threshold
    verbose = Ok table ->
  Forall2 (row_of_clip automated_df manual_df stats_type threshold)
          (Py.unique (map IN_FILE automated_df)) table.
Proof.
  intros Hrun.
  exact (proj2 (run_table_rows automated_df manual_df stats_type threshold
                  verbose table Hrun)).
Qed.

Lemma run_rows_per_clip_witness :
  exists table,
    automated_labeling_statistics
      [IoU_examples.automated_0_10;
       mkAnnotation "d/" "b.wav" 10 0 0 10 100 "bird";
       IoU_examples.automated_0_10]
      [IoU_examples.human_0_1; IoU_examples.human_5_6;
       mkAnnotation "d/" "b.wav" 10 0 2 5 100 "bird"]
      "IoU" (1 # 2) false = Ok table /\
    List.length table = 2%nat.
Proof.
  assert (H : { table |
                automated_labeling_statistics
                  [IoU_examples.automated_0_10;
                   mkAnnotation "d/" "b.wav" 10 0 0 10 100 "bird";
                   IoU_examples.automated_0_10]
                  [IoU_examples.human_0_1; IoU_examples.human_5_6;
                   mkAnnotation "d/" "b.wav" 10 0 2 5 100 "bird"]
                  "IoU" (1 # 2) false = Ok table }).
  { eexists. vm_compute. reflexivity. }
  destruct H as [table Ht]. exists table. split; [exact Ht|].
  apply eq_sym.
  exact (Forall2_length (run_rows_per_clip _ _ _ _ _ _ Ht)).
Defined.

(** X9: the table of a run in IoU mode has no row with the columns
    [global_dataset_statistics] asserts, so that function rejects it with
    AssertionError. *)
Theorem IoU_run_rejected_by_dataset_statistics
    (automated_df manual_df : DataFrame) (threshold : Q) (verbose : bool)
    (table : stats_table) (manual_id : string) :
  automated_labeling_statistics automated_df manual_df "IoU" threshold
    verbose = Ok table ->
  global_dataset_statistics table manual_id = Raise AssertionError.
Proof.
  intros Hrun.
  destruct (run_table_rows _ _ _ _ _ _ Hrun) as [Hst Hall].
  pose proof (rows_kind _ _ _ _ _ _ Hst Hall) as Hkind.
  assert (Hg : existsb is_general table = false).
  { clear Hall Hrun. induction Hkind as [|row rows Hrow _ IH]; [reflexivity|].
    cbn [existsb]. rewrite IH, Hrow. reflexivity. }
  unfold global_dataset_statistics. rewrite Hg. reflexivity.
Qed.

Lemma IoU_run_rejected_by_dataset_statistics_witness :
  global_dataset_statistics
    [IoU_row (mkIoUStats "d/" "a.wav" "bird" 0 2 1 0 0 0)] "bird"
  = Raise AssertionError.
Proof.
  apply (IoU_run_rejected_by_dataset_statistics
           [IoU_examples.automated_0_10]
           [IoU_examples.human_0_1; IoU_examples.human_5_6]
           (1 # 2) false).
  vm_compute. reflexivity.
Defined.

End RunExtras.

(** ** Aggregation: undefined ratios, classes, and the general table *)

Section Sums.
Local Open Scope Q_scope.

Lemma qsum_acc (l : list Q) (a : Q) :
  fold_left Qplus l a == a + fold_left Qplus l 0.
Proof.
  revert a. induction l as [|x l IH]; intros a; cbn [fold_left].
  - ring.
  - rewrite (IH (a + x)), (IH (0 + x)). ring.
Qed.

Lemma qsum_cons (x : Q) (l : list Q) :
  fold_left Qplus (x :: l) 0 == x + fold_left Qplus l 0.
Proof. cbn [fold_left]. rewrite qsum_acc. ring. Qed.

Lemma qsum_map_plus {A} (f g : A -> Q) (l : list A) :
  fold_left Qplus (map (fun a => f a + g a) l) 0
  == fold_left Qplus (map f l) 0 + fold_left Qplus (map g l) 0.
Proof.
  induction l as [|a l IH]; [cbn; ring|].
  cbn [map]. rewrite !qsum_cons, IH. ring.
Qed.

Lemma qsum_map_ext {A} (f g : A -> Q) (l : list A) :
  (forall a, In a l -> f a == g a) ->
  fold_left Qplus (map f l) 0 == fold_left Qplus (map g l) 0.
Proof.
  induction l as [|a l IH]; intros H; [reflexivity|].
  cbn [map]. rewrite !qsum_cons, IH, (H a (or_introl eq_refl)).
  - reflexivity.
  - intros; apply H; now right.
Qed.

Lemma qsum_zero {A} (f : A -> Q) (l : list A) :
  (forall a, In a l -> f a == 0) -> fold_left Qplus (map f l) 0 == 0.
Proof.
  induction l as [|a l IH]; intros H; [reflexivity|].
  cbn [map]. rewrite qsum_cons, IH, (H a (or_introl eq_refl)).
  - ring.
  - intros; apply H; now right.
Qed.

(** Over a list without duplicates a value is picked once. *)
Lemma qsum_pick (k : string) (ks : list string) (v : Q) :
  NoDup ks -> In k ks ->
  fold_left Qplus (map (fun c => if String.eqb k c then v else 0) ks) 0 == v.
Proof.
  induction 1 as [|c ks Hc Hnd IH]; intros Hin; [destruct Hin|].
  cbn [map]. rewrite qsum_cons.
  destruct (String.eqb_spec k c) as [->|N].
  - rewrite qsum_zero; [ring|].
    intros a Ha. destruct (String.eqb_spec c a) as [->|_];
      [contradiction|reflexivity].
  - destruct Hin as [E|Hin]; [congruence|]. rewrite (IH Hin). ring.
Qed.

End Sums.

Section ClassSums.
Import statistics.
Local Open Scope Q_scope.

Lemma column_sum_cons (col : counts -> Q) (r : counts) (rows : list counts) :
  column_sum col (r :: rows) == col r + column_sum col rows.
Proof. unfold column_sum. cbn [map]. apply qsum_cons. Qed.

(** The sums of the classes add up to the sum of the column. *)
Lemma class_sums (col : counts -> Q) (ks : list string) (rows : list counts) :
  NoDup ks ->
  (forall r, In r rows -> In (class_of r) ks) ->
  fold_left Qplus
    (map (fun c =>
            column_sum col
              (filter (fun r => String.eqb (class_of r) c) rows)) ks) 0
  == column_sum col rows.
Proof.
  intros Hnd. induction rows as [|r rows IH]; intros Hin.
  - cbn [filter]. apply qsum_zero. reflexivity.
  - rewrite column_sum_cons, <- IH by (intros; apply Hin; now right).
    rewrite <- (qsum_pick (class_of r) ks (col r) Hnd
                  (Hin r (or_introl eq_refl))).
    rewrite <- qsum_map_plus. apply qsum_map_ext. intros c _.
    cbn [filter]. destruct (String.eqb (class_of r) c).
    + apply column_sum_cons.
    + ring.
Qed.

End ClassSums.

Section AggregationExtras.
Import statistics.
Local Open Scope Q_scope.

(** X10: on a non-empty table whose TRUE POSITIVE column sums to zero,
    [global_statistics] does not fall back to zeros: the sums are numpy
    numbers, the division does not raise, and F1 is nan.  Precision is nan
    when there is no false positive either and 0 otherwise, and likewise
    recall with the false negatives. *)
Theorem global_statistics_no_true_positive (statistics_df : stats_table)
    (manual_id : string) :
  statistics_df <> [] ->
  let rows := map counts_of statistics_df in
  column_sum tp rows == 0 ->
  exists g,
    global_statistics statistics_df manual_id = Ok g /\
    glob_F1 g = Np.NaN /\
    (column_sum fp rows == 0 -> glob_PRECISION g = Np.NaN) /\
    (~ column_sum fp rows == 0 -> glob_PRECISION g = Np.Fin 0) /\
    (column_sum fn rows == 0 -> glob_RECALL g = Np.NaN) /\
    (~ column_sum fn rows == 0 -> glob_RECALL g = Np.Fin 0).
Proof.
  intros Hne rows Htp.
  unfold global_statistics. rewrite (count_columns_ok _ Hne). cbn [bind].
  fold rows. eexists. split; [reflexivity|].
  unfold global_of_counts. cbn [glob_F1 glob_PRECISION glob_RECALL].
  set (TP := column_sum tp rows) in *.
  set (FP := column_sum fp rows). set (FN := column_sum fn rows).
  assert (T0 : Qeq_bool TP 0 = true) by now apply Qeq_bool_iff.
  assert (ratio : forall d,
            (d == 0 -> Np.fdiv (Np.Fin TP) (Np.Fin (TP + d)) = Np.NaN) /\
            (~ d == 0 ->
             exists q, Np.fdiv (Np.Fin TP) (Np.Fin (TP + d)) = Np.Fin q /\
                       q == 0)).
  { intros d. split; intros Hd; cbn [Np.fdiv].
    - assert (E : Qeq_bool (TP + d) 0 = true).
      { apply Qeq_bool_iff. rewrite Htp, Hd. reflexivity. }
      now rewrite E, T0.
    - assert (E : Qeq_bool (TP + d) 0 = false).
      { destruct (Qeq_bool (TP + d) 0) eqn:E; [|reflexivity].
        apply Qeq_bool_iff in E. exfalso. apply Hd. rewrite <- E, Htp. ring. }
      rewrite E. eexists. split; [reflexivity|].
      rewrite Htp. unfold Qdiv. ring. }
  destruct (ratio FP) as [PN PZ]. destruct (ratio FN) as [RN RZ].
  split; [|split; [|split; [|split]]].
  - destruct (Qeq_dec FP 0) as [HP|HP].
    + rewrite (PN HP). reflexivity.
    + destruct (PZ HP) as [p [-> Hp]].
      destruct (Qeq_dec FN 0) as [HR|HR].
      * rewrite (RN HR). reflexivity.
      * destruct (RZ HR) as [r [-> Hr]].
        cbn [Np.fmul Np.fadd Np.fdiv].
        assert (E1 : Qeq_bool (p + r) 0 = true).
        { apply Qeq_bool_iff. rewrite Hp, Hr. reflexivity. }
        assert (E2 : Qeq_bool (2 * (p * r)) 0 = true).
        { apply Qeq_bool_iff. rewrite Hp, Hr. reflexivity. }
        rewrite E1, E2. reflexivity.
  - intros HP. now rewrite (PN HP).
  - intros HP. destruct (PZ HP) as [p [-> Hp]]. cbn [Np.fround].
    f_equal. now rewrite (round_comp p 0 4 Hp).
  - intros HR. now rewrite (RN HR).
  - intros HR. destruct (RZ HR) as [r [-> Hr]]. cbn [Np.fround].
    f_equal. now rewrite (round_comp r 0 4 Hr).
Qed.

(** A table of one clip where nothing was found and nothing was there. *)
Lemma global_statistics_no_true_positive_witness :
  exists g,
    global_statistics
      [IoU_row (mkIoUStats "d/" "a.wav" "bird" 0 2 0 0 0 0)] "bird" = Ok g /\
    glob_F1 g = Np.NaN /\ glob_PRECISION g = Np.NaN /\
    glob_RECALL g = Np.Fin 0.
Proof.
  destruct (global_statistics_no_true_positive
              [IoU_row (mkIoUStats "d/" "a.wav" "bird" 0 2 0 0 0 0)] "bird"
              ltac:(discriminate) ltac:(reflexivity))
    as (g & E & F & P & _ & _ & R).
  exists g. split; [exact E|]. split; [exact F|]. split.
  - apply P. reflexivity.
  - apply R. vm_compute. discriminate.
Defined.

(** X11: [class_statistics] returns one row per class, in order of first
    occurrence and labelled with the class, and the rows partition the
    table: their true positives, false negatives and false positives add up
    to the sums of the whole table. *)
Theorem class_statistics_partition (clip_statistics : stats_table) :
  clip_statistics <> [] ->
  let rows := map counts_of clip_statistics in
  exists per_class,
    class_statistics clip_statistics = Ok per_class /\
    map glob_MANUAL_ID per_class = Py.unique (map class_of rows) /\
    fold_left Qplus (map glob_TRUE_POSITIVE per_class) 0
      == column_sum tp rows /\
    fold_left Qplus (map glob_FALSE_NEGATIVE per_class) 0
      == column_sum fn rows /\
    fold_left Qplus (map glob_FALSE_POSITIVE per_class) 0
      == column_sum fp rows.
Proof.
  intros Hne rows.
  unfold class_statistics. rewrite (count_columns_ok _ Hne). cbn [bind].
  fold rows. eexists. split; [reflexivity|].
  rewrite !map_map. cbn [glob_MANUAL_ID glob_TRUE_POSITIVE
                         glob_FALSE_NEGATIVE glob_FALSE_POSITIVE
                         global_of_counts].
  assert (Hin : forall r, In r rows ->
                          In (class_of r) (Py.unique (map class_of rows))).
  { intros r Hr. apply unique_In. now apply in_map. }
  split; [apply map_id|].
  split; [|split]; apply class_sums; try assumption; apply unique_NoDup.
Qed.

Lemma class_statistics_partition_witness :
  exists per_class,
    class_statistics
      [IoU_row (mkIoUStats "d/" "a.wav" "owl" 1 1 0 1 (1 # 2) (6667 # 10000));
       IoU_row (mkIoUStats "d/" "a.wav" "wren" 2 0 1 (6667 # 10000) 1 (4 # 5));
       IoU_row (mkIoUStats "d/" "b.wav" "owl" 1 0 3 (1 # 4) 1 (2 # 5))]
    = Ok per_class /\
    map glob_MANUAL_ID per_class = ["owl"; "wren"]%string /\
    fold_left Qplus (map glob_TRUE_POSITIVE per_class) 0 == 4.
Proof.
  destruct (class_statistics_partition
              [IoU_row (mkIoUStats "d/" "a.wav" "owl" 1 1 0 1 (1 # 2)
                          (6667 # 10000));
               IoU_row (mkIoUStats "d/" "a.wav" "wren" 2 0 1 (6667 # 10000) 1
                          (4 # 5));
               IoU_row (mkIoUStats "d/" "b.wav" "owl" 1 0 3 (1 # 4) 1 (2 # 5))]
              ltac:(discriminate))
    as (per_class & E & N & T & _).
  exists per_class. split; [exact E|]. split; [exact N|].
  rewrite T. reflexivity.
Defined.

End AggregationExtras.

(** ** The general table and the dataset statistics *)

Section GeneralUnion.
Import statistics run_rows_view.
Local Open Scope Q_scope.

(** Whenever [clip_general] returns, the union is the sum of the true
    positives, the false negatives and the false positives. *)
Lemma clip_general_union (automated_df human_df : DataFrame)
    (s : GeneralStats) :
  clip_general automated_df human_df = Ok s ->
  gen_UNION s
  == gen_TRUE_POSITIVE s + gen_FALSE_NEGATIVE s + gen_FALSE_POSITIVE s.
Proof.
  unfold clip_general.
  destruct (Py.unique (map MANUAL_ID human_df)) as [|c cs];
    cbn [bind]; [discriminate|].
  destruct automated_df as [|r0 rest]; cbn [first_value bind]; [discriminate|].
  set (sr := SAMPLE_RATE r0).
  set (n := Py.int (inject_Z sr * CLIP_LENGTH r0)).
  unfold Np.zeros. destruct (n <? 0)%Z eqn:En; cbn [bind]; [discriminate|].
  apply Z.ltb_ge in En. cbv zeta.
  set (H := place_labels (inject_Z sr) human_df (repeat 0%Z (Z.to_nat n))).
  set (B := place_labels (inject_Z sr) (r0 :: rest) (repeat 0%Z (Z.to_nat n))).
  assert (bH : binary H) by apply place_labels_binary, zeros_binary.
  assert (bB : binary B) by apply place_labels_binary, zeros_binary.
  assert (lH : List.length H = Z.to_nat n)
    by (unfold H; rewrite place_labels_length; apply repeat_length).
  assert (lB : List.length B = Z.to_nat n)
    by (unfold B; rewrite place_labels_length; apply repeat_length).
  destruct (confusion_counts H B bH bB) as [_ E2]; [congruence|].
  cbv zeta in E2. unfold multiply in E2.
  set (c5 := Np.count_eq (map (fun p => if (_ =? 2)%Z then 1%Z else _) _) 1)
    in *.
  set (c1 := Np.count_eq (map _ (combine H B)) 1) in *.
  set (c2 := Np.count_eq (map _ (combine H (map _ B))) 1) in *.
  set (c3 := Np.count_eq (map _ (combine (map _ H) B)) 1) in *.
  set (c4 := Np.count_eq (map _ (combine (map _ H) (map _ B))) 1) in *.
  clearbody c1 c2 c3 c4 c5.
  unfold Py.truediv at 1 2 3 4 5.
  destruct (Qeq_bool (inject_Z sr) 0); cbn [bind]; [discriminate|].
  destruct (try_except _ _ _) as [[[[f1 p] r] iou]|e]; cbn [bind];
    [|discriminate].
  intros [= <-].
  cbn [gen_UNION gen_TRUE_POSITIVE gen_FALSE_NEGATIVE gen_FALSE_POSITIVE].
  rewrite E2, !inject_Z_plus. unfold Qdiv. ring.
Qed.

Variables (automated_df manual_df : DataFrame) (threshold : Q).

(** The rows of a run in general mode. *)
Lemma general_rows (clips : list string) (table : stats_table) :
  Forall2 (row_of_clip automated_df manual_df "general" threshold)
          clips table ->
  Forall (fun row =>
            exists g, row = general_row g /\
                      gen_UNION g
                      == gen_TRUE_POSITIVE g + gen_FALSE_NEGATIVE g
                         + gen_FALSE_POSITIVE g) table.
Proof.
  induction 1 as [|clip row clips rows Hrow Hrest IH]; constructor;
    [|exact IH].
  unfold row_of_clip, clip_stats in Hrow.
  cbn [String.eqb Ascii.eqb Bool.eqb] in Hrow.
  destruct (clip_general _ _) as [g|e] eqn:Eg; cbn [bind] in Hrow;
    [|discriminate].
  injection Hrow as <-. exists g. split; [reflexivity|].
  exact (clip_general_union _ _ _ Eg).
Qed.

Lemma general_table_sums (table : stats_table) :
  Forall (fun row =>
            exists g, row = general_row g /\
                      gen_UNION g
                      == gen_TRUE_POSITIVE g + gen_FALSE_NEGATIVE g
                         + gen_FALSE_POSITIVE g) table ->
  general_sum gen_UNION table
  == column_sum tp (map counts_of table)
     + column_sum fn (map counts_of table)
     + column_sum fp (map counts_of table) /\
  (table <> [] -> existsb is_general table = true).
Proof.
  induction 1 as [|row rows [g [-> Hg]] Hrest [IH _]].
  - split; [reflexivity|congruence].
  - split; [|reflexivity].
    unfold general_sum in *. cbn [map]. rewrite !column_sum_cons, qsum_cons.
    cbn [counts_of tp fn fp]. rewrite IH, Hg. ring.
Qed.

End GeneralUnion.

Section DatasetExtras.
Import statistics run_rows_view.
Local Open Scope Q_scope.

(** X12: on the table of a run in general mode over at least one clip,
    [global_dataset_statistics] returns, and its Global IoU lies within
    one unit of the sixth digit of the summed true positives over the
    summed true positives, false negatives and false positives: the UNION
    column it divides by adds up to these three sums. *)
Theorem general_run_dataset_IoU (automated_df manual_df : DataFrame)
    (threshold : Q) (verbose : bool) (table : stats_table)
    (manual_id : string) :
  automated_labeling_statistics automated_df manual_df "general" threshold
    verbose = Ok table ->
  table <> [] ->
  let rows := map counts_of table in
  let TP := column_sum tp rows in
  let FN := column_sum fn rows in
  let FP := column_sum fp rows in
  exists d,
    global_dataset_statistics table manual_id = Ok d /\
    (~ TP + FN + FP == 0 ->
     exists q, data_Global_IoU d = Np.Fin q /\
               within (1 # 1000000) q (TP / (TP + FN + FP))).
Proof.
  intros Hrun Hne rows TP FN FP.
  destruct (run_table_rows _ _ _ _ _ _ Hrun) as [_ Hall].
  destruct (general_table_sums _ (general_rows _ _ _ _ _ Hall))
    as [Hsum Hgen].
  unfold global_dataset_statistics. rewrite (Hgen Hne). cbn [assert bind].
  eexists. split; [reflexivity|].
  cbn [data_Global_IoU]. fold rows TP FN FP in Hsum |- *.
  intros Hpos.
  rewrite fdiv_fin by (rewrite Hsum; exact Hpos).
  cbn [Np.fround].
  rewrite (round_comp (TP / general_sum gen_UNION table)
             (TP / (TP + FN + FP)) 6) by now rewrite Hsum.
  eexists. split; [reflexivity|apply round_within_6].
Qed.

(** One second of true positive out of six seconds labelled by either. *)
Lemma general_run_dataset_IoU_witness :
  exists d q,
    global_dataset_statistics general_run_examples.general_table "bird"
      = Ok d /\
    data_Global_IoU d = Np.Fin q /\ within (1 # 1000000) q (1 # 6).
Proof.
  destruct (general_run_dataset_IoU
              [general_examples.automated_0_4] [general_examples.human_3_6]
              (1 # 2) false general_run_examples.general_table "bird")
    as [d [E H]].
  - vm_compute. reflexivity.
  - discriminate.
  - destruct H as [q [Hq Hw]]; [vm_compute; discriminate|].
    exists d, q. split; [exact E|]. split; [exact Hq|].
    unfold within in *. cbv zeta in Hw.
    setoid_replace (1 # 6)
      with (column_sum tp (map counts_of general_run_examples.general_table)
            / (column_sum tp (map counts_of general_run_examples.general_table)
               + column_sum fn
                   (map counts_of general_run_examples.general_table)
               + column_sum fp
                   (map counts_of general_run_examples.general_table)))
      by reflexivity.
    exact Hw.
Defined.

End DatasetExtras.

(** ** Statistics class by class *)

Section Classes.
Import statistics class_view.

Lemma existsb_eqb_In (x : string) (l : list string) :
  existsb (String.eqb x) l = true <-> In x l.
Proof.
  rewrite existsb_exists. split.
  - intros [y [Hy E]]. apply String.eqb_eq in E. now subst.
  - intros H. exists x. split; [assumption|apply String.eqb_refl].
Qed.

Lemma existsb_unique (x : string) (l : list string) :
  existsb (String.eqb x) (Py.unique l) = existsb (String.eqb x) l.
Proof.
  destruct (existsb (String.eqb x) l) eqn:E.
  - apply existsb_eqb_In, unique_In. now apply existsb_eqb_In.
  - destruct (existsb _ (Py.unique l)) eqn:E'; [|reflexivity].
    apply (proj1 (existsb_eqb_In _ _)) in E'.
    apply (proj1 (unique_In _ _)) in E'.
    apply (proj2 (existsb_eqb_In _ _)) in E'. congruence.
Qed.

Lemma filter_swap {A} (p q : A -> bool) (l : list A) :
  filter p (filter q l) = filter q (filter p l).
Proof.
  induction l as [|x l IH]; [reflexivity|]. cbn [filter].
  destruct (p x) eqn:Ep, (q x) eqn:Eq; cbn [filter]; rewrite ?Ep, ?Eq, IH;
    reflexivity.
Qed.

Lemma filter_all {A} (p : A -> bool) (l : list A) :
  (forall x, In x l -> p x = true) -> filter p l = l.
Proof.
  induction l as [|x l IH]; intros H; [reflexivity|]. cbn [filter].
  rewrite (H x (or_introl eq_refl)), IH; [reflexivity|].
  intros; apply H; now right.
Qed.

Lemma filter_none {A} (p : A -> bool) (l : list A) :
  (forall x, In x l -> p x = false) -> filter p l = [].
Proof.
  induction l as [|x l IH]; intros H; [reflexivity|]. cbn [filter].
  rewrite (H x (or_introl eq_refl)), IH; [reflexivity|].
  intros; apply H; now right.
Qed.

(** The distinct values of a selection are the selection of the distinct
    values. *)
Lemma unique_filter (p : string -> bool) (l : list string) :
  Py.unique (filter p l) = filter p (Py.unique l).
Proof.
  induction l as [|x l IH]; [reflexivity|]. cbn [filter Py.unique].
  destruct (p x) eqn:Ep; cbn [Py.unique].
  - rewrite IH, filter_swap. reflexivity.
  - rewrite IH, filter_swap. symmetry. apply unique_notin_filter.
    rewrite filter_In. intros [_ C]. congruence.
Qed.

Lemma insert_sorted_In (x y : string) (l : list string) :
  In y (insert_sorted x l) -> y = x \/ In y l.
Proof.
  induction l as [|z l IH]; cbn [insert_sorted].
  - intros [<-|[]]. now left.
  - destruct (String.compare x z).
    + now right.
    + intros [<-|H]; [now left|now right].
    + intros [<-|H]; [right; now left|].
      destruct (IH H); [now left|right; now right].
Qed.

Lemma intersect1d_In (a b : list string) (x : string) :
  In x (intersect1d a b) -> In x a /\ In x b.
Proof.
  unfold intersect1d.
  assert (G : forall l, In x (fold_right insert_sorted [] l) -> In x l).
  { induction l as [|y l IH]; cbn [fold_right]; [auto|].
    intros H. destruct (insert_sorted_In _ _ _ H); [now left|right; auto]. }
  intros H. apply G, filter_In in H. destruct H as [Ha Hb].
  split; [assumption|now apply (proj1 (existsb_eqb_In _ _))].
Qed.

Lemma for_each_ext_In {X S} (f g : X -> S -> result S) (l : list X) (s : S) :
  (forall x s, In x l -> f x s = g x s) ->
  for_each l f s = for_each l g s.
Proof.
  revert s. induction l as [|x l IH]; intros s H; [reflexivity|].
  cbn [for_each]. rewrite (H x s (or_introl eq_refl)).
  destruct (g x s); cbn [bind]; [|reflexivity].
  apply IH. intros; apply H; now right.
Qed.

Variables (automated_df manual_df : DataFrame).

Lemma shared_classes_automated :
  map MANUAL_ID (filter (shared_class automated_df manual_df) automated_df)
  = filter (fun c => existsb (String.eqb c) (map MANUAL_ID manual_df))
           (map MANUAL_ID automated_df).
Proof.
  rewrite filter_map_comm. f_equal. apply filter_ext_in.
  intros r Hr. unfold shared_class.
  assert (E : existsb (String.eqb (MANUAL_ID r)) (map MANUAL_ID automated_df)
              = true) by (apply existsb_eqb_In; now apply in_map).
  now rewrite E.
Qed.

Lemma shared_classes_manual :
  map MANUAL_ID (filter (shared_class automated_df manual_df) manual_df)
  = filter (fun c => existsb (String.eqb c) (map MANUAL_ID automated_df))
           (map MANUAL_ID manual_df).
Proof.
  rewrite filter_map_comm. f_equal. apply filter_ext_in.
  intros r Hr. unfold shared_class.
  assert (E : existsb (String.eqb (MANUAL_ID r)) (map MANUAL_ID manual_df)
              = true) by (apply existsb_eqb_In; now apply in_map).
  rewrite E. apply andb_true_r.
Qed.

(** The classes looped over are the same after the rows of the classes
    found on one side only are dropped. *)
Lemma shared_class_list :
  intersect1d
    (Py.unique (map MANUAL_ID
                  (filter (shared_class automated_df manual_df)
                          automated_df)))
    (Py.unique (map MANUAL_ID
                  (filter (shared_class automated_df manual_df) manual_df)))
  = intersect1d (Py.unique (map MANUAL_ID automated_df))
                (Py.unique (map MANUAL_ID manual_df)).
Proof.
  unfold intersect1d. f_equal.
  rewrite shared_classes_automated, shared_classes_manual, !unique_filter.
  rewrite filter_all.
  - apply filter_ext_in. intros c _. now rewrite existsb_unique.
  - intros c Hc. apply filter_In in Hc. destruct Hc as [Hc Hm].
    apply (proj1 (unique_In _ _)) in Hc.
    apply (proj1 (existsb_eqb_In _ _)) in Hm.
    apply (proj2 (existsb_eqb_In _ _)). apply filter_In. split.
    + now apply (proj2 (unique_In _ _)).
    + now apply (proj2 (existsb_eqb_In _ _)).
Qed.

Lemma class_rows_shared (df : DataFrame) (class_ : string) :
  In class_ (map MANUAL_ID automated_df) ->
  In class_ (map MANUAL_ID manual_df) ->
  filter (fun r => String.eqb (MANUAL_ID r) class_)
         (filter (shared_class automated_df manual_df) df)
  = filter (fun r => String.eqb (MANUAL_ID r) class_) df.
Proof.
  intros Ha Hm. rewrite filter_swap. apply filter_all.
  intros r Hr. apply filter_In in Hr. destruct Hr as [_ E].
  apply String.eqb_eq in E. unfold shared_class. rewrite E.
  apply andb_true_iff. split; now apply existsb_eqb_In.
Qed.

End Classes.

Section ClassExtras.
Import statistics class_view.

(** X13: when no class is found in both tables, [clip_statistics] returns
    the empty table, whatever the mode and the threshold: the loop over the
    classes does not run and nothing is checked. *)
Theorem clip_statistics_no_common_class (automated_df manual_df : DataFrame)
    (stats_type : string) (threshold : Q) :
  (forall r r', In r automated_df -> In r' manual_df ->
                MANUAL_ID r <> MANUAL_ID r') ->
  clip_statistics automated_df manual_df stats_type threshold = Ok [].
Proof.
  intros Hno. unfold clip_statistics, intersect1d.
  rewrite filter_none; [reflexivity|].
  intros c Hc. apply (proj1 (unique_In _ _)) in Hc. apply in_map_iff in Hc.
  destruct Hc as [r [<- Hr]].
  destruct (existsb _ _) eqn:E; [|reflexivity].
  apply (proj1 (existsb_eqb_In _ _)) in E.
  apply (proj1 (unique_In _ _)) in E. apply in_map_iff in E.
  destruct E as [r' [E Hr']]. exfalso. exact (Hno r r' Hr Hr' (eq_sym E)).
Qed.

Lemma clip_statistics_no_common_class_witness :
  clip_statistics [class_examples.automated_wren]
                  [class_examples.manual_owl; class_examples.manual_lark]
                  "no such mode" 7
  = Ok [].
Proof.
  apply clip_statistics_no_common_class.
  intros r r' [<-|[]] [<-|[<-|[]]]; discriminate.
Defined.

(** X14: the rows of the classes found in one table only play no part in
    [clip_statistics]: dropping them from both tables gives the same
    result, be it a table or an error. *)
Theorem clip_statistics_shared_classes_only
    (automated_df manual_df : DataFrame) (stats_type : string)
    (threshold : Q) :
  clip_statistics (filter (shared_class automated_df manual_df) automated_df)
                  (filter (shared_class automated_df manual_df) manual_df)
                  stats_type threshold
  = clip_statistics automated_df manual_df stats_type threshold.
Proof.
  unfold clip_statistics. rewrite shared_class_list.
  apply for_each_ext_In. intros class_ s Hin.
  apply intersect1d_In in Hin. destruct Hin as [Ha Hm].
  apply (proj1 (unique_In _ _)) in Ha. apply (proj1 (unique_In _ _)) in Hm.
  unfold class_step. now rewrite !class_rows_shared.
Qed.

(** X25: when all rows of both tables carry one and the same class,
    [clip_statistics] is [automated_labeling_statistics] on the two
    tables: the same table, or the same error. *)
Theorem clip_statistics_single_class (automated_df manual_df : DataFrame)
    (stats_type : string) (threshold : Q) (class_ : string) :
  automated_df <> [] -> manual_df <> [] ->
  (forall r, In r automated_df -> MANUAL_ID r = class_) ->
  (forall r, In r manual_df -> MANUAL_ID r = class_) ->
  clip_statistics automated_df manual_df stats_type threshold
  = automated_labeling_statistics automated_df manual_df stats_type
      threshold true.
Proof.
  intros Ha Hm Hca Hcm.
  assert (single : forall df : DataFrame,
            df <> [] -> (forall r, In r df -> MANUAL_ID r = class_) ->
            Py.unique (map MANUAL_ID df) = [class_] /\
            filter (fun r => String.eqb (MANUAL_ID r) class_) df = df).
  { intros df Hne Hc. split.
    - destruct df as [|r df]; [congruence|]. clear Hne.
      cbn [map Py.unique]. rewrite (Hc r (or_introl eq_refl)). f_equal.
      apply filter_none. intros c Hin.
      apply (proj1 (unique_In _ _)) in Hin. apply in_map_iff in Hin.
      destruct Hin as [r' [<- Hr']].
      rewrite (Hc r' (or_intror Hr')). now rewrite String.eqb_refl.
    - apply filter_all. intros r Hr. rewrite (Hc r Hr).
      apply String.eqb_refl. }
  destruct (single automated_df Ha Hca) as [Ua Fa].
  destruct (single manual_df Hm Hcm) as [Um Fm].
  unfold clip_statistics. rewrite Ua, Um. unfold intersect1d.
  cbn [filter existsb]. rewrite String.eqb_refl.
  cbn [orb fold_right insert_sorted for_each]. unfold class_step.
  rewrite Fa, Fm.
  destruct (automated_labeling_statistics _ _ _ _ _); reflexivity.
Qed.

Lemma clip_statistics_single_class_witness :
  clip_statistics [IoU_examples.automated_0_10]
                  [IoU_examples.human_0_1; IoU_examples.human_5_6]
                  "IoU" (1 # 2)
  = automated_labeling_statistics [IoU_examples.automated_0_10]
      [IoU_examples.human_0_1; IoU_examples.human_5_6] "IoU" (1 # 2) true.
Proof.
  apply (clip_statistics_single_class _ _ _ _ "bird"%string).
  - discriminate.
  - discriminate.
  - intros r [<-|[]]. reflexivity.
  - intros r [<-|[<-|[]]]; reflexivity.
Defined.

End ClassExtras.

(** ** Catch scores *)

Section Catch.
Import statistics catch_view.

Lemma count_multiply_le (h b : list Z) :
  binary h -> Np.count_eq (multiply h b) 1 <= Np.count_eq h 1.
Proof.
  intros Hh. revert b. induction Hh as [|x h Hx Hh IH]; intros b.
  - cbn. lia.
  - destruct b as [|y b].
    + unfold multiply. cbn [combine map]. rewrite count_eq_cons.
      pose proof (count_eq_nonneg h 1). change (Np.count_eq [] 1) with 0.
      destruct (x =? 1); lia.
    + unfold multiply in *. cbn [combine map fst snd].
      rewrite !count_eq_cons. specialize (IH b).
      destruct Hx as [-> | ->].
      * cbn [Z.mul Z.eqb]. lia.
      * rewrite Z.mul_1_l. cbn [Z.eqb Pos.eqb]. destruct (y =? 1); lia.
Qed.

Lemma count_indicator (lo hi : Z) (l : list nat) :
  Np.count_eq (map (inside lo hi) l) 1 = sum_over l (inside lo hi).
Proof.
  induction l as [|k l IH]; [reflexivity|].
  cbn [map sum_over]. rewrite count_eq_cons, IH.
  unfold inside. destruct (_ && _); reflexivity.
Qed.

Lemma indicator_binary (lo hi : Z) (n : nat) : binary (indicator lo hi n).
Proof.
  unfold indicator. apply Forall_forall. intros x Hx.
  apply in_map_iff in Hx. destruct Hx as [k [<- _]].
  unfold inside. destruct (_ && _); auto.
Qed.

Lemma reset_binary (l : list Z) :
  binary l ->
  map (fun x => if x =? 1 then 0 else x) l = repeat 0 (List.length l).
Proof.
  induction 1 as [|x l Hx Hl IH]; [reflexivity|].
  cbn [map List.length repeat]. rewrite IH.
  destruct Hx as [-> | ->]; reflexivity.
Qed.

(** The slice [minval:maxval] holds at most [maxval - minval] samples. *)
Lemma slice_span (n minval maxval : Z) :
  0 <= n -> minval < maxval ->
  span (Py.slice_bound n minval) (Py.slice_bound n maxval)
  <= maxval - minval.
Proof.
  intros Hn Hlt. unfold span, Py.slice_bound.
  destruct (minval <? 0) eqn:E1, (maxval <? 0) eqn:E2; lia.
Qed.

(** One turn of the loop over the human labels, from a cleared array. *)
Lemma catch_step_spec (sample_rate : Z) (bot_arr : list Z) (row : Annotation)
    (catch_matrix : list Q) (n : nat) :
  exists shared,
    0 <= shared /\
    (0 < samples_in_label sample_rate row ->
     shared <= samples_in_label sample_rate row) /\
    catch_step sample_rate bot_arr row (catch_matrix, repeat 0 n) =
    if samples_in_label sample_rate row =? 0 then Raise ZeroDivisionError
    else Ok (catch_matrix ++
             [Py.round (inject_Z shared
                        / inject_Z (samples_in_label sample_rate row)) 4],
             repeat 0 n).
Proof.
  unfold catch_step, samples_in_label.
  destruct (label_bounds (inject_Z sample_rate) row) as [minval maxval].
  cbn [fst snd]. cbv zeta.
  rewrite setslice_zeros.
  set (lo := Py.slice_bound (Z.of_nat n) minval).
  set (hi := Py.slice_bound (Z.of_nat n) maxval).
  exists (Np.count_eq (multiply (indicator lo hi n) bot_arr) 1).
  split; [apply count_eq_nonneg|]. split.
  - intros Hpos.
    pose proof (count_multiply_le (indicator lo hi n) bot_arr
                  (indicator_binary lo hi n)) as Hle.
    unfold indicator in Hle at 2. rewrite count_indicator in Hle.
    rewrite sum_inside in Hle.
    + pose proof (slice_span (Z.of_nat n) minval maxval ltac:(lia)
                    ltac:(lia)) as Hs.
      fold lo hi in Hs. lia.
    + apply (slice_bound_range (Z.of_nat n) minval). lia.
    + apply (slice_bound_range (Z.of_nat n) maxval). lia.
  - unfold Py.truediv.
    assert (E : Qeq_bool (inject_Z (maxval - minval)) 0
                = (maxval - minval =? 0)).
    { destruct (maxval - minval =? 0) eqn:E0.
      - apply Z.eqb_eq in E0. rewrite E0. reflexivity.
      - apply Z.eqb_neq in E0.
        destruct (Qeq_bool _ 0) eqn:Eq; [|reflexivity].
        apply Qeq_bool_iff in Eq. unfold Qeq in Eq. cbn in Eq. lia. }
    rewrite E. destruct (maxval - minval =? 0); [reflexivity|].
    cbn [bind]. rewrite (reset_binary _ (indicator_binary lo hi n)).
    unfold indicator. now rewrite length_map, length_seq.
Qed.

Lemma catch_score_unit (shared samples : Z) :
  0 <= shared -> 0 < samples -> shared <= samples ->
  (0 <= Py.round (inject_Z shared / inject_Z samples) 4 <= 1)%Q.
Proof.
  intros H0 Hs Hle. apply round_unit_interval.
  assert (HsQ : (0 < inject_Z samples)%Q) by (rewrite <- (Zlt_Qlt 0); lia).
  split.
  - apply Qle_shift_div_l; [assumption|]. rewrite Qmult_0_l.
    rewrite <- (Zle_Qle 0). assumption.
  - apply Qle_shift_div_r; [assumption|]. rewrite Qmult_1_l.
    rewrite <- Zle_Qle. assumption.
Qed.

(** The loop over the human labels: it stops with ZeroDivisionError at the
    first label without samples, and otherwise adds one score per label. *)
Lemma catch_loop (sample_rate : Z) (bot_arr : list Z) (n : nat)
    (manual_df : DataFrame) (catch_matrix : list Q) :
  (Exists (fun row => samples_in_label sample_rate row = 0) manual_df ->
   for_each manual_df (catch_step sample_rate bot_arr)
            (catch_matrix, repeat 0 n) = Raise ZeroDivisionError) /\
  (Forall (fun row => samples_in_label sample_rate row <> 0) manual_df ->
   exists scores,
     for_each manual_df (catch_step sample_rate bot_arr)
              (catch_matrix, repeat 0 n)
     = Ok (catch_matrix ++ scores, repeat 0 n) /\
     List.length scores = List.length manual_df /\
     (Forall (fun row => 0 < samples_in_label sample_rate row) manual_df ->
      Forall (fun x => (0 <= x <= 1)%Q) scores)).
Proof.
  revert catch_matrix. induction manual_df as [|row df IH]; intros cm.
  - split.
    + intros H. inversion H.
    + intros _. exists []. rewrite app_nil_r.
      split; [reflexivity|]. split; [reflexivity|]. constructor.
  - destruct (catch_step_spec sample_rate bot_arr row cm n)
      as (shared & H0 & Hle & Hstep).
    cbn [for_each]. rewrite Hstep.
    destruct (samples_in_label sample_rate row =? 0) eqn:E.
    + apply Z.eqb_eq in E. split; [reflexivity|].
      intros H. inversion H; subst. contradiction.
    + apply Z.eqb_neq in E. cbn [bind].
      destruct (IH (cm ++ [Py.round (inject_Z shared
                             / inject_Z (samples_in_label sample_rate row))
                             4])) as [IH1 IH2].
      split.
      * intros H. inversion H; subst; [contradiction|]. now apply IH1.
      * intros H. inversion H as [|? ? _ Hdf]; subst.
        destruct (IH2 Hdf) as (scores & Hrun & Hlen & Hunit).
        eexists (_ :: scores). rewrite Hrun, <- app_assoc.
        split; [reflexivity|]. split; [cbn [List.length]; now rewrite Hlen|].
        intros Hpos. inversion Hpos as [|? ? Hrow Hrest]; subst.
        constructor; [|now apply Hunit].
        apply catch_score_unit; [assumption|assumption|now apply Hle].
Qed.

Lemma clip_catch_loop (automated_df manual_df : DataFrame)
    (r0 : Annotation) (rest : DataFrame) :
  automated_df = r0 :: rest ->
  0 <= Py.int (CLIP_LENGTH r0 * inject_Z (SAMPLE_RATE r0)) ->
  exists bot_arr n,
    clip_catch automated_df manual_df =
    (s <- for_each manual_df (catch_step (SAMPLE_RATE r0) bot_arr)
            ([], repeat 0 n) ;;
     Ok (fst s)).
Proof.
  intros -> Hn. unfold clip_catch. cbn [first_value bind].
  unfold Np.zeros.
  destruct (_ <? 0) eqn:E; [lia|]. cbn [bind].
  eexists. eexists. reflexivity.
Qed.

(** A label with offset and duration at or above zero ends on or after
    the sample it starts on. *)
Lemma samples_nonneg (sample_rate : Z) (row : Annotation) :
  0 <= sample_rate -> (0 <= OFFSET row)%Q -> (0 <= DURATION row)%Q ->
  0 <= samples_in_label sample_rate row.
Proof.
  intros Hsr Ho Hd. unfold samples_in_label, label_bounds. cbn [fst snd].
  assert (HsrQ : (0 <= inject_Z sample_rate)%Q)
    by (rewrite <- (Zle_Qle 0); assumption).
  assert (H : Py.int_round (OFFSET row * inject_Z sample_rate)
              <= Py.int_round ((OFFSET row + DURATION row)
                               * inject_Z sample_rate)).
  { apply int_round_mono. apply Qmult_le_compat_r; [lra|assumption]. }
  lia.
Qed.

(** What [clip_catch] returns, whenever it returns. *)
Lemma clip_catch_returns (automated_df manual_df : DataFrame)
    (r0 : Annotation) (rest : DataFrame) (scores : list Q) :
  automated_df = r0 :: rest ->
  clip_catch automated_df manual_df = Ok scores ->
  List.length scores = List.length manual_df /\
  (0 <= SAMPLE_RATE r0 ->
   Forall (fun row => (0 <= OFFSET row)%Q /\ (0 <= DURATION row)%Q)
          manual_df ->
   Forall (fun x => (0 <= x <= 1)%Q) scores).
Proof.
  intros Ha Hrun.
  assert (Hn : 0 <= Py.int (CLIP_LENGTH r0 * inject_Z (SAMPLE_RATE r0))).
  { subst automated_df. unfold clip_catch in Hrun.
    cbn [first_value bind] in Hrun. unfold Np.zeros in Hrun.
    destruct (_ <? 0) eqn:E; [discriminate|]. lia. }
  destruct (clip_catch_loop automated_df manual_df r0 rest Ha Hn)
    as (bot_arr & n & Hloop).
  rewrite Hloop in Hrun.
  destruct (catch_loop (SAMPLE_RATE r0) bot_arr n manual_df [])
    as [Hzero Hnonzero].
  destruct (Forall_Exists_dec
              (fun row => samples_in_label (SAMPLE_RATE r0) row <> 0)
              (fun row =>
                 match Z.eq_dec (samples_in_label (SAMPLE_RATE r0) row) 0
                 with
                 | left E => right (fun C => C E)
                 | right N => left N
                 end) manual_df) as [Hall|Hex].
  - destruct (Hnonzero Hall) as (scores' & Hfor & Hlen & Hunit).
    rewrite Hfor in Hrun. cbn [bind fst app] in Hrun.
    injection Hrun as <-. split; [exact Hlen|].
    intros Hsr Hrows. apply Hunit.
    apply Forall_forall. intros row Hrow.
    pose proof (proj1 (Forall_forall _ _) Hall row Hrow) as Hne.
    pose proof (proj1 (Forall_forall _ _) Hrows row Hrow) as [Ho Hd].
    cbv beta in Hne.
    pose proof (samples_nonneg (SAMPLE_RATE r0) row Hsr Ho Hd). lia.
  - exfalso. rewrite Hzero in Hrun; [discriminate|].
    eapply Exists_impl; [|exact Hex]. cbv beta. intros row Hrow. lia.
Qed.

End Catch.

Section CatchExtras.
Import statistics catch_view.

(** X15: whenever [clip_catch] returns, it returns one score per human
    label; and when offsets and durations of the human labels and the
    sample rate are not negative, every score lies between 0 and 1. *)
Theorem clip_catch_unit (automated_df manual_df : DataFrame)
    (r0 : Annotation) (rest : DataFrame) (scores : list Q) :
  automated_df = r0 :: rest ->
  clip_catch automated_df manual_df = Ok scores ->
  List.length scores = List.length manual_df /\
  (0 <= SAMPLE_RATE r0 ->
   Forall (fun row => (0 <= OFFSET row)%Q /\ (0 <= DURATION row)%Q)
          manual_df ->
   Forall (fun x => (0 <= x <= 1)%Q) scores).
Proof.
  intros Ha Hrun.
  exact (clip_catch_returns automated_df manual_df r0 rest scores Ha Hrun).
Qed.

(** A third of the human label over [3,6] s is caught by the automated
    label over [0,4] s. *)
Lemma clip_catch_unit_witness :
  exists scores,
    clip_catch [general_examples.automated_0_4] [general_examples.human_3_6]
    = Ok scores /\
    List.length scores = 1%nat /\
    Forall (fun x => (0 <= x <= 1)%Q) scores.
Proof.
  exists [3333 # 10000].
  assert (Hrun : clip_catch [general_examples.automated_0_4]
                            [general_examples.human_3_6]
                 = Ok [3333 # 10000]) by (vm_compute; reflexivity).
  split; [exact Hrun|].
  destruct (clip_catch_unit [general_examples.automated_0_4]
              [general_examples.human_3_6] general_examples.automated_0_4 []
              [3333 # 10000] eq_refl Hrun) as [Hlen Hunit].
  split; [exact Hlen|]. apply Hunit.
  - vm_compute. discriminate.
  - constructor; [|constructor]. split; vm_compute; discriminate.
Defined.

(** X16: a human label whose ends are placed without rounding error on
    the same sample makes [clip_catch] raise ZeroDivisionError, on a clip
    with a length and a sample rate that are not negative: its score
    divides by the number of samples between the ends. *)
Theorem clip_catch_zero_division (automated_df manual_df : DataFrame)
    (r0 : Annotation) (rest : DataFrame) :
  automated_df = r0 :: rest ->
  0 <= SAMPLE_RATE r0 -> (0 <= CLIP_LENGTH r0)%Q ->
  Exists (fun row =>
            exact_label (inject_Z (SAMPLE_RATE r0)) row = true /\
            samples_in_label (SAMPLE_RATE r0) row = 0) manual_df ->
  clip_catch automated_df manual_df = Raise ZeroDivisionError.
Proof.
  intros Ha Hsr Hlen Hzero.
  assert (Hn : 0 <= Py.int (CLIP_LENGTH r0 * inject_Z (SAMPLE_RATE r0))).
  { assert (HsrQ : (0 <= inject_Z (SAMPLE_RATE r0))%Q)
      by (rewrite <- (Zle_Qle 0); assumption).
    rewrite int_of_nonneg by (apply Qmult_le_0_compat; assumption).
    rewrite <- (Qfloor_Z 0). apply Qfloor_resp_le.
    now apply Qmult_le_0_compat. }
  destruct (clip_catch_loop automated_df manual_df r0 rest Ha Hn)
    as (bot_arr & n & ->).
  destruct (catch_loop (SAMPLE_RATE r0) bot_arr n manual_df []) as [H _].
  rewrite H; [reflexivity|].
  eapply Exists_impl; [|exact Hzero]. cbv beta. intros row [_ E]. exact E.
Qed.

(** The label of 2^-17 s has no sample at 44.1 kHz. *)
Lemma clip_catch_zero_division_witness :
  clip_catch [mkAnnotation "d/" "a.wav" 1 0 0 1 44100 "bird"]
             [exact_examples.brief_dyadic_label]
  = Raise ZeroDivisionError.
Proof.
  apply (clip_catch_zero_division _ _
           (mkAnnotation "d/" "a.wav" 1 0 0 1 44100 "bird") [] eq_refl).
  - vm_compute. discriminate.
  - vm_compute. discriminate.
  - constructor. split; reflexivity.
Defined.

End CatchExtras.

(** ** Catch scores over a dataset *)

Section DatasetCatch.
Import statistics catch_view.

Variables (automated_df manual_df : DataFrame).

Lemma map_fst_combine {A B} (l : list A) (l' : list B) :
  List.length l' = List.length l -> map fst (combine l l') = l.
Proof.
  revert l'. induction l as [|x l IH]; intros [|y l'] H; try discriminate;
    [reflexivity|].
  cbn [combine map fst]. f_equal. apply IH. now injection H.
Qed.

Lemma map_snd_combine {A B} (l : list A) (l' : list B) :
  List.length l' = List.length l -> map snd (combine l l') = l'.
Proof.
  revert l'. induction l as [|x l IH]; intros [|y l'] H; try discriminate;
    [reflexivity|].
  cbn [combine map snd]. f_equal. apply IH. now injection H.
Qed.

(** One turn of the loop over the clips, when it does not raise. *)
Lemma catch_clip_step_returns (clip : string)
    (manual_df_with_Catch out : list (Annotation * Q)) :
  catch_clip_step automated_df manual_df clip manual_df_with_Catch = Ok out ->
  exists scores,
    out = manual_df_with_Catch ++
          combine (filter (fun r => String.eqb (IN_FILE r) clip) manual_df)
                  scores /\
    List.length scores
    = List.length (filter (fun r => String.eqb (IN_FILE r) clip) manual_df) /\
    ((forall ra, In ra automated_df -> 0 <= SAMPLE_RATE ra) ->
     (forall rm, In rm manual_df ->
                 (0 <= OFFSET rm)%Q /\ (0 <= DURATION rm)%Q) ->
     Forall (fun x => (0 <= x <= 1)%Q) scores).
Proof.
  unfold catch_clip_step.
  destruct (clip_catch _ _) as [scores|e] eqn:Hrun; cbn [bind];
    [|discriminate].
  intros [= <-]. exists scores. split; [reflexivity|].
  destruct (filter (fun r => String.eqb (IN_FILE r) clip) automated_df)
    as [|r0 rest] eqn:Ha; [discriminate|].
  assert (H0 : In r0 automated_df).
  { assert (H : In r0 (filter (fun r => String.eqb (IN_FILE r) clip)
                              automated_df)) by (rewrite Ha; now left).
    apply filter_In in H. apply H. }
  destruct (clip_catch_returns (r0 :: rest) _ r0 rest scores eq_refl Hrun)
    as [Hlen Hunit].
  split; [exact Hlen|]. intros Hsr Hrows. apply Hunit; [now apply Hsr|].
  apply Forall_forall. intros rm Hrm. apply filter_In in Hrm.
  now apply Hrows.
Qed.

Lemma catch_clips_return (clips : list string)
    (manual_df_with_Catch out : list (Annotation * Q)) :
  for_each clips (catch_clip_step automated_df manual_df)
           manual_df_with_Catch = Ok out ->
  exists rows,
    out = manual_df_with_Catch ++ rows /\
    map fst rows
    = flat_map (fun clip =>
                  filter (fun r => String.eqb (IN_FILE r) clip) manual_df)
               clips /\
    ((forall ra, In ra automated_df -> 0 <= SAMPLE_RATE ra) ->
     (forall rm, In rm manual_df ->
                 (0 <= OFFSET rm)%Q /\ (0 <= DURATION rm)%Q) ->
     Forall (fun x => (0 <= x <= 1)%Q) (map snd rows)).
Proof.
  revert manual_df_with_Catch.
  induction clips as [|clip clips IH]; intros acc; cbn [for_each].
  - intros [= <-]. exists []. rewrite app_nil_r. repeat split. constructor.
  - destruct (catch_clip_step _ _ clip acc) as [acc'|e] eqn:Hstep;
      cbn [bind]; [|discriminate].
    intros Hrun.
    destruct (catch_clip_step_returns clip acc acc' Hstep)
      as (scores & -> & Hlen & Hunit).
    destruct (IH _ Hrun) as (rows & -> & Hrows & Hall).
    eexists (_ ++ rows). rewrite <- app_assoc. split; [reflexivity|].
    rewrite !map_app, map_fst_combine, map_snd_combine by assumption.
    cbn [flat_map]. rewrite Hrows. split; [reflexivity|].
    intros Hsr Hpos. apply Forall_app. split; auto.
Qed.

End DatasetCatch.

Section DatasetCatchExtras.
Import statistics catch_view.

(** X17: [dataset_Catch] pairs the clips by exact file name.  Whenever
    it returns, it returns the human rows of the automated clips, grouped
    clip by clip in the order in which the clips first occur in the
    automated table, each with its score; human rows of files without
    automated labels are left out.  When sample rates, offsets and
    durations are not negative, every score lies between 0 and 1. *)
Theorem dataset_Catch_rows (automated_df manual_df : DataFrame)
    (manual_df_with_Catch : list (Annotation * Q)) :
  dataset_Catch automated_df manual_df = Ok manual_df_with_Catch ->
  map fst manual_df_with_Catch
  = flat_map (fun clip =>
                filter (fun r => String.eqb (IN_FILE r) clip) manual_df)
             (Py.unique (map IN_FILE automated_df)) /\
  ((forall ra, In ra automated_df -> 0 <= SAMPLE_RATE ra) ->
   (forall rm, In rm manual_df ->
               (0 <= OFFSET rm)%Q /\ (0 <= DURATION rm)%Q) ->
   Forall (fun x => (0 <= x <= 1)%Q) (map snd manual_df_with_Catch)).
Proof.
  unfold dataset_Catch. intros Hrun.
  destruct (catch_clips_return automated_df manual_df _ _ _ Hrun)
    as (rows & -> & Hrows & Hunit).
  cbn [app]. split; assumption.
Qed.

(** The human label of a.wav is scored; the one of z.wav, a file without
    automated labels, is left out. *)
Lemma dataset_Catch_rows_witness :
  exists manual_df_with_Catch,
    dataset_Catch [general_examples.automated_0_4]
                  [pairing_examples.manual_row "z.wav";
                   general_examples.human_3_6]
    = Ok manual_df_with_Catch /\
    map fst manual_df_with_Catch = [general_examples.human_3_6].
Proof.
  exists [(general_examples.human_3_6, 3333 # 10000)].
  assert (Hrun : dataset_Catch [general_examples.automated_0_4]
                   [pairing_examples.manual_row "z.wav";
                    general_examples.human_3_6]
                 = Ok [(general_examples.human_3_6, 3333 # 10000)])
    by (vm_compute; reflexivity).
  split; [exact Hrun|].
  exact (proj1 (dataset_Catch_rows _ _ _ Hrun)).
Defined.

End DatasetCatchExtras.

(** ** The chunker: overlap and the chunk length zero *)

Section Overlap.
Import annotation_post_processing chunker_view.

Variable l : Z.
Hypothesis l_pos : 0 < l.

(** A window is hit exactly when a label holds one of its milliseconds. *)
Lemma window_hit_overlap (clip_len : Q) (species_df : DataFrame) (index : Z) :
  (inject_Z l <= clip_len)%Q ->
  0 <= index < Py.int clip_len / l ->
  window_hit (inject_Z l) (Py.int (clip_len * 1000))
    (place_labels 1000 species_df
       (repeat 0 (Z.to_nat (Py.int (clip_len * 1000))))) index = true
  <->
  exists row k,
    In row species_df /\
    index * l * 1000 <= k < (index + 1) * l * 1000 /\
    in_label (Py.int (clip_len * 1000)) 1000 k row = true.
Proof.
  intros Hlong Hi. unfold window_hit.
  rewrite (chunk_start_int l), (chunk_end_int l l_pos clip_len Hlong index Hi).
  pose proof (window_inside l l_pos clip_len Hlong index Hi) as Hw.
  pose proof (arr_len_nonneg l l_pos clip_len Hlong) as Hn.
  set (n := Py.int (clip_len * 1000)) in *.
  set (arr := place_labels _ _ _).
  assert (Hlen : Z.of_nat (List.length arr) = n).
  { unfold arr. rewrite place_labels_length, repeat_length. lia. }
  rewrite getslice_exists by nia. split.
  - intros [k [Hk H1]]. unfold arr in H1.
    rewrite place_labels_zeros_nth in H1.
    rewrite !Z2Nat.id in H1 by lia.
    destruct (covered n 1000 species_df k) eqn:E; [|discriminate].
    unfold covered in E. apply existsb_exists in E.
    destruct E as [row [Hrow Hin]]. exists row, k. auto.
  - intros [row [k [Hrow [Hk Hin]]]]. exists k. split; [assumption|].
    unfold arr. rewrite place_labels_zeros_nth.
    rewrite !Z2Nat.id by nia.
    assert (E : covered n 1000 species_df k = true).
    { unfold covered. apply existsb_exists. exists row. auto. }
    now rewrite E.
Qed.

Lemma chunk_row_index (path file bird : string) (clip_len : Q) (sr : Z)
    (i j : Z) :
  chunk_row path file bird clip_len sr (inject_Z l) i
  = chunk_row path file bird clip_len sr (inject_Z l) j ->
  i = j.
Proof.
  intros E. apply (f_equal (label_bounds 1000)) in E.
  rewrite !label_bounds_chunk_row in E. injection E as E _. nia.
Qed.

(** The rows of one clip. *)
Lemma clip_chunks_overlap (df : DataFrame) (clip bird : string)
    (r0 : Annotation) (rest : DataFrame) (index : Z) :
  filter (fun r => String.eqb (FILEPATH r) clip) df = r0 :: rest ->
  (inject_Z l <= CLIP_LENGTH r0)%Q ->
  0 <= index < Py.int (CLIP_LENGTH r0) / l ->
  In (chunk_row (FOLDER r0) (IN_FILE r0) bird (CLIP_LENGTH r0)
                (SAMPLE_RATE r0) (inject_Z l) index)
     (clip_chunks df l clip)
  <->
  exists row k,
    In row (r0 :: rest) /\ MANUAL_ID row = bird /\
    index * l * 1000 <= k < (index + 1) * l * 1000 /\
    in_label (Py.int (CLIP_LENGTH r0 * 1000)) 1000 k row = true.
Proof.
  intros Hclip Hlong Hi. unfold clip_chunks. rewrite Hclip.
  assert (Hq : Qle_bool (inject_Z l) (CLIP_LENGTH r0) = true)
    by now apply Qle_bool_iff.
  rewrite Hq. rewrite in_flat_map. split.
  - intros [bird' [Hb Hin]].
    pose proof (bird_chunks_key l _ _ _ _ _ _ _ Hin) as Hkey.
    cbn [chunk_row MANUAL_ID] in Hkey. subst bird'.
    unfold bird_chunks in Hin. apply in_map_iff in Hin.
    destruct Hin as [j [Hj Hin]]. apply chunk_row_index in Hj. subst j.
    apply filter_In in Hin. destruct Hin as [_ Hhit].
    apply (window_hit_overlap _ _ _ Hlong Hi) in Hhit.
    destruct Hhit as [row [k [Hrow [Hk Hin]]]].
    apply filter_In in Hrow. destruct Hrow as [Hrow Hid].
    apply String.eqb_eq in Hid. exists row, k. auto.
  - intros [row [k [Hrow [Hid [Hk Hin]]]]]. exists bird. split.
    + apply (proj2 (unique_In _ _)). apply in_map_iff. exists row. auto.
    + unfold bird_chunks. apply in_map_iff. exists index.
      split; [reflexivity|]. apply filter_In.
      split; [now apply range_In|].
      apply (window_hit_overlap _ _ _ Hlong Hi). exists row, k.
      split; [|auto]. apply filter_In. split; [assumption|].
      rewrite Hid. apply String.eqb_refl.
Qed.

Lemma chunks_overlap (df : DataFrame) (clip bird : string)
    (r0 : Annotation) (rest : DataFrame) (index : Z) :
  filter (fun r => String.eqb (FILEPATH r) clip) df = r0 :: rest ->
  (inject_Z l <= CLIP_LENGTH r0)%Q ->
  0 <= index < Py.int (CLIP_LENGTH r0) / l ->
  In (chunk_row (FOLDER r0) (IN_FILE r0) bird (CLIP_LENGTH r0)
                (SAMPLE_RATE r0) (inject_Z l) index)
     (chunks df l)
  <->
  exists row k,
    In row (r0 :: rest) /\ MANUAL_ID row = bird /\
    index * l * 1000 <= k < (index + 1) * l * 1000 /\
    in_label (Py.int (CLIP_LENGTH r0 * 1000)) 1000 k row = true.
Proof.
  intros Hclip Hlong Hi.
  rewrite <- (clip_chunks_overlap df clip bird r0 rest index Hclip Hlong Hi).
  assert (H0 : In r0 df /\ FILEPATH r0 = clip).
  { assert (H : In r0 (filter (fun r => String.eqb (FILEPATH r) clip) df))
      by (rewrite Hclip; now left).
    apply filter_In in H. destruct H as [H E].
    apply String.eqb_eq in E. auto. }
  destruct H0 as [H0 Hpath].
  unfold chunks. rewrite in_flat_map. split.
  - intros [clip' [_ Hin]].
    pose proof (clip_chunks_key l df clip' _ Hin) as Hkey.
    unfold FILEPATH in Hkey, Hpath. cbn [chunk_row FOLDER IN_FILE] in Hkey.
    now replace clip with clip' by congruence.
  - intros Hin. exists clip. split; [|assumption].
    apply (proj2 (unique_In _ _)). apply in_map_iff. exists r0. auto.
Qed.

End Overlap.

Section ChunkerExtras.
Import annotation_post_processing chunker_view.

(** X18: with a chunk length that is a positive integer, a class of a
    clip gets the row of a window exactly when some label of that class
    in the clip holds at least one millisecond of the window, the labels
    being placed by rounding their ends to milliseconds.  Any overlap
    marks the chunk, and several labels in a window give one row.  The
    statement is for a clip whose length in milliseconds and whose labels
    of that class are placed without rounding error. *)
Theorem chunker_marks_any_overlap (df : DataFrame) (l : Z)
    (clip bird : string) (r0 : Annotation) (rest : DataFrame) (index : Z) :
  0 < l ->
  filter (fun r => String.eqb (FILEPATH r) clip) df = r0 :: rest ->
  (inject_Z l <= CLIP_LENGTH r0)%Q ->
  0 <= index < Py.int (CLIP_LENGTH r0) / l ->
  exact_length 1000 (CLIP_LENGTH r0) = true ->
  (forall row, In row (r0 :: rest) -> MANUAL_ID row = bird ->
               exact_label 1000 row = true) ->
  exists out,
    annotation_chunker df (inject_Z l) = Ok out /\
    (In (chunk_row (FOLDER r0) (IN_FILE r0) bird (CLIP_LENGTH r0)
                   (SAMPLE_RATE r0) (inject_Z l) index) out
     <->
     exists row k,
       In row (r0 :: rest) /\ MANUAL_ID row = bird /\
       index * l * 1000 <= k < (index + 1) * l * 1000 /\
       in_label (Py.int (CLIP_LENGTH r0 * 1000)) 1000 k row = true).
Proof.
  intros Hl Hclip Hlong Hi _ _. exists (chunks df l).
  split; [now apply annotation_chunker_integer|].
  now apply (chunks_overlap l Hl df clip bird r0 rest index Hclip Hlong Hi).
Qed.

(** The label over [2.75, 3.25] s marks the window that starts at 3 s: it
    holds the millisecond 3000. *)
Lemma chunker_marks_any_overlap_witness :
  exists out,
    annotation_chunker [exact_examples.straddling_label] (inject_Z 3)
    = Ok out /\
    In (chunk_row "d/" "a.wav" "bird" 7 100 (inject_Z 3) 1) out.
Proof.
  destruct (chunker_marks_any_overlap
              [exact_examples.straddling_label] 3 "d/a.wav" "bird"
              exact_examples.straddling_label [] 1)
    as [out [Hrun Hiff]].
  - lia.
  - reflexivity.
  - vm_compute. discriminate.
  - vm_compute. split; [discriminate|reflexivity].
  - reflexivity.
  - intros row [<-|[]] _. reflexivity.
  - exists out. split; [exact Hrun|]. apply Hiff.
    exists exact_examples.straddling_label, 3000.
    split; [now left|]. split; [reflexivity|].
    split; [lia|]. vm_compute. reflexivity.
Defined.

(** X19: a chunk length whose integer part is zero makes the chunker raise
    ZeroDivisionError as soon as the first clip is at least as long as the
    chunk length: the number of chunks is int(clip_len) // int(chunk_length). *)
Theorem chunker_zero_chunk_length (kaleidoscope_df : DataFrame)
    (chunk_length : Q) (r : Annotation) (rest : DataFrame) :
  kaleidoscope_df = r :: rest ->
  Py.int chunk_length = 0 ->
  (chunk_length <= CLIP_LENGTH r)%Q ->
  annotation_chunker kaleidoscope_df chunk_length = Raise ZeroDivisionError.
Proof.
  intros -> Hint Hlong. unfold annotation_chunker.
  cbn [map Py.unique for_each]. unfold clip_step at 1.
  cbn [filter]. rewrite String.eqb_refl. cbn [first_value bind].
  assert (Hq : Qle_bool chunk_length (CLIP_LENGTH r) = true)
    by now apply Qle_bool_iff.
  rewrite Hq. cbn [negb]. rewrite Hint. reflexivity.
Qed.

Lemma chunker_zero_chunk_length_witness :
  annotation_chunker [chunker_examples.straddling_label] (1 # 2)
  = Raise ZeroDivisionError.
Proof.
  apply (chunker_zero_chunk_length _ _ chunker_examples.straddling_label []
           eq_refl).
  - reflexivity.
  - vm_compute. discriminate.
Defined.

End ChunkerExtras.

(** ** The arrays for the ROC curve: targets and confidences *)

Section LocalScore.
Import annotation_post_processing.
Local Open Scope Q_scope.

Lemma nth_range {A} (F : Z -> A) (n i : Z) (d : A) :
  (0 <= i < n)%Z -> nth (Z.to_nat i) (map F (Py.range n)) d = F i.
Proof.
  intros H. unfold Py.range. rewrite map_map.
  rewrite (nth_indep _ d (F (Z.of_nat 0)))
    by (rewrite length_map, length_seq; lia).
  rewrite (map_nth (fun k => F (Z.of_nat k))), seq_nth by lia.
  cbn [Nat.add]. now rewrite Z2Nat.id by lia.
Qed.

Lemma inject_Z_nonzero (z : Z) : z <> 0%Z -> ~ inject_Z z == 0.
Proof. intros H C. unfold Qeq in C. cbn in C. lia. Qed.

(** The entries of the local score of a clip. *)
Lemma convert_entries (manual_df : DataFrame) (size : Z)
    (r0 : Annotation) (rest : DataFrame) :
  manual_df = r0 :: rest ->
  (0 < size)%Z ->
  convert_label_to_local_score manual_df size =
  Ok (map (fun i =>
             match filter
                     (fun r =>
                        Qle_bool (OFFSET r)
                          (inject_Z i * (CLIP_LENGTH r0 / inject_Z size))
                        && Qle_bool
                             (inject_Z i * (CLIP_LENGTH r0 / inject_Z size))
                             (OFFSET r + DURATION r)) manual_df with
             | [] => 0%Z
             | _ => 1%Z
             end) (Py.range size)).
Proof.
  intros -> Hsize. unfold convert_label_to_local_score.
  cbn [iloc0 bind]. unfold Np.zeros.
  destruct (size <? 0)%Z eqn:E; [lia|]. cbn [bind].
  rewrite fdiv_fin by (apply inject_Z_nonzero; lia). reflexivity.
Qed.

Lemma convert_ok (manual_df : DataFrame) (size : Z) :
  manual_df <> [] -> (0 <= size)%Z ->
  exists out,
    convert_label_to_local_score manual_df size = Ok out /\
    List.length out = Z.to_nat size /\ binary out.
Proof.
  intros Hne Hsize. destruct manual_df as [|r0 rest]; [congruence|].
  unfold convert_label_to_local_score. cbn [iloc0 bind]. unfold Np.zeros.
  destruct (size <? 0)%Z eqn:E; [lia|]. cbn [bind].
  eexists. split; [reflexivity|]. split.
  - now rewrite length_map, range_length.
  - apply Forall_forall. intros x Hx. apply in_map_iff in Hx.
    destruct Hx as [i [<- _]]. destruct (filter _ _); auto.
Qed.

End LocalScore.

Section Targets.
Import annotation_post_processing roc_view.
Local Open Scope Q_scope.

Lemma insert_item_In (x y : item) (l : list item) :
  In y (insert_item x l) -> y = x \/ In y l.
Proof.
  induction l as [|z l IH]; cbn [insert_item].
  - intros [<-|[]]. now left.
  - destruct (item_compare x z).
    + now right.
    + intros [<-|H]; [now left|now right].
    + intros [<-|H]; [right; now left|].
      destruct (IH H); [now left|right; now right].
Qed.

Lemma np_unique_index_In (df : DataFrame) (it : item) :
  In it (np_unique_index df) ->
  exists r, In r df /\ (FOLDER r, IN_FILE r) = it.
Proof.
  unfold np_unique_index. induction df as [|r df IH]; cbn [map fold_right].
  - intros [].
  - intros H. apply insert_item_In in H. destruct H as [->|H].
    + exists r. split; [now left|reflexivity].
    + destruct (IH H) as [r' [Hr' E]]. exists r'. split; [now right|exact E].
Qed.

(** A pair found in the index has rows, and the first of them is a row of
    the table. *)
Lemma clip_rows_first (df : DataFrame) (it : item) :
  In it (np_unique_index df) ->
  exists r0 rest, clip_rows df it = r0 :: rest /\ In r0 df /\
                  IN_FILE r0 = snd it.
Proof.
  intros H. apply np_unique_index_In in H. destruct H as [r [Hr E]].
  assert (Hin : In r (clip_rows df it)).
  { unfold clip_rows. apply filter_In. split; [assumption|].
    rewrite <- E. cbn [fst snd]. now rewrite !String.eqb_refl. }
  destruct (clip_rows df it) as [|r0 rest] eqn:Hc; [destruct Hin|].
  exists r0, rest. split; [reflexivity|].
  assert (H0 : In r0 (clip_rows df it)) by (rewrite Hc; now left).
  unfold clip_rows in H0. apply filter_In in H0. destruct H0 as [H0 Hk].
  apply andb_true_iff in Hk. destruct Hk as [_ Hk].
  apply String.eqb_eq in Hk. auto.
Qed.

Variables (chunked_manual_df : DataFrame) (chunk_size : Q).
Hypothesis chunk_size_pos : 0 < chunk_size.
Hypothesis clip_lengths :
  forall r, In r chunked_manual_df -> 0 <= CLIP_LENGTH r.

Lemma target_step_ok (it : item) (t : list Z) (c : list chunk_size_entry) :
  In it (np_unique_index chunked_manual_df) ->
  exists (clip : list Z) (entry : chunk_size_entry),
    target_step chunked_manual_df chunk_size it (t, c)
    = Ok (t ++ clip, c ++ [entry]) /\
    List.length clip = Z.to_nat (fst (fst entry)) /\
    binary clip /\ snd entry = snd it.
Proof.
  intros Hin. destruct (clip_rows_first _ _ Hin) as (r0 & rest & Hc & H0 & _).
  unfold target_step. rewrite Hc. cbn [iloc0 bind].
  rewrite fdiv_fin by lra. cbn [Np.floor bind].
  assert (Hfloor : (0 <= Qfloor (CLIP_LENGTH r0 / chunk_size))%Z).
  { rewrite <- (Qfloor_Z 0). apply Qfloor_resp_le.
    change (inject_Z 0) with 0. apply Qle_shift_div_l; [assumption|].
    rewrite Qmult_0_l. now apply clip_lengths. }
  destruct (convert_ok (r0 :: rest) _ ltac:(discriminate) Hfloor)
    as (clip & Hrun & Hlen & Hbin).
  rewrite Hrun. cbn [bind]. eexists. eexists.
  split; [reflexivity|]. cbn [fst snd]. auto.
Qed.

Lemma target_loop (items : list item) (t : list Z)
    (c : list chunk_size_entry) :
  (forall it, In it items -> In it (np_unique_index chunked_manual_df)) ->
  exists (t' : list Z) (c' : list chunk_size_entry),
    for_each items (target_step chunked_manual_df chunk_size) (t, c)
    = Ok (t ++ t', c ++ c') /\
    List.length t' = recorded_chunks c' /\
    binary t' /\ map snd c' = map snd items.
Proof.
  revert t c. induction items as [|it items IH]; intros t c Hitems.
  - exists [], []. rewrite !app_nil_r. repeat split. constructor.
  - destruct (target_step_ok it t c (Hitems it (or_introl eq_refl)))
      as (clip & entry & Hstep & Hlen & Hbin & Hname).
    destruct (IH (t ++ clip) (c ++ [entry])) as (t' & c' & Hrun & Hl & Hb & Hn).
    { intros; apply Hitems; now right. }
    exists (clip ++ t'), (entry :: c'). cbn [for_each]. rewrite Hstep.
    cbn [bind]. rewrite Hrun, <- !app_assoc. split; [reflexivity|].
    split; [|split].
    + rewrite length_app, Hl, Hlen. reflexivity.
    + apply Forall_app. split; assumption.
    + cbn [map]. now rewrite Hname, Hn.
Qed.

End Targets.

Section Confidence.
Import annotation_post_processing.
Local Open Scope Q_scope.

Lemma max_score_nonneg (scores : list Q) (js : list Z) (m m' : Q) :
  for_each js (max_score_step scores) m = Ok m' -> 0 <= m -> 0 <= m'.
Proof.
  revert m. induction js as [|j js IH]; intros m; cbn [for_each].
  - now intros [= <-].
  - unfold max_score_step at 1.
    destruct (Py.getitem scores j) as [x|e]; cbn [bind]; [|discriminate].
    destruct (Qlt_le_dec m x) as [Hlt|Hle]; cbn [bind]; intros H Hm.
    + apply (IH x H). lra.
    + now apply (IH m H).
Qed.

Lemma chunk_scores_nonneg (clip_df : DataFrame) (scores : list Q)
    (chunk_length : Z) (indexes : list Z) (s s' : confidence_state) :
  for_each indexes (chunk_score_step clip_df scores chunk_length) s = Ok s' ->
  Forall (fun x => 0 <= x) (array_of_max_scores s) ->
  Forall (fun x => 0 <= x) (array_of_max_scores s').
Proof.
  revert s. induction indexes as [|index indexes IH]; intros s;
    cbn [for_each].
  - now intros [= <-].
  - unfold chunk_score_step at 1.
    destruct (iloc0 CLIP_LENGTH clip_df); cbn [bind]; [|discriminate].
    destruct (Np.floor _); cbn [bind]; [|discriminate].
    destruct (Np.floor _); cbn [bind]; [|discriminate].
    destruct (for_each _ _ 0) as [m|e] eqn:Hm; cbn [bind]; [|discriminate].
    intros H Hs. apply (IH _ H). cbn [array_of_max_scores].
    apply Forall_app. split; [assumption|].
    constructor; [|constructor].
    apply (max_score_nonneg _ _ _ _ Hm). lra.
Qed.

Lemma confidence_loop_nonneg (ls : list (string * list Q)) (df : DataFrame)
    (entries : list chunk_size_entry) (items : list item)
    (s : confidence_state) (f : flow confidence_state) :
  confidence_loop ls df entries items s = Ok f ->
  Forall (fun x => 0 <= x) (array_of_max_scores s) ->
  forall s', f = Continue s' \/ f = Break s' ->
             Forall (fun x => 0 <= x) (array_of_max_scores s').
Proof.
  unfold confidence_loop. revert s.
  induction items as [|it items IH]; intros s; cbn [for_each_break].
  - intros [= <-] Hs s' [[= <-]|C]; [assumption|discriminate].
  - unfold confidence_step at 1.
    destruct (lookup ls (snd it)) as [scores|e]; cbn [bind]; [|discriminate].
    destruct (iloc0 CLIP_LENGTH _); cbn [bind]; [|discriminate].
    destruct (Np.floor _) as [num_chunks|e]; cbn [bind]; [|discriminate].
    destruct (Py.getitem entries (k s)) as [target|e]; cbn [bind];
      [|discriminate].
    destruct (negb _).
    + destruct (report_mismatch _ _); cbn [bind]; [|discriminate].
      intros [= <-] Hs s' [C|[= <-]]; [discriminate|assumption].
    + destruct (iloc0 DURATION _); cbn [bind]; [|discriminate].
      destruct (Py.range_step _ _) as [indexes|e]; cbn [bind];
        [|discriminate].
      destruct (for_each indexes _ _) as [s1|e] eqn:Hchunks; cbn [bind];
        [|discriminate].
      intros H Hs. apply (IH s1 H).
      apply (chunk_scores_nonneg _ _ _ _ _ _ Hchunks). exact Hs.
Qed.

End Confidence.

Section RawLocal.
Import annotation_post_processing.

Variables (manual_df : DataFrame) (local_scoress : list (string * list Q)).

Hypothesis curves :
  forall r, In r manual_df ->
            exists scores, lookup local_scoress (IN_FILE r) = Ok scores.

Lemma raw_local_step_ok (it : item) (t : list Z) (c : list Q) :
  In it (np_unique_index manual_df) ->
  exists (target_clip : list Z) (scores : list Q),
    raw_local_step manual_df local_scoress it (t, c)
    = Ok (t ++ target_clip, c ++ scores) /\
    List.length target_clip = List.length scores /\ binary target_clip.
Proof.
  intros Hin. destruct (clip_rows_first _ _ Hin) as (r0 & rest & Hc & H0 & Hf).
  destruct (curves r0 H0) as [scores Hs]. rewrite Hf in Hs.
  unfold raw_local_step. rewrite Hs, Hc. cbn [iloc0 bind]. unfold Np.zeros.
  destruct (Z.of_nat (List.length scores) <? 0)%Z eqn:E;
    [apply Z.ltb_lt in E; lia|].
  cbn [bind].
  eexists. exists scores. split; [reflexivity|]. split.
  - rewrite length_map, range_length. lia.
  - apply Forall_forall. intros x Hx. apply in_map_iff in Hx.
    destruct Hx as [i [<- _]]. destruct (filter _ _); auto.
Qed.

Lemma raw_local_loop (items : list item) (t : list Z) (c : list Q) :
  (forall it, In it items -> In it (np_unique_index manual_df)) ->
  exists (t' : list Z) (c' : list Q),
    for_each items (raw_local_step manual_df local_scoress) (t, c)
    = Ok (t ++ t', c ++ c') /\
    List.length t' = List.length c' /\ binary t'.
Proof.
  revert t c. induction items as [|it items IH]; intros t c Hitems.
  - exists [], []. rewrite !app_nil_r. repeat split. constructor.
  - destruct (raw_local_step_ok it t c (Hitems it (or_introl eq_refl)))
      as (tc & scores & Hstep & Hlen & Hbin).
    destruct (IH (t ++ tc) (c ++ scores)) as (t' & c' & Hrun & Hl & Hb).
    { intros; apply Hitems; now right. }
    exists (tc ++ t'), (scores ++ c'). cbn [for_each]. rewrite Hstep.
    cbn [bind]. rewrite Hrun, <- !app_assoc. split; [reflexivity|].
    split.
    + rewrite !length_app. lia.
    + apply Forall_app. split; assumption.
Qed.

End RawLocal.

Section RocExtras.
Import annotation_post_processing roc_view.
Local Open Scope Q_scope.

(** X20: for a non-empty table and a positive size,
    [convert_label_to_local_score] returns an array of that size of zeros
    and ones, and entry [i] is 1 exactly when some row holds the instant
    [i * (clip_length / size)], both ends of the row included.  The
    statement is for instants and ends of rows that are computed without
    rounding error. *)
Theorem local_score_entries (manual_df : DataFrame) (size : Z)
    (r0 : Annotation) (rest : DataFrame) :
  manual_df = r0 :: rest ->
  (0 < size)%Z ->
  exact_instants (CLIP_LENGTH r0) size = true ->
  (forall row, In row manual_df -> exact_ends row = true) ->
  exists local_score,
    convert_label_to_local_score manual_df size = Ok local_score /\
    List.length local_score = Z.to_nat size /\
    binary local_score /\
    forall i, (0 <= i < size)%Z ->
      (nth (Z.to_nat i) local_score 0%Z = 1%Z <->
       exists row,
         In row manual_df /\
         OFFSET row <= inject_Z i * (CLIP_LENGTH r0 / inject_Z size)
                    <= OFFSET row + DURATION row).
Proof.
  intros Hdf Hsize _ _.
  destruct (convert_ok manual_df size) as (out & Hrun & Hlen & Hbin);
    [subst; discriminate|lia|].
  exists out. split; [exact Hrun|]. split; [exact Hlen|].
  split; [exact Hbin|].
  rewrite (convert_entries manual_df size r0 rest Hdf Hsize) in Hrun.
  injection Hrun as <-. intros i Hi.
  rewrite (nth_range _ size i 0%Z Hi).
  destruct (filter _ manual_df) as [|row rows] eqn:Hf.
  - split; [discriminate|]. intros [row [Hrow [H1 H2]]].
    assert (C : In row (filter
                (fun r =>
                   Qle_bool (OFFSET r)
                     (inject_Z i * (CLIP_LENGTH r0 / inject_Z size))
                   && Qle_bool
                        (inject_Z i * (CLIP_LENGTH r0 / inject_Z size))
                        (OFFSET r + DURATION r)) manual_df)).
    { apply filter_In. split; [assumption|].
      apply andb_true_iff. split; now apply Qle_bool_iff. }
    rewrite Hf in C. destruct C.
  - split; [|reflexivity]. intros _. exists row.
    assert (C : In row (filter
                (fun r =>
                   Qle_bool (OFFSET r)
                     (inject_Z i * (CLIP_LENGTH r0 / inject_Z size))
                   && Qle_bool
                        (inject_Z i * (CLIP_LENGTH r0 / inject_Z size))
                        (OFFSET r + DURATION r)) manual_df))
      by (rewrite Hf; now left).
    apply filter_In in C. destruct C as [Hrow Hc].
    apply andb_true_iff in Hc. destruct Hc as [H1 H2].
    split; [assumption|]. split; now apply Qle_bool_iff.
Qed.

(** On a nine-second clip in three parts, the row of the first window
    [0, 3] s holds the instants 0 and 3: it marks the second entry too. *)
Lemma local_score_entries_witness :
  exists local_score,
    convert_label_to_local_score roc_extra_examples.first_window 3
    = Ok local_score /\
    nth 1 local_score 0%Z = 1%Z.
Proof.
  destruct (local_score_entries roc_extra_examples.first_window 3
              roc_extra_examples.first_row [] eq_refl ltac:(lia))
    as (out & Hrun & _ & _ & Hentries).
  { reflexivity. }
  { intros row [<-|[]]. reflexivity. }
  exists out. split; [exact Hrun|].
  apply (Hentries 1%Z ltac:(lia)).
  exists roc_extra_examples.first_row.
  split; [now left|]. split; vm_compute; discriminate.
Defined.

(** X21: on a clip that is a whole number of chunks long, the row the
    chunker gives for window [j] marks two entries of the target array,
    [j] and [j + 1]: its end, the instant [(j + 1) * l], is the instant
    sampled for the next window and counts as held. *)
Theorem target_marks_following_chunk (clip_df : DataFrame) (l size j : Z)
    (r0 : Annotation) (rest : DataFrame) (path file bird : string) (sr : Z) :
  clip_df = r0 :: rest ->
  (0 < l)%Z ->
  CLIP_LENGTH r0 == inject_Z (size * l) ->
  (0 <= j)%Z -> (j + 1 < size)%Z ->
  In (chunk_row path file bird (CLIP_LENGTH r0) sr (inject_Z l) j) clip_df ->
  exists target_score_clip,
    convert_label_to_local_score clip_df size = Ok target_score_clip /\
    nth (Z.to_nat j) target_score_clip 0%Z = 1%Z /\
    nth (Z.to_nat (j + 1)) target_score_clip 0%Z = 1%Z.
Proof.
  intros Hdf Hl Hlen Hj Hj1 Hrow.
  assert (Hsize : (0 < size)%Z) by lia.
  destruct (convert_ok clip_df size) as (out & Hrun & _ & _);
    [subst; discriminate|lia|].
  exists out. split; [exact Hrun|].
  rewrite (convert_entries clip_df size r0 rest Hdf Hsize) in Hrun.
  injection Hrun as <-.
  assert (HlQ : 0 < inject_Z l) by (rewrite <- (Zlt_Qlt 0); assumption).
  assert (HsQ : 0 < inject_Z size) by (rewrite <- (Zlt_Qlt 0); assumption).
  assert (Hstep : CLIP_LENGTH r0 / inject_Z size == inject_Z l).
  { rewrite Hlen, inject_Z_mult. field. lra. }
  assert (Hmark : forall i, (i = j \/ i = j + 1)%Z ->
            match filter
                    (fun r =>
                       Qle_bool (OFFSET r)
                         (inject_Z i * (CLIP_LENGTH r0 / inject_Z size))
                       && Qle_bool
                            (inject_Z i * (CLIP_LENGTH r0 / inject_Z size))
                            (OFFSET r + DURATION r)) clip_df with
            | [] => 0%Z
            | _ => 1%Z
            end = 1%Z).
  { intros i Hi.
    assert (C : In (chunk_row path file bird (CLIP_LENGTH r0) sr
                              (inject_Z l) j)
                   (filter
                      (fun r =>
                         Qle_bool (OFFSET r)
                           (inject_Z i * (CLIP_LENGTH r0 / inject_Z size))
                         && Qle_bool
                              (inject_Z i * (CLIP_LENGTH r0 / inject_Z size))
                              (OFFSET r + DURATION r)) clip_df)).
    { apply filter_In. split; [assumption|].
      cbn [chunk_row OFFSET DURATION]. unfold chunk_start.
      assert (Ho : inject_Z j * (inject_Z l * 1000) / 1000
                   == inject_Z j * inject_Z l) by field.
      assert (Hi' : inject_Z i == inject_Z j \/
                    inject_Z i == inject_Z j + 1).
      { destruct Hi as [-> | ->]; [now left|right].
        rewrite inject_Z_plus. reflexivity. }
      apply andb_true_iff. split; apply Qle_bool_iff;
        rewrite Ho, Hstep; destruct Hi' as [-> | ->]; nra. }
    destruct (filter _ clip_df); [destruct C|reflexivity]. }
  split.
  - rewrite (nth_range _ size j 0%Z ltac:(lia)). apply Hmark. now left.
  - rewrite (nth_range _ size (j + 1) 0%Z ltac:(lia)). apply Hmark. now right.
Qed.

Lemma target_marks_following_chunk_witness :
  exists target_score_clip,
    convert_label_to_local_score roc_extra_examples.first_window 3
    = Ok target_score_clip /\
    nth 0 target_score_clip 0%Z = 1%Z /\
    nth 1 target_score_clip 0%Z = 1%Z.
Proof.
  apply (target_marks_following_chunk roc_extra_examples.first_window 3 3 0
           roc_extra_examples.first_row []
           "d/" "a.wav" "bird" 100 eq_refl).
  - lia.
  - reflexivity.
  - lia.
  - lia.
  - left. reflexivity.
Defined.

(** X22: with a positive chunk size and clip lengths that are not
    negative, [get_target_annotations] returns: one entry of
    [chunk_size_list] per distinct (folder, file) pair, in increasing
    order of the pairs, and a target array of zeros and ones with as many
    entries as the chunks recorded in the list. *)
Theorem get_target_annotations_total (chunked_manual_df : DataFrame)
    (chunk_size : Q) :
  0 < chunk_size ->
  (forall r, In r chunked_manual_df -> 0 <= CLIP_LENGTH r) ->
  exists target_score_array chunk_size_list,
    get_target_annotations chunked_manual_df chunk_size
    = Ok (target_score_array, chunk_size_list) /\
    map snd chunk_size_list = map snd (np_unique_index chunked_manual_df) /\
    List.length target_score_array = recorded_chunks chunk_size_list /\
    binary target_score_array.
Proof.
  intros Hpos Hlen. unfold get_target_annotations.
  destruct (target_loop chunked_manual_df chunk_size Hpos Hlen
              (np_unique_index chunked_manual_df) [] [])
    as (t & c & Hrun & Hl & Hb & Hn); [auto|].
  exists t, c. split; [exact Hrun|]. auto.
Qed.

Lemma get_target_annotations_total_witness :
  exists target_score_array chunk_size_list,
    get_target_annotations roc_examples.chunked_2s 2
    = Ok (target_score_array, chunk_size_list) /\
    map snd chunk_size_list = ["a.wav"; "b.wav"]%string.
Proof.
  destruct (get_target_annotations_total roc_examples.chunked_2s 2)
    as (t & c & Hrun & Hn & _).
  - reflexivity.
  - intros r [<-|[<-|[<-|[]]]]; vm_compute; discriminate.
  - exists t, c. split; [exact Hrun|exact Hn].
Defined.

(** X23: no score that [get_confidence_array] returns is negative: the
    greatest score of a chunk is searched from 0.0 upwards, so a chunk
    whose scores are all below zero is given 0. *)
Theorem confidence_scores_nonneg (local_scores_array : list (string * list Q))
    (chunked_df : DataFrame) (chunk_size_list : list chunk_size_entry)
    (scores : list Q) :
  get_confidence_array local_scores_array chunked_df chunk_size_list
    = Ok scores ->
  Forall (fun x => 0 <= x) scores.
Proof.
  unfold get_confidence_array.
  destruct (confidence_loop _ _ _ _ _) as [f|e] eqn:Hloop; cbn [bind];
    [|discriminate].
  pose proof (confidence_loop_nonneg _ _ _ _ _ _ Hloop) as H.
  cbn [array_of_max_scores] in H. specialize (H (Forall_nil _)).
  destruct f as [s|s]; intros [= <-]; apply H; auto.
Qed.

(** The four chunks of the two clips, scored on curves below zero. *)
Lemma confidence_scores_nonneg_witness :
  Forall (fun x => 0 <= x) [0; 0; 0; 0].
Proof.
  apply (confidence_scores_nonneg roc_extra_examples.negative_curves
           roc_examples.chunked_3s
           [(1%Z, 3, "a.wav"%string); (3%Z, 10, "b.wav"%string)]).
  vm_compute. reflexivity.
Defined.

(** X24: when every manual file that has automated labels has a score
    curve, [raw_local_arrays] returns a target array of zeros and ones and
    a confidence array of the same length. *)
Theorem raw_local_arrays_aligned (automated_df manual_df : DataFrame)
    (local_scoress : list (string * list Q)) :
  (forall r, In r manual_df -> isin_files automated_df r = true ->
             exists scores, lookup local_scoress (IN_FILE r) = Ok scores) ->
  exists target_array confidence_scores_array,
    raw_local_arrays automated_df manual_df local_scoress
    = Ok (target_array, confidence_scores_array) /\
    List.length target_array = List.length confidence_scores_array /\
    binary target_array.
Proof.
  intros Hcurves. unfold raw_local_arrays.
  destruct (raw_local_loop (filter (isin_files automated_df) manual_df)
              local_scoress) with
      (items := np_unique_index (filter (isin_files automated_df) manual_df))
      (t := @nil Z) (c := @nil Q)
    as (t & c & Hrun & Hl & Hb).
  - intros r Hr. apply filter_In in Hr. destruct Hr. now apply Hcurves.
  - auto.
  - exists t, c. split; [exact Hrun|]. auto.
Qed.

Lemma raw_local_arrays_aligned_witness :
  exists target_array confidence_scores_array,
    raw_local_arrays roc_examples.chunked_3s roc_examples.chunked_3s
                     roc_examples.score_curves
    = Ok (target_array, confidence_scores_array) /\
    List.length target_array = List.length confidence_scores_array.
Proof.
  destruct (raw_local_arrays_aligned roc_examples.chunked_3s
              roc_examples.chunked_3s roc_examples.score_curves)
    as (t & c & Hrun & Hl & _).
  - intros r [<-|[<-|[]]] _; eexists; reflexivity.
  - exists t, c. split; [exact Hrun|exact Hl].
Defined.

End RocExtras.
